(** * sdm-pack-jira: routing of JIRA issue events to chat notifications

    A shallow embedding of the routing core of the pack:
    - [mungeJiraPrefs], [queryJiraChannelPrefs]  (commands/configureChannelPrefs.ts)
    - [buildJiraHashKey]                         (commands/shared.ts)
    - [getJiraDetails]                           (jiraDataLookup.ts)
    - [getJiraIssueDescription], [routeEvent]    (routeEvent.ts)
    - [onJiraIssueEventApprovalHandler]          (event/onJiraIssueEvent.ts)

    JavaScript values that may be [undefined] or [null] are [option]s,
    promises that may reject are computations in the monad [M] below, and
    the collaborators whose code lives outside these files are gathered in
    the record [Env]. *)

From Stdlib Require Import ZArith Lia Ascii String.
From stdpp Require Import base option list strings gmap sorting pretty countable.

Open Scope string_scope.
Open Scope list_scope.

(** ** Channel preferences *)

(** [JiraPreference]: every flag is [undefined | boolean] on a stored
    record, hence an [option bool]. *)
Record JiraPreference := {
  channel : string;
  issueComment : option bool;
  issueDeleted : option bool;
  issueCreated : option bool;
  issueState : option bool;
  issueStatus : option bool;
  bug : option bool;
  task : option bool;
  epic : option bool;
  story : option bool;
  subtask : option bool;
}.

(** The five notification categories and the five issue types. *)
Inductive Category :=
  IssueCreated | IssueDeleted | IssueComment | IssueStatus | IssueState.

Inductive IssueType := Bug | Task | Epic | Story | Subtask.

Inductive PrefKey := CategoryKey (c : Category) | TypeKey (t : IssueType).

#[global] Instance Category_eq_dec : EqDecision Category.
Proof. solve_decision. Defined.
#[global] Instance IssueType_eq_dec : EqDecision IssueType.
Proof. solve_decision. Defined.
#[global] Instance PrefKey_eq_dec : EqDecision PrefKey.
Proof. solve_decision. Defined.
#[global] Instance JiraPreference_eq_dec : EqDecision JiraPreference.
Proof. solve_decision. Defined.

(** Property read [c[key]] on a preference record. *)
Definition prefGet (k : PrefKey) (c : JiraPreference) : option bool :=
  match k with
  | CategoryKey IssueCreated => issueCreated c
  | CategoryKey IssueDeleted => issueDeleted c
  | CategoryKey IssueComment => issueComment c
  | CategoryKey IssueStatus => issueStatus c
  | CategoryKey IssueState => issueState c
  | TypeKey Bug => bug c
  | TypeKey Task => task c
  | TypeKey Epic => epic c
  | TypeKey Story => story c
  | TypeKey Subtask => subtask c
  end.

(** [x === true] on a value that may be [undefined]. *)
Definition isTrue (x : option bool) : bool :=
  match x with Some true => true | _ => false end.

(** The local helper [a] of [mungeJiraPrefs]:
    [(b) => b !== undefined ? b : true]. *)
Definition a (b : option bool) : bool :=
  match b with Some v => v | None => true end.

Definition mungeJiraPrefs (prefs : JiraPreference) : JiraPreference :=
  {| channel := channel prefs;
     issueComment := Some (a (issueComment prefs));
     issueDeleted := Some (a (issueDeleted prefs));
     issueCreated := Some (a (issueCreated prefs));
     issueState := Some (a (issueState prefs));
     issueStatus := Some (a (issueStatus prefs));
     bug := Some (a (bug prefs));
     task := Some (a (task prefs));
     epic := Some (a (epic prefs));
     story := Some (a (story prefs));
     subtask := Some (a (subtask prefs)) |}.

(** [queryJiraChannelPrefs]; [cachedJiraPreferenceLookup] (cache/lookup.ts)
    is a parameter: it yields the stored record of a channel, if any. *)
Definition queryJiraChannelPrefs
    (cachedJiraPreferenceLookup : string → option JiraPreference)
    (channel : string) : JiraPreference :=
  match cachedJiraPreferenceLookup channel with
  | Some result => mungeJiraPrefs result
  | None =>
      {| channel := channel;
         issueComment := Some true;
         issueDeleted := Some true;
         issueCreated := Some true;
         issueState := Some false;
         issueStatus := Some false;
         bug := Some true;
         task := Some true;
         epic := Some true;
         story := Some true;
         subtask := Some true |}
  end.

(** The opt-in categories of the synthesized default record. *)
Definition optInKey (k : PrefKey) : bool :=
  match k with
  | CategoryKey IssueState | CategoryKey IssueStatus => true
  | _ => false
  end.

(** ** Values fetched from the tracker *)

Record Transition := { transition_id : string; transition_name : string }.

(** [jiraTypes.JiraIssueTransitions]; the [transitions] property may be
    missing from a response body. *)
Record JiraIssueTransitions := { transitions : option (list Transition) }.

(** [jiraTypes.Issue], restricted to the properties the router reads:
    [self], [fields.summary] and [fields.description] (which may be [null]). *)
Record Issue := {
  issue_self_url : string;
  fields_summary : string;
  fields_description : option string;
}.

(** [getJiraDetails<T>] casts [result.body] to [T] without a check, so a
    body is whatever the tracker answered. *)
Inductive JiraBody :=
  | IssueBody (i : Issue)
  | TransitionsBody (t : JiraIssueTransitions).

(** ** Errors, outcomes and the world *)

Inductive JsError :=
  | TypeError (msg : string)
  | TransportError (status : Z) (body : string)
  | AuthenticatorError (msg : string)
  | WrappedError (e : JsError)
  (** an [Error] thrown by a dependency, with its message *)
  | LibraryError (msg : string).

Inductive Outcome (A : Type) :=
  | Returned (x : A)
  | Thrown (e : JsError).
Arguments Returned {A} x.
Arguments Thrown {A} e.

Inductive PostMode := always | update_only.

Record MessageOptions := { msg_id : string; msg_post : PostMode }.

Definition Attachment := string.

Inductive Action :=
  | CommentButton (issueId : string)
  | SetStatusMenu (options : list (string * string)) (selfUrl : string).

Record SlackMessage := {
  pretext : option string;
  attachments : list Attachment;
  footer : string;
  actions : list Action;
}.

(** One call of [ctx.messageClient.addressChannels]. *)
Record Delivery := {
  delivered_message : SlackMessage;
  delivered_channels : list string;
  delivered_options : option MessageOptions;
}.

Record RepoRef := { ref_owner : string; ref_repo : string; ref_sha : string; ref_branch : string }.

Record Goal := { goal_name : string; successDescription : string }.

(** One call of [updateGoal] with [state: SdmGoalState.success]. *)
Record GoalUpdate := {
  updated_goal : string;
  updated_description : string;
}.

Record CacheEntry := { entry_value : JiraBody; entry_expiry : Z }.

Record World := {
  now : Z;
  jiraCache : gmap string CacheEntry;
  exchanges : list string;
  logs : list string;
  sent : list Delivery;
  goalUpdates : list GoalUpdate;
}.

(** A promise-returning function: it reads and changes the world and either
    resolves or rejects. *)
Definition M (A : Type) : Type := World → Outcome A * World.

Definition ret {A} (x : A) : M A := fun w => (Returned x, w).

Definition throw {A} (e : JsError) : M A := fun w => (Thrown e, w).

Definition bind {A B} (m : M A) (k : A → M B) : M B :=
  fun w =>
    match m w with
    | (Returned x, w') => k x w'
    | (Thrown e, w') => (Thrown e, w')
    end.

(** [try { m } catch (e) { h e }] *)
Definition tryCatch {A} (m : M A) (h : JsError → M A) : M A :=
  fun w =>
    match m w with
    | (Returned x, w') => (Returned x, w')
    | (Thrown e, w') => h e w'
    end.

Definition lift {A} (o : Outcome A) : M A := fun w => (o, w).

#[global] Instance M_ret : MRet M := @ret.
#[global] Instance M_bind : MBind M := fun A B k m => bind m k.

Definition log (line : string) : M unit :=
  fun w =>
    (Returned tt,
     {| now := now w; jiraCache := jiraCache w; exchanges := exchanges w;
        logs := logs w ++ [line]; sent := sent w; goalUpdates := goalUpdates w |}).

(** ** The cache *)

(** Modelled from the spec: the [JiraCache] interface and its default
    implementation (support/cache) are not among the sources.  Per §4.1,
    [get] on an absent or expired key is a miss, and [set] overwrites the
    entry and restarts its time-to-live. *)
Definition cacheLookup (key : string) (w : World) : option JiraBody :=
  match jiraCache w !! key with
  | Some e => if bool_decide (now w < entry_expiry e)%Z then Some (entry_value e) else None
  | None => None
  end.

Definition jiraCache_get (key : string) : M (option JiraBody) :=
  fun w => (Returned (cacheLookup key w), w).

Definition jiraCache_set (key : string) (value : JiraBody) (ttl : Z) : M unit :=
  fun w =>
    (Returned tt,
     {| now := now w;
        jiraCache := <[key := {| entry_value := value; entry_expiry := (now w + ttl)%Z |}]> (jiraCache w);
        exchanges := exchanges w; logs := logs w; sent := sent w;
        goalUpdates := goalUpdates w |}).

(** ** Awaited collaborators *)

(** What awaiting a collaborator comes to.  The promise resolves or
    rejects after some time (in seconds, as the time-to-live of the cache);
    meanwhile the collaborator may have sent requests to the tracker,
    written log lines and read, filled or emptied the cache.  It addresses
    no channel and updates no goal: in these files only [routeEvent] and
    the handlers do. *)
Record Awaited (A : Type) := {
  settled : Outcome A;
  elapsed : N;
  requested : list string;
  logged : list string;
  cacheAfter : gmap string CacheEntry;
}.
Arguments settled {A} _.
Arguments elapsed {A} _.
Arguments requested {A} _.
Arguments logged {A} _.
Arguments cacheAfter {A} _.

(** [await run]: the world moves on as the run says. *)
Definition await {A} (run : World → Awaited A) : M A :=
  fun w =>
    let r := run w in
    (settled r,
     {| now := (now w + Z.of_N (elapsed r))%Z;
        jiraCache := cacheAfter r;
        exchanges := exchanges w ++ requested r;
        logs := logs w ++ logged r;
        sent := sent w;
        goalUpdates := goalUpdates w |}).

(** A collaborator that answers at once and touches nothing. *)
Definition resolved {A} (x : A) : World → Awaited A :=
  fun w =>
    {| settled := Returned x; elapsed := 0; requested := []; logged := [];
       cacheAfter := jiraCache w |}.

(** A collaborator that fails after [seconds], one request sent. *)
Definition rejected {A} (e : JsError) (seconds : N) (url : string) : World → Awaited A :=
  fun w =>
    {| settled := Thrown e; elapsed := seconds; requested := [url]; logged := [];
       cacheAfter := jiraCache w |}.

(** ** Inbound events *)

Record JiraIssueRef := { issue_id : string; issue_key : string; issue_self : string }.

Record Comment := { comment_body : string }.

(** A changelog item carries the new display value in its own [toString]
    property. *)
Record ChangelogItem := { field : string; toString : option string }.

Record Changelog := { items : list ChangelogItem }.

(** [types.OnJiraIssueEvent.JiraIssue]; the nullable fields arrive as
    [null], which is [None] here. *)
Record JiraIssueEvent := {
  webhookEvent : string;
  issue_event_type_name : option string;
  issue : JiraIssueRef;
  comment : option Comment;
  changelog : option Changelog;
  timestamp : string;
}.

Inductive HttpResult :=
  | HttpOk (body : JiraBody)
  | HttpFailed (status : Z) (body : string).

(** ** Collaborators

    Configuration values and the functions of the pack and of its
    dependencies whose code is outside the files embedded here.  The
    asynchronous ones are runs in a world: they read the store and the
    tracker through the cache, take time and may reject (§2, §4.2, §4.3 and
    §7 of the specification). *)
Record Env := {
  (** [sdm.jira.url] *)
  jira_url : string;
  (** [configurationValue("sdm.jira.useCache", false)] *)
  jira_useCache : bool;
  (** the answer of [httpClient.exchange] to a GET on a URL *)
  httpGet : string → HttpResult;
  (** the time that exchange takes, in seconds *)
  httpElapsed : string → N;
  (** [getJiraAuth(ctx)]: the Authorization header, or a rejection *)
  getJiraAuth : Outcome string;
  buildSelfUrl : string → string;
  slack_url : string → string → string;
  (** [jiraDetermineNotifyChannels(ctx, event)] (helpers/channelLookup.ts) *)
  jiraDetermineNotifyChannels : JiraIssueEvent → World → Awaited (list JiraPreference);
  (** the type of the event's issue, when it is one of the five known *)
  issueTypeOf : JiraIssueEvent → option IssueType;
  (** the reads that one call [jiraParseChannels(channels, event, check)]
      makes before it answers *)
  jiraParseChannels_reads :
    list JiraPreference → JiraIssueEvent → Category → World → Awaited unit;
  (** the four composers of helpers/msgHelpers.ts *)
  prepareNewIssueMessage : string → JiraBody → World → Awaited (list Attachment);
  prepareIssueDeletedMessage : JiraIssueEvent → World → Awaited (list Attachment);
  prepareStateChangeMessage : JiraIssueEvent → World → Awaited (list Attachment);
  prepareIssueCommentedMessage : JiraIssueEvent → JiraBody → World → Awaited (list Attachment);
  buildJiraFooter : JiraBody → string;
  (** [GitHubRepoRef.from] of the automation client: the reference, or the
      error it throws on parameters it does not accept *)
  GitHubRepoRef_from : RepoRef → Outcome RepoRef;
  (** the [providerId]s of the goals returned by the graph query
      [GetGoalByJiraIssueId] *)
  goalByJiraIssueId : string → World → Awaited (list string);
  findSdmGoalOnCommit : RepoRef → string → Goal → World → Awaited string;
  (** whether [updateGoal] on a goal goes through *)
  updateGoal_accepted : string → World → Awaited unit;
}.

(** ** getJiraDetails *)

Definition httpClient_exchange (env : Env) (url : string) : M JiraBody :=
  fun w =>
    let w' := {| now := (now w + Z.of_N (httpElapsed env url))%Z;
                 jiraCache := jiraCache w;
                 exchanges := exchanges w ++ [url];
                 logs := logs w; sent := sent w; goalUpdates := goalUpdates w |} in
    match httpGet env url with
    | HttpOk body => (Returned body, w')
    | HttpFailed status body => (Thrown (TransportError status body), w')
    end.

Definition getJiraDetails (env : Env) (jiraSelfUrl : string) (cache : bool) (ttl : Z)
  : M JiraBody :=
  let useCache := jira_useCache env && cache in
  cacheResult ← jiraCache_get jiraSelfUrl;
  match useCache, cacheResult with
  | true, Some cached =>
      log ("JIRA getJiraDetails => " +:+ jiraSelfUrl +:+ ": Cache hit, re-using value...") ;;
      ret cached
  | _, _ =>
      log ("JIRA getJiraDetails => " +:+ jiraSelfUrl +:+ ": Cache "
           +:+ (if useCache then "miss" else "disabled") +:+ ", querying...") ;;
      tryCatch
        (_ ← lift (getJiraAuth env);
         body ← httpClient_exchange env jiraSelfUrl;
         (if cache then jiraCache_set jiraSelfUrl body ttl else ret tt) ;;
         ret body)
        (fun e =>
           (* the logged line ends with the rendering of [e], left out here *)
           log ("JIRA getJiraDetails: Failed to retrieve details for " +:+ jiraSelfUrl) ;;
           throw (WrappedError e))
  end.

(** ** Selecting the channels to notify *)

(** [_.uniqBy(xs, iteratee)]: the first element for each iteratee value,
    in order of first occurrence. *)
Fixpoint uniqByFrom {A B} `{EqDecision B} (f : A → B) (seen : list B) (xs : list A)
  : list A :=
  match xs with
  | [] => []
  | x :: rest =>
      if bool_decide (f x ∈ seen) then uniqByFrom f seen rest
      else x :: uniqByFrom f (f x :: seen) rest
  end.

Definition uniqBy {A B} `{EqDecision B} (f : A → B) (xs : list A) : list A :=
  uniqByFrom f [] xs.

(** The issue-type flag of a record; an unrecognized type counts as enabled. *)
Definition typeFlag (t : option IssueType) (c : JiraPreference) : bool :=
  match t with
  | Some t => isTrue (prefGet (TypeKey t) c)
  | None => true
  end.

(** Modelled from the spec: [jiraParseChannels] (helpers/channelLookup.ts)
    is not among the sources.  Per §4.3 it keeps the candidate channels
    whose preference record has both the category flag and the issue-type
    flag enabled, the type flag being treated as true when the issue type
    is unrecognized.  This is what a call resolves to. *)
Definition jiraParseChannels (env : Env) (channels : list JiraPreference)
    (event : JiraIssueEvent) (check : Category) : list JiraPreference :=
  List.filter
    (fun c => isTrue (prefGet (CategoryKey check) c) && typeFlag (issueTypeOf env event) c)
    channels.

(** Modelled from the spec: the call [await jiraParseChannels(..)] itself.
    Per §4.3 and §7 the filter reads through the cache before it answers,
    and a read that fails rejects the call. *)
Definition jiraParseChannels_call (env : Env) (channels : list JiraPreference)
    (event : JiraIssueEvent) (check : Category) : M (list JiraPreference) :=
  await (jiraParseChannels_reads env channels event check) ;;
  mret (jiraParseChannels env channels event check).

(** [name.match(/^(issue_generic|issue_updated|issue_assigned)$/)] *)
Definition matchesStateChange (name : string) : bool :=
  (name =? "issue_generic") || (name =? "issue_updated") || (name =? "issue_assigned").

(** The [channels] array of [routeEvent] once the four [if] statements
    have run, each call of [jiraParseChannels] having resolved. *)
Definition collectChannels (env : Env) (event : JiraIssueEvent)
    (newChannels : list JiraPreference) : list JiraPreference :=
  let channels := [] in
  let channels :=
    match comment event with
    | Some _ => channels ++ jiraParseChannels env newChannels event IssueComment
    | None => channels
    end in
  let channels :=
    match issue_event_type_name event with
    | Some name =>
        if matchesStateChange name then
          if name =? "issue_generic" then
            channels ++ jiraParseChannels env newChannels event IssueStatus
          else if (name =? "issue_assigned") || (name =? "issue_updated") then
            channels ++ jiraParseChannels env newChannels event IssueState
          else channels
        else channels
    | None => channels
    end in
  let channels :=
    match issue_event_type_name event with
    | Some name =>
        if name =? "issue_created" then
          channels ++ jiraParseChannels env newChannels event IssueCreated
        else channels
    | None => channels
    end in
  let channels :=
    if webhookEvent event =? "jira:issue_deleted" then
      channels ++ List.filter (fun c => isTrue (issueDeleted c)) newChannels
    else channels in
  channels.

(** The categories under which [routeEvent] pushes channels for an event,
    in the order of its [if] statements. *)
Definition categoriesOf (event : JiraIssueEvent) : list Category :=
  (match comment event with Some _ => [IssueComment] | None => [] end) ++
  (match issue_event_type_name event with
   | Some name =>
       if matchesStateChange name then
         if name =? "issue_generic" then [IssueStatus]
         else if (name =? "issue_assigned") || (name =? "issue_updated") then [IssueState]
         else []
       else []
   | None => []
   end) ++
  (match issue_event_type_name event with
   | Some name => if name =? "issue_created" then [IssueCreated] else []
   | None => []
   end) ++
  (if webhookEvent event =? "jira:issue_deleted" then [IssueDeleted] else []).

(** What one category contributes to [channels]. *)
Definition channelsFor (env : Env) (event : JiraIssueEvent)
    (newChannels : list JiraPreference) (c : Category) : list JiraPreference :=
  match c with
  | IssueDeleted => List.filter (fun c => isTrue (issueDeleted c)) newChannels
  | _ => jiraParseChannels env newChannels event c
  end.

(** ** Composing the message *)

Record IssueDescription := {
  description : option string;
  issueTransitions : option JiraBody;
  msgOptions : option MessageOptions;
}.

(** [issueDetail.fields.summary] *)
Definition issueSummary (issueDetail : JiraBody) : Outcome string :=
  match issueDetail with
  | IssueBody i => Returned (fields_summary i)
  | TransitionsBody _ => Thrown (TypeError "Cannot read property 'summary' of undefined")
  end.

Definition getJiraIssueDescription (env : Env) (issueDetail : JiraBody)
    (event : JiraIssueEvent) (newEvent : bool) : M IssueDescription :=
  let key := issue_key (issue event) in
  let post := if newEvent then always else update_only in
  if (webhookEvent event =? "comment_created") || (webhookEvent event =? "jira:issue_updated") then
    transitions ← getJiraDetails env (buildSelfUrl env (issue_id (issue event)) +:+ "/transitions") true 5;
    summary ← lift (issueSummary issueDetail);
    mret {| description :=
              Some ("JIRA Issue updated " +:+
                    slack_url env (jira_url env +:+ "/browse/" +:+ key) (key +:+ ": " +:+ summary));
            issueTransitions := Some transitions;
            msgOptions :=
              Some {| msg_id := "jira/issue_updated/" +:+ key +:+ "/" +:+ timestamp event;
                      msg_post := post |} |}
  else if webhookEvent event =? "jira:issue_created" then
    transitions ← getJiraDetails env (buildSelfUrl env (issue_id (issue event)) +:+ "/transitions") true 5;
    summary ← lift (issueSummary issueDetail);
    mret {| description :=
              Some ("JIRA Issue created " +:+
                    slack_url env (jira_url env +:+ "/browse/" +:+ key) (key +:+ ": " +:+ summary));
            issueTransitions := Some transitions;
            msgOptions :=
              Some {| msg_id := "jira/issue_created/" +:+ key +:+ "/" +:+ timestamp event;
                      msg_post := post |} |}
  else if webhookEvent event =? "jira:issue_deleted" then
    mret {| description :=
              Some (slack_url env (jira_url env +:+ "/browse/" +:+ key)
                      ("JIRA Issue " +:+ key +:+ " deleted"));
            issueTransitions := None;
            msgOptions :=
              Some {| msg_id := "jira/issue_deleted/" +:+ key +:+ "/" +:+ timestamp event;
                      msg_post := post |} |}
  else
    mret {| description := None; issueTransitions := None; msgOptions := None |}.

(** The [options] of the "Set Status" menu:
    [issueTransitions.hasOwnProperty("transitions") &&
     issueTransitions.transitions.length > 0 ? issueTransitions.transitions.map(..) : []] *)
Definition transitionOptions (issueTransitions : option JiraBody)
  : Outcome (list (string * string)) :=
  match issueTransitions with
  | None => Thrown (TypeError "Cannot read property 'hasOwnProperty' of undefined")
  | Some (TransitionsBody {| transitions := Some ts |}) =>
      Returned (if (0 <? length ts)%nat
                then map (fun t => (transition_name t, transition_id t)) ts
                else [])
  | Some _ => Returned []
  end.

(** [issueTransitions.transitions.length] *)
Definition transitionsLength (issueTransitions : option JiraBody) : Outcome nat :=
  match issueTransitions with
  | Some (TransitionsBody {| transitions := Some ts |}) => Returned (length ts)
  | _ => Thrown (TypeError "Cannot read property 'length' of undefined")
  end.

(** [issueDetail.self] inside a template string *)
Definition bodySelf (issueDetail : JiraBody) : string :=
  match issueDetail with
  | IssueBody i => issue_self_url i
  | TransitionsBody _ => "undefined"
  end.

Definition addressChannels (msg : SlackMessage) (channels : list string)
    (options : option MessageOptions) : M unit :=
  fun w =>
    (Returned tt,
     {| now := now w; jiraCache := jiraCache w; exchanges := exchanges w;
        logs := logs w;
        sent := sent w ++ [{| delivered_message := msg; delivered_channels := channels;
                              delivered_options := options |}];
        goalUpdates := goalUpdates w |}).

(** [channels.push(...(await jiraParseChannels(newChannels, event, check)))] *)
Definition pushParsed (env : Env) (newChannels : list JiraPreference)
    (event : JiraIssueEvent) (check : Category) (channels : list JiraPreference)
  : M (list JiraPreference) :=
  parsed ← jiraParseChannels_call env newChannels event check;
  mret (channels ++ parsed).

(** The four [if] statements of [routeEvent] that fill [channels], with
    their awaits. *)
Definition gatherChannels (env : Env) (event : JiraIssueEvent)
    (newChannels : list JiraPreference) : M (list JiraPreference) :=
  let channels := [] in
  channels ←
    match comment event with
    | Some _ => pushParsed env newChannels event IssueComment channels
    | None => mret channels
    end;
  channels ←
    match issue_event_type_name event with
    | Some name =>
        if matchesStateChange name then
          if name =? "issue_generic" then
            pushParsed env newChannels event IssueStatus channels
          else if (name =? "issue_assigned") || (name =? "issue_updated") then
            pushParsed env newChannels event IssueState channels
          else mret channels
        else mret channels
    | None => mret channels
    end;
  channels ←
    match issue_event_type_name event with
    | Some name =>
        if name =? "issue_created" then
          pushParsed env newChannels event IssueCreated channels
        else mret channels
    | None => mret channels
    end;
  let channels :=
    if webhookEvent event =? "jira:issue_deleted" then
      channels ++ List.filter (fun c => isTrue (issueDeleted c)) newChannels
    else channels in
  mret channels.

(** The four [message.push(...(await prepare..Message(..)))] of
    [routeEvent]. *)
Definition gatherMessage (env : Env) (event : JiraIssueEvent) (issueDetail : JiraBody)
  : M (list Attachment) :=
  let message := [] in
  new ← await (prepareNewIssueMessage env (webhookEvent event) issueDetail);
  let message := message ++ new in
  deleted ← await (prepareIssueDeletedMessage env event);
  let message := message ++ deleted in
  changed ← await (prepareStateChangeMessage env event);
  let message := message ++ changed in
  commented ← await (prepareIssueCommentedMessage env event issueDetail);
  let message := message ++ commented in
  mret message.

Definition routeEvent (env : Env) (event : JiraIssueEvent) (newEvent : bool) : M unit :=
  issueDetail ←
    getJiraDetails env (buildSelfUrl env (issue_id (issue event)) +:+ "?expand=changelog") true 30;
  d ← getJiraIssueDescription env issueDetail event newEvent;
  newChannels ← await (jiraDetermineNotifyChannels env event);
  channels ← gatherChannels env event newChannels;
  message ← gatherMessage env event issueDetail;
  options ← lift (transitionOptions (issueTransitions d));
  if (0 <? length message)%nat && (0 <? length channels)%nat then
    let notifyChannels := uniqBy channel channels in
    n ← lift (transitionsLength (issueTransitions d));
    let finalMessage :=
      {| pretext := description d;
         attachments := message;
         footer := buildJiraFooter env issueDetail;
         actions :=
           (if negb (webhookEvent event =? "jira:issue_deleted")
            then [CommentButton (issue_id (issue event))] else []) ++
           (if (0 <? n)%nat
            then [SetStatusMenu options (bodySelf issueDetail +:+ "/transitions")] else []) |} in
    if (0 <? length notifyChannels)%nat then
      addressChannels finalMessage (map channel notifyChannels) (msgOptions d)
    else mret tt
  else
    (if negb (0 <? length message)%nat
     then log "JIRA routeEvent: Message is empty, not sending message" else mret tt) ;;
    (if negb (0 <? length channels)%nat
     then log "JIRA routeEvent: No channels found, not sending message" else mret tt).

(** ** The approval handler *)

(** Line terminators, which [.] does not match.  Strings are sequences of
    8-bit code units here, so U+2028 and U+2029 do not occur. *)
Definition isLineTerminator (c : ascii) : bool :=
  (c =? "010")%char || (c =? "013")%char.

Fixpoint stripPrefix (p s : string) : option string :=
  match p, s with
  | EmptyString, _ => Some s
  | String x p', String y s' => if (x =? y)%char then stripPrefix p' s' else None
  | String _ _, EmptyString => None
  end.

(** The capture group followed by the closing bracket, matched at the
    start of [s]: the longest run without a line terminator that is followed
    by a closing bracket (the group is greedy). *)
Fixpoint groupThenBracket (s : string) : option string :=
  match s with
  | EmptyString => None
  | String c rest =>
      if isLineTerminator c then None
      else match groupThenBracket rest with
           | Some g => Some (String c g)
           | None => if (c =? "]")%char then Some EmptyString else None
           end
  end.

(** [exec] of a fresh regular expression made of the literal text [marker]
    (such as [atomist:sha:] after an opening bracket), a greedy capture
    group of any characters but line terminators, and a closing bracket:
    capture group 1 of the leftmost match, or [None] for the [null] of a
    failed match. *)
Fixpoint regexExec (marker s : string) : option string :=
  let here :=
    match stripPrefix marker s with
    | Some rest => groupThenBracket rest
    | None => None
    end in
  match here with
  | Some g => Some g
  | None =>
      match s with
      | EmptyString => None
      | String _ rest => regexExec marker rest
      end
  end.

(** Element 1 of the result of [exec] on [issue.fields.description] for
    the marker of [tag]; [exec] converts a [null] description to the
    four-letter string null. *)
Definition environmentTag (tag : string) (issue : JiraBody) : Outcome string :=
  match issue with
  | TransitionsBody _ => Thrown (TypeError "Cannot read property 'description' of undefined")
  | IssueBody i =>
      match regexExec ("[atomist:" +:+ tag +:+ ":")
                      (default "null" (fields_description i)) with
      | Some g => Returned g
      | None => Thrown (TypeError "Cannot read property '1' of null")
      end
  end.

(** [!s] on a string *)
Definition isEmptyString (s : string) : bool :=
  match s with EmptyString => true | _ => false end.

Inductive HandlerResult := Success.

Definition goalUpdated (sdmGoal : string) (descr : string) : M unit :=
  fun w =>
    (Returned tt,
     {| now := now w; jiraCache := jiraCache w; exchanges := exchanges w;
        logs := logs w; sent := sent w;
        goalUpdates := goalUpdates w ++
                       [{| updated_goal := sdmGoal; updated_description := descr |}] |}).

(** [updateGoal(ctx, sdmGoal, {state: SdmGoalState.success, description})]
    of the SDM: the update is made when the call goes through. *)
Definition updateGoal (env : Env) (sdmGoal : string) (descr : string) : M unit :=
  await (updateGoal_accepted env sdmGoal) ;;
  goalUpdated sdmGoal descr.

Definition onJiraIssueEventApprovalHandler (env : Env) (goal : Goal)
    (JiraIssue : list JiraIssueEvent) : M HandlerResult :=
  match JiraIssue with
  | [] => throw (TypeError "Cannot read property 'issue' of undefined")
  | event :: _ =>
      issue_ ← getJiraDetails env (issue_self (issue event)) false 3600;
      sha ← lift (environmentTag "sha" issue_);
      owner ← lift (environmentTag "owner" issue_);
      repo ← lift (environmentTag "repo" issue_);
      branch ← lift (environmentTag "branch" issue_);
      if isEmptyString sha || isEmptyString owner || isEmptyString repo || isEmptyString branch
      then
        log "JIRA onJiraIssueEventApprovalHandler: No enviornment data found on issue, skipping event..." ;;
        mret Success
      else
        let wrongType :=
          log "JIRA onJiraIssueEventApprovalHandler: Not searching for approval, wrong event type." ;;
          mret Success in
        if negb (webhookEvent event =? "jira:issue_updated") then wrongType
        else
          match issue_event_type_name event with
          | None => throw (TypeError "Cannot read property 'match' of null")
          | Some name =>
              if negb (matchesStateChange name) then wrongType
              else
                match changelog event with
                | None => wrongType
                | Some log_ =>
                    let status := List.filter (fun c => field c =? "status") (items log_) in
                    log "JIRA onJiraIssueEventApprovalHandler: New status" ;;
                    match status with
                    | [] => throw (TypeError "Cannot read property 'toString' of undefined")
                    | first :: _ =>
                        match toString first with
                        | Some "Approved" =>
                            repoRef ← lift (GitHubRepoRef_from env
                                              {| ref_owner := owner; ref_repo := repo;
                                                 ref_sha := sha; ref_branch := branch |});
                            sdmGoalData ← await (goalByJiraIssueId env (issue_id (issue event)));
                            match sdmGoalData with
                            | [] =>
                                log "JIRA onJiraIssueEventApprovalHandler: No matching goal found for this issue, skipping..." ;;
                                mret Success
                            | providerId :: _ =>
                                sdmGoal ← await (findSdmGoalOnCommit env repoRef providerId goal);
                                updateGoal env sdmGoal (successDescription goal) ;;
                                mret Success
                            end
                        | _ => mret Success
                        end
                    end
                end
          end
  end.

(** ** Hash keys of channel mappings *)

Inductive JsValue := JsUndefined | JsString (s : string).

#[global] Instance JsValue_eq_dec : EqDecision JsValue.
Proof. solve_decision. Defined.

(** A mapping payload as the JavaScript object it is: its own properties
    in insertion order.  Property names of an object are distinct. *)
Definition JsObject := list (string * JsValue).

Definition wellFormed (o : JsObject) : Prop := NoDup o.*1.

(** [o.name]: [undefined] when the property is absent *)
Fixpoint getProp (o : JsObject) (name : string) : JsValue :=
  match o with
  | [] => JsUndefined
  | (k, v) :: rest => if k =? name then v else getProp rest name
  end.

Definition hasProp (o : JsObject) (name : string) : bool :=
  existsb (fun kv => fst kv =? name) o.

(** String conversion in a concatenation *)
Definition toStr (v : JsValue) : string :=
  match v with
  | JsUndefined => "undefined"
  | JsString s => s
  end.

(** [s || d] on strings *)
Definition orElse (s d : string) : string :=
  match s with EmptyString => d | _ => s end.

(** [buildJiraHashKey]; [objectHash] is the default export of the
    object-hash package. *)
Definition buildJiraHashKey (objectHash : JsObject → string)
    (workspaceId : string) (payload : JsObject) : string :=
  workspaceId +:+
  orElse ("-" +:+ toStr (getProp payload "componentId")) "" +:+
  orElse ("-" +:+ toStr (getProp payload "projectId")) "" +:+
  orElse ("-" +:+ toStr (getProp payload "channel")) "" +:+
  "-" +:+ objectHash payload.

(** ** The category table of the specification *)

(** The transition table of §4.4 of the specification, as written there:
    the category of a (webhookEvent, issue_event_type_name) pair, and no
    category for any other pair.  It is compared with [categoriesOf],
    which is read off the code. *)
Definition specCategory (event : JiraIssueEvent) : option Category :=
  let name := issue_event_type_name event in
  if webhookEvent event =? "jira:issue_created" then
    match name with
    | Some n => if n =? "issue_created" then Some IssueCreated else None
    | None => None
    end
  else if webhookEvent event =? "jira:issue_deleted" then Some IssueDeleted
  else if webhookEvent event =? "comment_created" then Some IssueComment
  else if webhookEvent event =? "jira:issue_updated" then
    match name with
    | Some n =>
        if n =? "issue_generic" then Some IssueStatus
        else if (n =? "issue_updated") || (n =? "issue_assigned") then Some IssueState
        else None
    | None => None
    end
  else None.

(** The categories [routeEvent] chooses from [issue_event_type_name]. *)
Definition byTypeName (c : Category) : bool :=
  match c with
  | IssueStatus | IssueState | IssueCreated => true
  | IssueDeleted | IssueComment => false
  end.

(** [issue_event_type_name] is none of the four names [routeEvent] tests. *)
Definition noTypeNameCategory (event : JiraIssueEvent) : bool :=
  match issue_event_type_name event with
  | Some n => negb (matchesStateChange n) && negb (n =? "issue_created")
  | None => true
  end.

(** ** Sample inputs *)

Definition sampleIssue : JiraIssueRef :=
  {| issue_id := "10001"; issue_key := "PROJ-1";
     issue_self := "https://jira.example.com/rest/api/2/issue/10001" |}.

(** An [issue_updated] event that also carries a comment. *)
Definition updatedWithComment : JiraIssueEvent :=
  {| webhookEvent := "jira:issue_updated";
     issue_event_type_name := Some "issue_updated";
     issue := sampleIssue;
     comment := Some {| comment_body := "Also raised the priority." |};
     changelog := Some {| items := [{| field := "priority"; toString := Some "High" |}] |};
     timestamp := "1561000000000" |}.

(** The record a channel gets when every flag has been switched on. *)
Definition allEnabled (name : string) : JiraPreference :=
  {| channel := name; issueComment := Some true; issueDeleted := Some true;
     issueCreated := Some true; issueState := Some true; issueStatus := Some true;
     bug := Some true; task := Some true; epic := Some true; story := Some true;
     subtask := Some true |}.

(** A stored record with no flag at all. *)
Definition noFlags (name : string) : JiraPreference :=
  {| channel := name; issueComment := None; issueDeleted := None;
     issueCreated := None; issueState := None; issueStatus := None;
     bug := None; task := None; epic := None; story := None; subtask := None |}.

(** A channel that wants deletions but no bugs. *)
Definition noBugs (name : string) : JiraPreference :=
  {| channel := name; issueComment := Some true; issueDeleted := Some true;
     issueCreated := Some true; issueState := Some true; issueStatus := Some true;
     bug := Some false; task := Some true; epic := Some true; story := Some true;
     subtask := Some true |}.

Definition sampleEvent (hook : string) (name : option string) (c : option Comment)
  : JiraIssueEvent :=
  {| webhookEvent := hook; issue_event_type_name := name; issue := sampleIssue;
     comment := c; changelog := None; timestamp := "1561000000000" |}.

Definition createdEvent : JiraIssueEvent :=
  sampleEvent "jira:issue_created" (Some "issue_created") None.

Definition deletedEvent : JiraIssueEvent :=
  sampleEvent "jira:issue_deleted" None None.

(** A comment added to an issue, as the tracker reports it. *)
Definition commentedEvent : JiraIssueEvent :=
  sampleEvent "jira:issue_updated" (Some "issue_commented")
              (Some {| comment_body := "Looks good." |}).

Definition movedEvent : JiraIssueEvent :=
  sampleEvent "jira:issue_updated" (Some "issue_moved") None.

Definition sampleDetail (descr : option string) : JiraBody :=
  IssueBody {| issue_self_url := "https://jira.example.com/rest/api/2/issue/10001";
               fields_summary := "Login fails";
               fields_description := descr |}.

Definition sampleTransitions : JiraBody :=
  TransitionsBody
    {| transitions := Some [{| transition_id := "21"; transition_name := "Done" |}] |}.

(** A tracker that answers every request. *)
Definition sampleTracker (descr : option string) (url : string) : HttpResult :=
  if url =? "https://jira.example.com/rest/api/2/issue/10001/transitions"
  then HttpOk sampleTransitions
  else HttpOk (sampleDetail descr).

(** A tracker that is down. *)
Definition failingTracker (url : string) : HttpResult :=
  HttpFailed 503 "Service Unavailable".

(** [c] is one of the digits [0-9a-f]. *)
Definition isHexDigit (c : ascii) : bool :=
  let n := nat_of_ascii c in
  ((48 <=? n) && (n <=? 57))%nat || ((97 <=? n) && (n <=? 102))%nat.

Fixpoint allHexDigits (s : string) : bool :=
  match s with
  | EmptyString => true
  | String c rest => isHexDigit c && allHexDigits rest
  end.

(** A stand-in for [GitHubRepoRef.from]: it accepts a [sha] of 40
    hexadecimal digits and throws on any other. *)
Definition checkedRepoRef (params : RepoRef) : Outcome RepoRef :=
  if (String.length (ref_sha params) =? 40)%nat && allHexDigits (ref_sha params)
  then Returned params
  else Thrown (LibraryError ("invalid SHA: " +:+ ref_sha params)).

(** An installation whose tracker answers in a second and whose helpers,
    the channel resolver apart, answer at once. *)
Definition sampleEnvWith (useCache : bool) (auth : Outcome string)
    (tracker : string → HttpResult)
    (resolver : JiraIssueEvent → World → Awaited (list JiraPreference)) : Env :=
  {| jira_url := "https://jira.example.com";
     jira_useCache := useCache;
     httpGet := tracker;
     httpElapsed := fun _ => 1%N;
     getJiraAuth := auth;
     buildSelfUrl := fun id => "https://jira.example.com/rest/api/2/issue/" +:+ id;
     slack_url := fun url label => "<" +:+ url +:+ "|" +:+ label +:+ ">";
     jiraDetermineNotifyChannels := resolver;
     issueTypeOf := fun _ => Some Bug;
     jiraParseChannels_reads := fun _ _ _ => resolved tt;
     prepareNewIssueMessage := fun _ _ => resolved ["Login fails"];
     prepareIssueDeletedMessage := fun _ => resolved [];
     prepareStateChangeMessage := fun _ => resolved [];
     prepareIssueCommentedMessage := fun _ _ => resolved [];
     buildJiraFooter := fun _ => "PROJ";
     GitHubRepoRef_from := checkedRepoRef;
     goalByJiraIssueId := fun _ => resolved [];
     findSdmGoalOnCommit := fun _ _ _ => resolved "approval";
     updateGoal_accepted := fun _ => resolved tt |}.

(** The resolver yields [candidates] at once. *)
Definition sampleEnv (useCache : bool) (auth : Outcome string)
    (tracker : string → HttpResult) (candidates : list JiraPreference) : Env :=
  sampleEnvWith useCache auth tracker (fun _ => resolved candidates).

Definition basicAuth : Outcome string := Returned "Basic c2RtOnNlY3JldA==".

Definition emptyWorld : World :=
  {| now := 1000; jiraCache := ∅; exchanges := []; logs := []; sent := [];
     goalUpdates := [] |}.

(** [s.includes(marker)]: the marker occurs somewhere in [s]. *)
Fixpoint contains (marker s : string) : bool :=
  match stripPrefix marker s with
  | Some _ => true
  | None =>
      match s with
      | EmptyString => false
      | String _ rest => contains marker rest
      end
  end.

(** The approval of a deployment, reported by the tracker. *)
Definition approvedEvent : JiraIssueEvent :=
  {| webhookEvent := "jira:issue_updated";
     issue_event_type_name := Some "issue_generic";
     issue := sampleIssue;
     comment := None;
     changelog := Some {| items := [{| field := "status"; toString := Some "Approved" |}] |};
     timestamp := "1561000000000" |}.

Definition deployGoal : Goal :=
  {| goal_name := "deploy-approval"; successDescription := "Approved in JIRA" |}.

(** A stand-in for object-hash that keeps the whole normalized payload: the
    properties are gathered in a finite map, which forgets their order, and
    the map is printed as a number. *)
Definition valueCode (v : JsValue) : option string :=
  match v with
  | JsUndefined => None
  | JsString s => Some s
  end.

Definition valueOfCode (c : option string) : JsValue :=
  match c with
  | None => JsUndefined
  | Some s => JsString s
  end.

#[global] Instance JsValue_countable : Countable JsValue.
Proof. apply (inj_countable' valueCode valueOfCode). by intros []. Defined.

Definition canonicalHash (o : JsObject) : string :=
  pretty (Npos (encode (list_to_map o : gmap string JsValue))).

(** ** More of the pack *)

(** *** The preference commands (commands/configureChannelPrefs.ts) *)

(** The parameters of [SetJiraChannelPrefs]. *)
Module JiraChannelPrefs.
Record t := {
  slackChannelName : string;
  issueCreated : bool;
  issueDeleted : bool;
  issueCommented : bool;
  issueStatus : bool;
  issueState : bool;
  bug : bool;
  task : bool;
  epic : bool;
  subtask : bool;
  story : bool;
}.
End JiraChannelPrefs.

(** What a command asks of the preference store, of the cache and of the
    chat: [preferences.put], [purgeCacheEntry] and [addressChannels] with a
    success message. *)
Inductive StoreRequest :=
  | PreferencePut (scope key : string) (payload : JiraPreference)
  | CachePurge (key : string)
  | SuccessReply (title text : string).

(** [setJiraChannelPrefs]: the record is put under
    [WORKSPACE-preferences-CHANNEL] in the scope [JIRAPreferences], the
    cache entry of that key is purged and the channel is told.  The requests
    are listed in the order in which they are awaited; the result is always
    the code 0. *)
Definition setJiraChannelPrefs (workspaceId : string) (parameters : JiraChannelPrefs.t)
  : list StoreRequest :=
  let payload :=
    {| channel := JiraChannelPrefs.slackChannelName parameters;
       issueCreated := Some (JiraChannelPrefs.issueCreated parameters);
       issueComment := Some (JiraChannelPrefs.issueCommented parameters);
       issueDeleted := Some (JiraChannelPrefs.issueDeleted parameters);
       issueStatus := Some (JiraChannelPrefs.issueStatus parameters);
       issueState := Some (JiraChannelPrefs.issueState parameters);
       bug := Some (JiraChannelPrefs.bug parameters);
       task := Some (JiraChannelPrefs.task parameters);
       epic := Some (JiraChannelPrefs.epic parameters);
       story := Some (JiraChannelPrefs.story parameters);
       subtask := Some (JiraChannelPrefs.subtask parameters) |} in
  let key := workspaceId +:+ "-preferences-" +:+ JiraChannelPrefs.slackChannelName parameters in
  [PreferencePut "JIRAPreferences" key payload;
   CachePurge key;
   SuccessReply
     ("Updated JIRA notification preferences for channel "
      +:+ JiraChannelPrefs.slackChannelName parameters)
     "Successfully updated channel notification preferences."].

(** [flag.toString()] on a flag that may be [undefined]. *)
Definition flagToString (flag : option bool) : Outcome string :=
  match flag with
  | Some true => Returned "true"
  | Some false => Returned "false"
  | None => Thrown (TypeError "Cannot read property 'toString' of undefined")
  end.

Definition prefsField (title : string) (flag : option bool) : Outcome (string * string) :=
  match flagToString flag with
  | Returned value => Returned (title, value)
  | Thrown e => Thrown e
  end.

(** The evaluation of a list of expressions from left to right, up to the
    first that throws. *)
Fixpoint sequenceOutcomes {A} (xs : list (Outcome A)) : Outcome (list A) :=
  match xs with
  | [] => Returned []
  | Thrown e :: _ => Thrown e
  | Returned x :: rest =>
      match sequenceOutcomes rest with
      | Returned ys => Returned (x :: ys)
      | Thrown e => Thrown e
      end
  end.

(** [getJiraChannelPrefs]: the [fields] of the message it sends back, or
    the error it throws again from its [catch]. *)
Definition getJiraChannelPrefs
    (cachedJiraPreferenceLookup : string → option JiraPreference)
    (slackChannelName : string) : Outcome (list (string * string)) :=
  let prefs := queryJiraChannelPrefs cachedJiraPreferenceLookup slackChannelName in
  match sequenceOutcomes
          [prefsField "Issue Created?" (issueCreated prefs);
           prefsField "Issue Deleted?" (issueDeleted prefs);
           prefsField "New Comments?" (issueComment prefs);
           prefsField "Issue Status Change?" (issueStatus prefs);
           prefsField "Issue Transitions?" (issueState prefs);
           prefsField "Bug Issue Type?" (bug prefs);
           prefsField "Task Issue Type?" (task prefs);
           prefsField "Epic Issue Type?" (epic prefs);
           prefsField "Story Issue Type?" (story prefs);
           prefsField "Sub-task Issue Type?" (subtask prefs)] with
  | Returned fields => Returned fields
  | Thrown e => Thrown (WrappedError e)
  end.

(** *** The event handler (event/onJiraIssueEvent.ts) *)


(** The middle part of a message id, by the cases of
    [getJiraIssueDescription]. *)
Definition messageKind (event : JiraIssueEvent) : option string :=
  if (webhookEvent event =? "comment_created") || (webhookEvent event =? "jira:issue_updated")
  then Some "issue_updated"
  else if webhookEvent event =? "jira:issue_created" then Some "issue_created"
  else if webhookEvent event =? "jira:issue_deleted" then Some "issue_deleted"
  else None.

(** The character [c] occurs in [s]. *)
Fixpoint hasChar (c : ascii) (s : string) : bool :=
  match s with
  | EmptyString => false
  | String x rest => (x =? c)%char || hasChar c rest
  end.

(** A line terminator occurs in [s]. *)
Fixpoint hasLineTerminator (s : string) : bool :=
  match s with
  | EmptyString => false
  | String x rest => isLineTerminator x || hasLineTerminator rest
  end.

(** A closing bracket occurs in [s] before its first line terminator. *)
Fixpoint bracketOnLine (s : string) : bool :=
  match s with
  | EmptyString => false
  | String x rest =>
      if isLineTerminator x then false
      else (x =? "]")%char || bracketOnLine rest
  end.

(** *** Searching and creating resources (commands/shared.ts) *)

(** A string that may be left out, in a condition: [undefined] and the
    empty string are false. *)
Definition truthy (s : option string) : bool :=
  match s with
  | Some (String _ _) => true
  | _ => false
  end.

Definition searchIssuesUrl (env : Env) (jql : string) (startAt maxResults : option string)
  : string :=
  let issueLookup := jira_url env +:+ "/rest/api/2/search?jql=" +:+ jql in
  let issueLookup :=
    if truthy startAt then issueLookup +:+ "&startAt=" +:+ default "" startAt
    else issueLookup in
  let issueLookup :=
    if truthy maxResults then issueLookup +:+ "&maxResults=" +:+ default "" maxResults
    else issueLookup in
  issueLookup.

(** [searchIssues]: the time-to-live is passed as [undefined], hence the
    default of 3600. *)
Definition searchIssues (env : Env) (jql : string) (startAt maxResults : option string)
  : M JiraBody :=
  getJiraDetails env (searchIssuesUrl env jql startAt maxResults) false 3600.

Inductive HttpMethod := Post | Put.

Record JiraItemCreated := { item_id : string; item_key : string; item_self : string }.

(** The [response] of a rejected exchange, with its [status] and [data]
    as [JSON.stringify] prints them. *)
Record ErrorResponse := { response_status : string; response_data : string }.

(** The answer to a POST or PUT: the created item, or a rejection, which
    carries a response only when the tracker has answered. *)
Inductive SendResult :=
  | SendOk (item : JiraItemCreated)
  | SendRejected (response : option ErrorResponse).

(** What [createJiraResource] throws: [new Error(message)] from its
    [catch], or an error it does not handle. *)
Inductive CreateError :=
  | PlainError (message : string)
  | Unhandled (e : JsError).

Inductive CreateOutcome :=
  | Created (item : JiraItemCreated)
  | CreateFailed (e : CreateError).

Definition recordExchange (url : string) (w : World) : World :=
  {| now := now w; jiraCache := jiraCache w; exchanges := exchanges w ++ [url];
     logs := logs w; sent := sent w; goalUpdates := goalUpdates w |}.

Definition recordLog (line : string) (w : World) : World :=
  {| now := now w; jiraCache := jiraCache w; exchanges := exchanges w;
     logs := logs w ++ [line]; sent := sent w; goalUpdates := goalUpdates w |}.

(** [createJiraResource]; [D] is the type of the payload, [stringify] is
    [JSON.stringify] on it and [send] the answer of [httpClient.exchange].
    The authenticator is awaited while the arguments of [exchange] are
    built, outside the [catch] that is attached to the promise of
    [exchange]. *)
Definition createJiraResource {D : Type} (env : Env) (stringify : D → string)
    (send : HttpMethod → string → D → SendResult)
    (apiUrl : string) (data : D) (update : bool) (w : World) : CreateOutcome * World :=
  let w := recordLog ("JIRA createJiraResource: Data payload => " +:+ stringify data) w in
  match getJiraAuth env with
  | Thrown e => (CreateFailed (Unhandled e), w)
  | Returned _ =>
      let w := recordExchange apiUrl w in
      match send (if update then Put else Post) apiUrl data with
      | SendOk item => (Created item, w)
      | SendRejected None =>
          (CreateFailed (Unhandled (TypeError "Cannot read property 'status' of undefined")), w)
      | SendRejected (Some response) =>
          (CreateFailed (PlainError (response_data response)),
           recordLog ("JIRA createJiraResource: Failed to create resource with error - ("
                      +:+ response_status response +:+ ") " +:+ response_data response) w)
      end
  end.

Definition createJiraTicket {D : Type} (env : Env) (stringify : D → string)
    (send : HttpMethod → string → D → SendResult) (data : D) : World → CreateOutcome * World :=
  createJiraResource env stringify send (jira_url env +:+ "/rest/api/2/issue") data false.

(** An object literal with values of type [V]: its properties in order. *)
Definition ObjectOf (V : Type) := list (string * V).

Fixpoint objectGet {V} (o : ObjectOf V) (name : string) : option V :=
  match o with
  | [] => None
  | (k, v) :: rest => if k =? name then Some v else objectGet rest name
  end.

(** The definition of one property inside a literal: an earlier property
    of that name keeps its place and takes the new value. *)
Fixpoint objectSet {V} (o : ObjectOf V) (name : string) (value : V) : ObjectOf V :=
  match o with
  | [] => [(name, value)]
  | (k, v) :: rest =>
      if k =? name then (k, value) :: rest else (k, v) :: objectSet rest name value
  end.

(** [{ ...o, ...extra }]; spreading [undefined] adds nothing. *)
Definition objectSpread {V} (o : ObjectOf V) (extra : option (ObjectOf V)) : ObjectOf V :=
  match extra with
  | None => o
  | Some properties => fold_left (fun acc kv => objectSet acc kv.1 kv.2) properties o
  end.

Record JiraProjectDefinition (V : Type) := {
  project_key : string;
  project_name : string;
  project_lead : string;
  project_description : string;
  projectTypeKey : string;
  projectTemplateKey : string;
  project_assigneeType : string;
  project_extraData : option (ObjectOf V);
}.
Arguments project_key {V} _.
Arguments project_name {V} _.
Arguments project_lead {V} _.
Arguments project_description {V} _.
Arguments projectTypeKey {V} _.
Arguments projectTemplateKey {V} _.
Arguments project_assigneeType {V} _.
Arguments project_extraData {V} _.

(** The named properties of the payload of [createJiraProject]; [str]
    makes a value of a string. *)
Definition projectProperties {V} (str : string → V) (data : JiraProjectDefinition V)
  : ObjectOf V :=
  [("key", str (project_key data));
   ("name", str (project_name data));
   ("lead", str (project_lead data));
   ("description", str (project_description data));
   ("projectTypeKey", str (projectTypeKey data));
   ("projectTemplateKey", str (projectTemplateKey data));
   ("assigneeType", str (project_assigneeType data))].

Definition projectPayload {V} (str : string → V) (data : JiraProjectDefinition V)
  : ObjectOf V :=
  objectSpread (projectProperties str data) (project_extraData data).

Definition createJiraProject {V : Type} (env : Env) (str : string → V)
    (stringify : ObjectOf V → string)
    (send : HttpMethod → string → ObjectOf V → SendResult)
    (data : JiraProjectDefinition V) : World → CreateOutcome * World :=
  createJiraResource env stringify send (jira_url env +:+ "/rest/api/2/project")
                     (projectPayload str data) false.

Record JiraComponentDefinition (V : Type) := {
  component_name : string;
  component_description : string;
  component_project : string;
  component_assigneeType : string;
  component_extraData : option (ObjectOf V);
}.
Arguments component_name {V} _.
Arguments component_description {V} _.
Arguments component_project {V} _.
Arguments component_assigneeType {V} _.
Arguments component_extraData {V} _.

Definition componentProperties {V} (str : string → V) (data : JiraComponentDefinition V)
  : ObjectOf V :=
  [("name", str (component_name data));
   ("description", str (component_description data));
   ("project", str (component_project data));
   ("assigneeType", str (component_assigneeType data))].

Definition componentPayload {V} (str : string → V) (data : JiraComponentDefinition V)
  : ObjectOf V :=
  objectSpread (componentProperties str data) (component_extraData data).

Definition createJiraComponent {V : Type} (env : Env) (str : string → V)
    (stringify : ObjectOf V → string)
    (send : HttpMethod → string → ObjectOf V → SendResult)
    (data : JiraComponentDefinition V) : World → CreateOutcome * World :=
  createJiraResource env stringify send (jira_url env +:+ "/rest/api/2/component")
                     (componentPayload str data) false.

(** *** The default authenticator (jira.ts) *)

(** [defaultJiraAuthenticator]; [base64] is
    [Buffer.from(text).toString("base64")]. *)
Definition defaultJiraAuthenticator (base64 : string → string) (user password : string)
  : string :=
  "Basic " +:+ base64 (user +:+ ":" +:+ password).

(** *** More sample inputs *)

(** A positive number in binary, lowest bit first. *)
Fixpoint binaryDigits (p : positive) : string :=
  match p with
  | xH => "1"
  | xO q => String "0" (binaryDigits q)
  | xI q => String "1" (binaryDigits q)
  end.

(** A stand-in for object-hash whose digests are made of binary digits. *)
Definition binaryHash (o : JsObject) : string :=
  binaryDigits (encode (list_to_map o : gmap string JsValue)).

(** A description that carries the four markers, one on each line. *)
Definition taggedDescription : string :=
  "Deploy to production" +:+ String "010"
  ("[atomist:sha:4f2a9c1]" +:+ String "010"
  ("[atomist:owner:atomist]" +:+ String "010"
  ("[atomist:repo:sdm-pack-jira]" +:+ String "010"
   "[atomist:branch:master]"))).

(** A description whose four markers name a commit by its full hash. *)
Definition approvableDescription : string :=
  "Deploy to production" +:+ String "010"
  ("[atomist:sha:0cacc69b1e6165222f22b1e2f3fb3da3c352979a]" +:+ String "010"
  ("[atomist:owner:atomist]" +:+ String "010"
  ("[atomist:repo:sdm-pack-jira]" +:+ String "010"
   "[atomist:branch:master]"))).

(** An [issue_assigned] event: its changelog names the assignee only. *)
Definition assignedEvent : JiraIssueEvent :=
  {| webhookEvent := "jira:issue_updated";
     issue_event_type_name := Some "issue_assigned";
     issue := sampleIssue;
     comment := None;
     changelog := Some {| items := [{| field := "assignee"; toString := Some "Ada" |}] |};
     timestamp := "1561000000000" |}.

(** [sampleEnv] with a goal registered for the issue. *)
Definition approvalEnv (descr : option string) : Env :=
  {| jira_url := "https://jira.example.com";
     jira_useCache := false;
     httpGet := sampleTracker descr;
     httpElapsed := fun _ => 1%N;
     getJiraAuth := basicAuth;
     buildSelfUrl := fun id => "https://jira.example.com/rest/api/2/issue/" +:+ id;
     slack_url := fun url label => "<" +:+ url +:+ "|" +:+ label +:+ ">";
     jiraDetermineNotifyChannels := fun _ => resolved [];
     issueTypeOf := fun _ => Some Bug;
     jiraParseChannels_reads := fun _ _ _ => resolved tt;
     prepareNewIssueMessage := fun _ _ => resolved [];
     prepareIssueDeletedMessage := fun _ => resolved [];
     prepareStateChangeMessage := fun _ => resolved [];
     prepareIssueCommentedMessage := fun _ _ => resolved [];
     buildJiraFooter := fun _ => "PROJ";
     GitHubRepoRef_from := checkedRepoRef;
     goalByJiraIssueId := fun _ => resolved ["github-provider"];
     findSdmGoalOnCommit := fun _ _ goal => resolved (goal_name goal);
     updateGoal_accepted := fun _ => resolved tt |}.

(** Parameters that switch most notifications off. *)
Definition quietParameters : JiraChannelPrefs.t :=
  {| JiraChannelPrefs.slackChannelName := "ops";
     JiraChannelPrefs.issueCreated := true;
     JiraChannelPrefs.issueDeleted := false;
     JiraChannelPrefs.issueCommented := false;
     JiraChannelPrefs.issueStatus := true;
     JiraChannelPrefs.issueState := false;
     JiraChannelPrefs.bug := true;
     JiraChannelPrefs.task := false;
     JiraChannelPrefs.epic := false;
     JiraChannelPrefs.subtask := false;
     JiraChannelPrefs.story := true |}.

(** [getJiraIssueDescription] looks the transitions up in these cases. *)
Definition fetchesTransitions (event : JiraIssueEvent) : bool :=
  (webhookEvent event =? "comment_created") || (webhookEvent event =? "jira:issue_updated") ||
  (webhookEvent event =? "jira:issue_created").

(** The message options of an event, by the cases of
    [getJiraIssueDescription]. *)
Definition messageId (kind : string) (event : JiraIssueEvent) : string :=
  "jira/" +:+ kind +:+ "/" +:+ issue_key (issue event) +:+ "/" +:+ timestamp event.

Definition messageOptionsOf (event : JiraIssueEvent) (newEvent : bool) : option MessageOptions :=
  (fun kind => {| msg_id := messageId kind event;
                  msg_post := if newEvent then always else update_only |})
    <$> messageKind event.

(** The repository reference that [onJiraIssueEventApprovalHandler] reads
    from the four markers of the description, when each of them is found
    and none is empty. *)
Definition environmentOf (issue_ : JiraBody) : option RepoRef :=
  match environmentTag "sha" issue_, environmentTag "owner" issue_,
        environmentTag "repo" issue_, environmentTag "branch" issue_ with
  | Returned sha, Returned owner, Returned repo, Returned branch =>
      if isEmptyString sha || isEmptyString owner || isEmptyString repo || isEmptyString branch
      then None
      else Some {| ref_owner := owner; ref_repo := repo; ref_sha := sha; ref_branch := branch |}
  | _, _, _, _ => None
  end.

(** The items of a changelog that name the status. *)
Definition statusItems (log_ : Changelog) : list ChangelogItem :=
  List.filter (fun c => field c =? "status") (items log_).

(** A project whose [extraData] names a key of its own. *)
Definition sampleProject : JiraProjectDefinition string :=
  {| project_key := "PROJ";
     project_name := "Project";
     project_lead := "ada";
     project_description := "A sample project";
     projectTypeKey := "software";
     projectTemplateKey := "com.pyxis.greenhopper.jira:gh-scrum-template";
     project_assigneeType := "PROJECT_LEAD";
     project_extraData := Some [("key", "OTHER"); ("url", "https://example.com")] |}.

Definition sampleComponent : JiraComponentDefinition string :=
  {| component_name := "api";
     component_description := "The API";
     component_project := "PROJ";
     component_assigneeType := "PROJECT_LEAD";
     component_extraData := None |}.

(** A tracker that refuses every creation, with or without a response. *)
Definition refusingTracker (response : option ErrorResponse)
  : HttpMethod → string → ObjectOf string → SendResult :=
  fun _ _ _ => SendRejected response.

(** An update whose type name the tracker left out. *)
Definition untypedUpdate : JiraIssueEvent :=
  sampleEvent "jira:issue_updated" None None.

(** The awaits of [routeEvent] between the description and the menu of
    transitions, in their order: the channel resolver, the filters and the
    four composers. *)
Definition awaitHelpers (env : Env) (event : JiraIssueEvent) (issueDetail : JiraBody)
  : M (list JiraPreference * list Attachment) :=
  newChannels ← await (jiraDetermineNotifyChannels env event);
  channels ← gatherChannels env event newChannels;
  message ← gatherMessage env event issueDetail;
  mret (channels, message).

(** A resolver that takes [seconds] to yield [candidates]. *)
Definition slowResolver (seconds : N) (candidates : list JiraPreference)
  : JiraIssueEvent → World → Awaited (list JiraPreference) :=
  fun _ w =>
    {| settled := Returned candidates; elapsed := seconds; requested := []; logged := [];
       cacheAfter := jiraCache w |}.

(** A resolver whose lookup of the linked repositories fails. *)
Definition failingResolver : JiraIssueEvent → World → Awaited (list JiraPreference) :=
  fun _ =>
    rejected (TransportError 502 "Bad Gateway") 2
      "https://jira.example.com/rest/dev-status/latest/issue/detail?issueId=10001".

(** *** Runs and what they leave alone *)

(** A step that addresses no channel and updates no goal. *)
Definition frames {A} (m : M A) : Prop :=
  ∀ w, sent (m w).2 = sent w ∧ goalUpdates (m w).2 = goalUpdates w.

(** A step that sends no request to the tracker. *)
Definition silent {A} (m : M A) : Prop :=
  ∀ w, exchanges (m w).2 = exchanges w.

(** A step that only adds to the requests sent so far. *)
Definition appends {A} (m : M A) : Prop :=
  ∀ w, ∃ more, exchanges (m w).2 = exchanges w ++ more.

(** A collaborator that sends no request to the tracker. *)
Definition sendsNothing {A} (run : World → Awaited A) : Prop :=
  ∀ w, requested (run w) = [].

(** The helpers that [routeEvent] awaits send no request of their own for
    this event: they are answered by the cache or by the store. *)
Definition quietHelpers (env : Env) (event : JiraIssueEvent) : Prop :=
  sendsNothing (jiraDetermineNotifyChannels env event) ∧
  (∀ channels check, sendsNothing (jiraParseChannels_reads env channels event check)) ∧
  (∀ issueDetail,
     sendsNothing (prepareNewIssueMessage env (webhookEvent event) issueDetail)) ∧
  sendsNothing (prepareIssueDeletedMessage env event) ∧
  sendsNothing (prepareStateChangeMessage env event) ∧
  (∀ issueDetail, sendsNothing (prepareIssueCommentedMessage env event issueDetail)).

(** * Properties *)

Ltac run :=
  unfold mbind, M_bind, bind, mret, M_ret, ret, lift, throw, tryCatch.


(** ** Preferences *)

Lemma mungeJiraPrefs_flag (k : PrefKey) (prefs : JiraPreference) :
  prefGet k (mungeJiraPrefs prefs) = Some (a (prefGet k prefs)).
Proof. destruct k as [[]|[]]; reflexivity. Qed.

(** C1, as stated, fails: a stored record with every flag absent is loaded
    with [issueState] and [issueStatus] enabled, not disabled. *)
Lemma partial_record_enables_issueState :
  let stored := noFlags "c1" in
  let loaded := queryJiraChannelPrefs (fun _ => Some stored) "c1" in
  issueState stored = None ∧ issueStatus stored = None ∧
  issueState loaded = Some true ∧ issueStatus loaded = Some true ∧
  issueState loaded ≠ Some false ∧ issueStatus loaded ≠ Some false.
Proof. repeat split; discriminate. Qed.

(** C1 (amended): loading a stored record keeps every flag that is present
    and turns every absent flag into [true], [issueState] and [issueStatus]
    included; when no record is stored, the synthesized record has
    [issueState] and [issueStatus] false and every other flag true. *)
Theorem queryJiraChannelPrefs_defaults
    (lookup : string → option JiraPreference) (name : string) (k : PrefKey) :
  prefGet k (queryJiraChannelPrefs lookup name) =
  match lookup name with
  | Some stored =>
      match prefGet k stored with
      | Some b => Some b
      | None => Some true
      end
  | None => Some (negb (optInKey k))
  end.
Proof.
  unfold queryJiraChannelPrefs. destruct (lookup name) as [stored|].
  - rewrite mungeJiraPrefs_flag. destruct (prefGet k stored); reflexivity.
  - destruct k as [[]|[]]; reflexivity.
Qed.

(** ** Categories of an event *)

Lemma collectChannels_by_category (env : Env) (event : JiraIssueEvent)
    (newChannels : list JiraPreference) :
  collectChannels env event newChannels =
  flat_map (channelsFor env event newChannels) (categoriesOf event).
Proof.
  unfold collectChannels, categoriesOf.
  destruct (comment event);
    destruct (issue_event_type_name event) as [n|];
    destruct (webhookEvent event =? "jira:issue_deleted");
    try destruct (matchesStateChange n);
    try destruct (n =? "issue_generic");
    try destruct ((n =? "issue_assigned") || (n =? "issue_updated"));
    try destruct (n =? "issue_created");
    cbn [app flat_map channelsFor]; rewrite ?app_nil_r, <- ?app_assoc; reflexivity.
Qed.

Lemma matchesStateChange_not_created (n : string) :
  matchesStateChange n = true → (n =? "issue_created") = false.
Proof.
  unfold matchesStateChange. intros H.
  apply orb_true_iff in H as [H|H]; [apply orb_true_iff in H as [H|H]|];
    apply String.eqb_eq in H; subst n; reflexivity.
Qed.

(** C2, as stated, fails: an [issue_updated] event with a comment is routed
    under both [issueComment] and [issueState], and a channel subscribed to
    both is pushed once for each. *)
Lemma updatedWithComment_two_categories :
  let env := sampleEnv false basicAuth (sampleTracker None) [allEnabled "c1"] in
  categoriesOf updatedWithComment = [IssueComment; IssueState] ∧
  settled (jiraDetermineNotifyChannels env updatedWithComment emptyWorld) =
    Returned [allEnabled "c1"] ∧
  collectChannels env updatedWithComment [allEnabled "c1"] =
    [allEnabled "c1"; allEnabled "c1"] ∧
  (gatherChannels env updatedWithComment [allEnabled "c1"] emptyWorld).1 =
    Returned [allEnabled "c1"; allEnabled "c1"].
Proof. repeat split; reflexivity. Qed.

(** C2 (amended): one routing pass assigns each category at most once and
    at most one of the categories chosen from [issue_event_type_name]
    (issueStatus, issueState, issueCreated); issueComment is assigned exactly
    when the event carries a comment and issueDeleted exactly when
    [webhookEvent] is [jira:issue_deleted], independently of the former, so
    one event contributes channels under at most three categories. *)
Theorem categoriesOf_exclusive (event : JiraIssueEvent) :
  NoDup (categoriesOf event) ∧
  (length (List.filter byTypeName (categoriesOf event)) ≤ 1)%nat ∧
  (length (categoriesOf event) ≤ 3)%nat ∧
  (IssueComment ∈ categoriesOf event ↔ is_Some (comment event)) ∧
  (IssueDeleted ∈ categoriesOf event ↔ webhookEvent event = "jira:issue_deleted").
Proof.
  unfold categoriesOf. rewrite <- String.eqb_eq.
  destruct (comment event) as [c|];
    destruct (webhookEvent event =? "jira:issue_deleted");
    destruct (issue_event_type_name event) as [n|];
    try (destruct (matchesStateChange n) eqn:Hm;
         [rewrite (matchesStateChange_not_created n Hm)
         |destruct (n =? "issue_created")]);
    try destruct (n =? "issue_generic");
    try destruct ((n =? "issue_assigned") || (n =? "issue_updated"));
    cbn [app List.filter byTypeName length];
    (split; [by apply (bool_decide_unpack _)|]);
    (split; [lia|]); (split; [lia|]);
    (split; (split; [first [by eauto | intros H; by apply (bool_decide_pack _) in H]
                    | first [intros; by apply (bool_decide_unpack _)
                            | intros H; first [discriminate H | by destruct H]]])).
Qed.

(** ** Deduplication *)

Lemma uniqByFrom_spec {A B} `{EqDecision B} (f : A → B) (xs : list A) :
  ∀ seen,
    NoDup (map f (uniqByFrom f seen xs)) ∧
    ∀ y, y ∈ map f (uniqByFrom f seen xs) ↔ (y ∉ seen) ∧ (y ∈ map f xs).
Proof.
  induction xs as [|x rest IH]; intros seen; cbn [uniqByFrom map].
  - split; [constructor|]. intros y. rewrite elem_of_nil. tauto.
  - case_bool_decide as Hseen.
    + destruct (IH seen) as [Hnd Hmem]. cbn [map]. split; [exact Hnd|].
      intros y. rewrite Hmem, elem_of_cons. split; [tauto|].
      intros [Hy [->|Hin]]; [contradiction|tauto].
    + destruct (IH (f x :: seen)) as [Hnd Hmem]. cbn [map]. split.
      * apply NoDup_cons_2; [|exact Hnd].
        rewrite Hmem, elem_of_cons. tauto.
      * intros y. rewrite !elem_of_cons, Hmem, elem_of_cons.
        destruct (decide (y = f x)) as [->|Hne]; tauto.
Qed.

Lemma uniqBy_NoDup {A B} `{EqDecision B} (f : A → B) (xs : list A) :
  NoDup (map f (uniqBy f xs)).
Proof. apply uniqByFrom_spec. Qed.

Lemma uniqBy_elem_of {A B} `{EqDecision B} (f : A → B) (xs : list A) (y : B) :
  y ∈ map f (uniqBy f xs) ↔ y ∈ map f xs.
Proof.
  unfold uniqBy. rewrite (proj2 (uniqByFrom_spec f xs [])), elem_of_nil. tauto.
Qed.

(** ** Effects of the lookups *)

Lemma getJiraDetails_frame (env : Env) (url : string) (cache : bool) (ttl : Z) (w : World) :
  sent (getJiraDetails env url cache ttl w).2 = sent w ∧
  goalUpdates (getJiraDetails env url cache ttl w).2 = goalUpdates w.
Proof.
  unfold getJiraDetails, jiraCache_get, httpClient_exchange, jiraCache_set, log. run.
  destruct (jira_useCache env && cache), (cacheLookup url w); cbn; try done;
    destruct (getJiraAuth env); cbn; try done;
    destruct (httpGet env url); cbn; destruct cache; done.
Qed.

Lemma getJiraIssueDescription_frame (env : Env) (issueDetail : JiraBody)
    (event : JiraIssueEvent) (newEvent : bool) (w : World) :
  sent (getJiraIssueDescription env issueDetail event newEvent w).2 = sent w ∧
  goalUpdates (getJiraIssueDescription env issueDetail event newEvent w).2 = goalUpdates w.
Proof.
  unfold getJiraIssueDescription. run.
  destruct ((webhookEvent event =? "comment_created") || (webhookEvent event =? "jira:issue_updated"));
    [|destruct (webhookEvent event =? "jira:issue_created");
      [|destruct (webhookEvent event =? "jira:issue_deleted"); [done|done]]].
  all: match goal with
       | |- context [getJiraDetails ?e ?u ?c ?t ?w] =>
           pose proof (getJiraDetails_frame e u c t w) as Hf;
           destruct (getJiraDetails e u c t w) as [[b|err] w1]
       end; cbn in *; try done;
       destruct (issueSummary issueDetail); done.
Qed.

(** *** Steps that address no channel *)

Lemma frames_ret {A} (x : A) : frames (mret x).
Proof. by intros w. Qed.

Lemma frames_lift {A} (o : Outcome A) : frames (lift o).
Proof. by intros w. Qed.

Lemma frames_log (line : string) : frames (log line).
Proof. by intros w. Qed.

Lemma frames_await {A} (r : World → Awaited A) : frames (await r).
Proof. by intros w. Qed.

Lemma frames_bind {A B} (m : M A) (k : A → M B) :
  frames m → (∀ x, frames (k x)) → frames (m ≫= k).
Proof.
  intros Hm Hk w. run. destruct (Hm w) as [H1 H2].
  destruct (m w) as [[x|e] w1]; cbn [fst snd] in *; [|done].
  destruct (Hk x w1) as [H3 H4]. split; congruence.
Qed.

Ltac solve_frames :=
  repeat first
    [ apply frames_bind; [|intros ?]
    | apply frames_ret | apply frames_await | apply frames_lift | apply frames_log
    | match goal with |- frames (match ?x with _ => _ end) => destruct x end ].

Lemma gatherChannels_frames (env : Env) (event : JiraIssueEvent)
    (newChannels : list JiraPreference) :
  frames (gatherChannels env event newChannels).
Proof. unfold gatherChannels, pushParsed, jiraParseChannels_call. solve_frames. Qed.

Lemma gatherMessage_frames (env : Env) (event : JiraIssueEvent) (issueDetail : JiraBody) :
  frames (gatherMessage env event issueDetail).
Proof. unfold gatherMessage. solve_frames. Qed.

(** When every awaited filter resolves, the four [if] statements leave
    [collectChannels] in [channels]. *)
Lemma gatherChannels_collect (env : Env) (event : JiraIssueEvent)
    (newChannels channels : list JiraPreference) (w w' : World) :
  gatherChannels env event newChannels w = (Returned channels, w') →
  channels = collectChannels env event newChannels.
Proof.
  unfold gatherChannels, collectChannels, pushParsed, jiraParseChannels_call. run.
  destruct (comment event);
    destruct (issue_event_type_name event) as [n|];
    try destruct (matchesStateChange n);
    try destruct (n =? "issue_generic");
    try destruct ((n =? "issue_assigned") || (n =? "issue_updated"));
    try destruct (n =? "issue_created");
    repeat match goal with
      | |- context [await ?r ?w0] => destruct (await r w0) as [[[]|?] ?]
      end;
    try discriminate; intros [= <- _]; reflexivity.
Qed.

(** With no category, no filter is awaited. *)
Lemma gatherChannels_none (env : Env) (event : JiraIssueEvent)
    (newChannels : list JiraPreference) (w : World) :
  categoriesOf event = [] →
  gatherChannels env event newChannels w = (Returned [], w).
Proof.
  unfold gatherChannels, categoriesOf. run.
  destruct (comment event); [discriminate|].
  destruct (issue_event_type_name event) as [n|].
  - destruct (matchesStateChange n).
    + destruct (n =? "issue_generic"); [discriminate|].
      destruct ((n =? "issue_assigned") || (n =? "issue_updated")); [discriminate|].
      destruct (n =? "issue_created"); [discriminate|].
      destruct (webhookEvent event =? "jira:issue_deleted"); [discriminate|done].
    + destruct (n =? "issue_created"); [discriminate|].
      destruct (webhookEvent event =? "jira:issue_deleted"); [discriminate|done].
  - destruct (webhookEvent event =? "jira:issue_deleted"); [discriminate|done].
Qed.

(** Every run of [routeEvent], step by step: it stops at the first step
    that rejects or throws, without a dispatch; otherwise it dispatches at
    most once, at the end. *)
Lemma routeEvent_dispatch (env : Env) (event : JiraIssueEvent) (newEvent : bool) (w : World) :
  let r := routeEvent env event newEvent w in
  sent r.2 = sent w ∨
  ∃ d issueDetail w1 descr w2 newChannels w3 channels w4 message w5,
    getJiraDetails env (buildSelfUrl env (issue_id (issue event)) +:+ "?expand=changelog")
                   true 30 w = (Returned issueDetail, w1) ∧
    getJiraIssueDescription env issueDetail event newEvent w1 = (Returned descr, w2) ∧
    await (jiraDetermineNotifyChannels env event) w2 = (Returned newChannels, w3) ∧
    gatherChannels env event newChannels w3 = (Returned channels, w4) ∧
    gatherMessage env event issueDetail w4 = (Returned message, w5) ∧
    sent r.2 = sent w ++ [d] ∧
    r.1 = Returned tt ∧
    is_Some (issueTransitions descr) ∧
    delivered_options d = msgOptions descr ∧
    delivered_channels d = map channel (uniqBy channel channels).
Proof.
  unfold routeEvent. run.
  pose proof (getJiraDetails_frame env
    (buildSelfUrl env (issue_id (issue event)) +:+ "?expand=changelog") true 30 w) as [H1 _].
  destruct (getJiraDetails env _ true 30 w) as [[issueDetail|e] w1] eqn:E1;
    cbn [fst snd] in *; [|by left].
  pose proof (getJiraIssueDescription_frame env issueDetail event newEvent w1) as [H2 _].
  destruct (getJiraIssueDescription env issueDetail event newEvent w1) as [[descr|e] w2] eqn:E2;
    cbn [fst snd] in *; [|left; congruence].
  pose proof (frames_await (jiraDetermineNotifyChannels env event) w2) as [H3 _].
  destruct (await (jiraDetermineNotifyChannels env event) w2) as [[newChannels|e] w3] eqn:E3;
    cbn [fst snd] in *; [|left; congruence].
  pose proof (gatherChannels_frames env event newChannels w3) as [H4 _].
  destruct (gatherChannels env event newChannels w3) as [[channels|e] w4] eqn:E4;
    cbn [fst snd] in *; [|left; congruence].
  pose proof (gatherMessage_frames env event issueDetail w4) as [H5 _].
  destruct (gatherMessage env event issueDetail w4) as [[message|e] w5] eqn:E5;
    cbn [fst snd] in *; [|left; congruence].
  assert (Hsame : sent w5 = sent w) by congruence.
  destruct (transitionOptions (issueTransitions descr)) as [options|e] eqn:Hto;
    cbn [fst snd]; [|by left].
  assert (Hsome : is_Some (issueTransitions descr)).
  { destruct (issueTransitions descr); [by eexists|discriminate]. }
  destruct ((0 <? length message)%nat && (0 <? length channels)%nat).
  - destruct (transitionsLength (issueTransitions descr)) as [n|e];
      cbn [fst snd]; [|by left].
    destruct (0 <? length (uniqBy channel channels))%nat; cbn [fst snd]; [|by left].
    right. exists
      {| delivered_message :=
           {| pretext := description descr;
              attachments := message;
              footer := buildJiraFooter env issueDetail;
              actions :=
                (if negb (webhookEvent event =? "jira:issue_deleted")
                 then [CommentButton (issue_id (issue event))] else []) ++
                (if (0 <? n)%nat
                 then [SetStatusMenu options (bodySelf issueDetail +:+ "/transitions")]
                 else []) |};
         delivered_channels := map channel (uniqBy channel channels);
         delivered_options := msgOptions descr |},
      issueDetail, w1, descr, w2, newChannels, w3, channels, w4, message, w5.
    cbn. rewrite Hsame. repeat split; done.
  - left. destruct (negb (0 <? length message)%nat), (negb (0 <? length channels)%nat);
      cbn; done.
Qed.

(** C7: whenever [routeEvent] dispatches, it does so once, and the channel
    list handed to [addressChannels] has no repeated channel identifier; it
    names exactly the channels that were pushed, however many times each
    was pushed, from the candidates that [jiraDetermineNotifyChannels]
    resolved to after the two lookups. *)
Theorem routeEvent_channels_deduplicated
    (env : Env) (event : JiraIssueEvent) (newEvent : bool) (w : World) :
  let w' := (routeEvent env event newEvent w).2 in
  sent w' = sent w ∨
  ∃ d issueDetail w1 descr w2 newChannels,
    sent w' = sent w ++ [d] ∧
    NoDup (delivered_channels d) ∧
    getJiraDetails env (buildSelfUrl env (issue_id (issue event)) +:+ "?expand=changelog")
                   true 30 w = (Returned issueDetail, w1) ∧
    getJiraIssueDescription env issueDetail event newEvent w1 = (Returned descr, w2) ∧
    settled (jiraDetermineNotifyChannels env event w2) = Returned newChannels ∧
    ∀ name, name ∈ delivered_channels d ↔
            name ∈ map channel (collectChannels env event newChannels).
Proof.
  intros w'. unfold w'.
  destruct (routeEvent_dispatch env event newEvent w)
    as [H|(d & issueDetail & w1 & descr & w2 & newChannels & w3 & channels & w4 & message & w5
           & E1 & E2 & E3 & E4 & _ & Hs & _ & _ & _ & Hc)];
    [by left|right].
  apply gatherChannels_collect in E4 as ->.
  exists d, issueDetail, w1, descr, w2, newChannels.
  split; [exact Hs|]. rewrite Hc.
  split; [apply uniqBy_NoDup|].
  split; [exact E1|]. split; [exact E2|].
  split; [by injection E3|].
  intros name. apply uniqBy_elem_of.
Qed.

(** ** Deleted issues *)

(** C4, as stated, fails: with a bug deleted, the channel that has switched
    bugs off is selected all the same, and no channel is notified because
    the menu of transitions is built from an [issueTransitions] that the
    deleted case of [getJiraIssueDescription] leaves undefined. *)
Lemma deleted_event_ignores_type_flag :
  let candidates := [allEnabled "jira-feed"; noBugs "ops"] in
  let env := sampleEnv false basicAuth (sampleTracker None) candidates in
  jiraParseChannels env candidates deletedEvent IssueDeleted = [allEnabled "jira-feed"] ∧
  collectChannels env deletedEvent candidates = [allEnabled "jira-feed"; noBugs "ops"] ∧
  (routeEvent env deletedEvent true emptyWorld).1 =
    Thrown (TypeError "Cannot read property 'hasOwnProperty' of undefined") ∧
  sent (routeEvent env deletedEvent true emptyWorld).2 = [].
Proof. vm_compute. repeat split. Qed.

(** C4 (amended): for a [jira:issue_deleted] event, whatever its
    [issue_event_type_name], issueDeleted is the last category assigned and
    the channels selected under it are exactly the candidates whose record
    has [issueDeleted === true]; the issue-type flag is not consulted.  They
    follow the channels selected under the other categories of the event and
    are the whole selection when the event has no comment and its
    [issue_event_type_name] is none of the four names that select a
    category. *)
Theorem deleted_event_selection
    (env : Env) (event : JiraIssueEvent) (newChannels : list JiraPreference) :
  webhookEvent event = "jira:issue_deleted" →
  (∃ others,
      categoriesOf event = others ++ [IssueDeleted] ∧
      (IssueDeleted ∉ others) ∧
      collectChannels env event newChannels =
        flat_map (channelsFor env event newChannels) others ++
        List.filter (fun c => isTrue (issueDeleted c)) newChannels) ∧
  (∀ c, c ∈ newChannels → issueDeleted c = Some true →
        c ∈ collectChannels env event newChannels) ∧
  (comment event = None → noTypeNameCategory event = true →
   collectChannels env event newChannels =
     List.filter (fun c => isTrue (issueDeleted c)) newChannels).
Proof.
  intros Hdel.
  assert (Hsel : ∃ others,
      categoriesOf event = others ++ [IssueDeleted] ∧
      (IssueDeleted ∉ others) ∧
      (comment event = None → noTypeNameCategory event = true → others = [])).
  { unfold categoriesOf, noTypeNameCategory. rewrite Hdel.
    change ("jira:issue_deleted" =? "jira:issue_deleted") with true.
    eexists. split; [rewrite !app_assoc; reflexivity|].
    destruct (comment event);
      destruct (issue_event_type_name event) as [n|];
      try destruct (matchesStateChange n);
      try destruct (n =? "issue_generic");
      try destruct ((n =? "issue_assigned") || (n =? "issue_updated"));
      try destruct (n =? "issue_created");
      cbn [app negb andb];
      (split; [by apply (bool_decide_unpack _) | intros; congruence]). }
  destruct Hsel as (others & Hcat & Hnot & Hnone).
  assert (Hcol : collectChannels env event newChannels =
                 flat_map (channelsFor env event newChannels) others ++
                 List.filter (fun c => isTrue (issueDeleted c)) newChannels).
  { rewrite collectChannels_by_category, Hcat, flat_map_app.
    cbn [flat_map channelsFor]. by rewrite app_nil_r. }
  split; [by exists others|]. split.
  - intros c Hin Hflag. rewrite Hcol, elem_of_app. right.
    apply list_elem_of_In, filter_In. split; [by apply list_elem_of_In|].
    by rewrite Hflag.
  - intros Hc Hn. rewrite Hcol, (Hnone Hc Hn). reflexivity.
Qed.

Lemma deleted_event_selection_witness :
  collectChannels (sampleEnv false basicAuth (sampleTracker None) [])
                  deletedEvent [allEnabled "jira-feed"; noBugs "ops"; noFlags "quiet"] =
  [allEnabled "jira-feed"; noBugs "ops"].
Proof.
  apply (deleted_event_selection
           (sampleEnv false basicAuth (sampleTracker None) [])
           deletedEvent [allEnabled "jira-feed"; noBugs "ops"; noFlags "quiet"]);
    reflexivity.
Defined.

(** ** Events outside the table *)

Lemma categoriesOf_none (event : JiraIssueEvent) :
  comment event = None →
  noTypeNameCategory event = true →
  webhookEvent event ≠ "jira:issue_deleted" →
  categoriesOf event = [].
Proof.
  unfold categoriesOf, noTypeNameCategory. intros -> Hn Hw.
  apply String.eqb_neq in Hw. rewrite Hw.
  destruct (issue_event_type_name event) as [n|]; [|reflexivity].
  apply andb_true_iff in Hn as [H1 H2].
  apply negb_true_iff in H1, H2. rewrite H1, H2. reflexivity.
Qed.

Lemma getJiraIssueDescription_transitions (env : Env) (issueDetail : JiraBody)
    (event : JiraIssueEvent) (newEvent : bool) (w w' : World) (d : IssueDescription) :
  webhookEvent event ∈ ["comment_created"; "jira:issue_updated"; "jira:issue_created"] →
  getJiraIssueDescription env issueDetail event newEvent w = (Returned d, w') →
  is_Some (issueTransitions d).
Proof.
  intros Hw. unfold getJiraIssueDescription. run.
  assert (Hcase : (webhookEvent event =? "comment_created") ||
                  (webhookEvent event =? "jira:issue_updated") = true ∨
                  (webhookEvent event =? "jira:issue_created") = true).
  { rewrite !elem_of_cons, elem_of_nil in Hw.
    destruct Hw as [->|[->|[->|[]]]]; auto. }
  destruct ((webhookEvent event =? "comment_created") ||
            (webhookEvent event =? "jira:issue_updated"));
    [|destruct Hcase as [?|Hc]; [discriminate|rewrite Hc]].
  all: destruct (getJiraDetails env _ true 5 w) as [[t|e] w1]; [|discriminate];
       destruct (issueSummary issueDetail); [|discriminate];
       intros [= <- _]; by eexists.
Qed.

(** C3, as stated, fails: (jira:issue_updated, issue_commented) is not a
    pair of the table, yet an event with that pair and a comment is
    assigned issueComment and delivered to the subscribed channel. *)
Lemma commented_update_is_routed :
  let env := sampleEnv false basicAuth (sampleTracker None) [allEnabled "jira-feed"] in
  specCategory commentedEvent = None ∧
  categoriesOf commentedEvent = [IssueComment] ∧
  (routeEvent env commentedEvent true emptyWorld).1 = Returned tt ∧
  map delivered_channels (sent (routeEvent env commentedEvent true emptyWorld).2) =
    [["jira-feed"]].
Proof. vm_compute. repeat split. Qed.

(** C3 (amended): an event that carries no comment, whose
    [issue_event_type_name] is null or none of issue_generic, issue_updated,
    issue_assigned and issue_created, and whose [webhookEvent] is not
    [jira:issue_deleted] is assigned no category; its channel list stays
    empty whatever the candidates, and nothing is dispatched.  When moreover
    [webhookEvent] is one of comment_created, jira:issue_updated and
    jira:issue_created, the two lookups succeed and the awaited helpers
    (the channel resolver, then the four message composers) resolve,
    [routeEvent] logs that no channels were found and completes without an
    error; when one of these helpers rejects, [routeEvent] rejects with the
    error of that helper. *)
Theorem uncategorized_event_dropped
    (env : Env) (event : JiraIssueEvent) (newEvent : bool) (w : World) :
  comment event = None →
  noTypeNameCategory event = true →
  webhookEvent event ≠ "jira:issue_deleted" →
  let r := routeEvent env event newEvent w in
  categoriesOf event = [] ∧
  (∀ newChannels, collectChannels env event newChannels = []) ∧
  sent r.2 = sent w ∧
  ∀ issueDetail w1 d w2,
    webhookEvent event ∈ ["comment_created"; "jira:issue_updated"; "jira:issue_created"] →
    getJiraDetails env (buildSelfUrl env (issue_id (issue event)) +:+ "?expand=changelog")
                   true 30 w = (Returned issueDetail, w1) →
    getJiraIssueDescription env issueDetail event newEvent w1 = (Returned d, w2) →
    (∀ e w3, await (jiraDetermineNotifyChannels env event) w2 = (Thrown e, w3) →
             r.1 = Thrown e) ∧
    (∀ newChannels w3,
       await (jiraDetermineNotifyChannels env event) w2 = (Returned newChannels, w3) →
       (∀ e w4, gatherMessage env event issueDetail w3 = (Thrown e, w4) → r.1 = Thrown e) ∧
       (∀ message w4,
          gatherMessage env event issueDetail w3 = (Returned message, w4) →
          r.1 = Returned tt ∧
          ∃ earlier,
            logs r.2 = earlier ++ ["JIRA routeEvent: No channels found, not sending message"])).
Proof.
  intros Hc Hn Hw r.
  pose proof (categoriesOf_none event Hc Hn Hw) as Hcat.
  split; [exact Hcat|]. split.
  { intros newChannels. by rewrite collectChannels_by_category, Hcat. }
  unfold r, routeEvent. run.
  pose proof (getJiraDetails_frame env
    (buildSelfUrl env (issue_id (issue event)) +:+ "?expand=changelog") true 30 w) as [H1 _].
  destruct (getJiraDetails env _ true 30 w) as [[issueDetail|e] w1] eqn:Hget;
    cbn [fst snd] in *; [|split; [done|intros; discriminate]].
  pose proof (getJiraIssueDescription_frame env issueDetail event newEvent w1) as [H2 _].
  pose proof (getJiraIssueDescription_transitions env issueDetail event newEvent w1) as Ht.
  destruct (getJiraIssueDescription env issueDetail event newEvent w1) as [[d|e] w2] eqn:Hdescr;
    cbn [fst snd] in *;
    [|split; [by rewrite H2|intros ? ? ? ? _ [= <- <-] Hd; rewrite Hdescr in Hd; discriminate]].
  pose proof (frames_await (jiraDetermineNotifyChannels env event) w2) as [H3 _].
  destruct (await (jiraDetermineNotifyChannels env event) w2) as [[newChannels|e] w3] eqn:E3;
    cbn [fst snd] in *.
  2: { split; [congruence|].
       intros ? ? ? ? _ [= <- <-] Hd. rewrite Hdescr in Hd. injection Hd as <- <-.
       rewrite E3. split; [by intros ? ? [= <- _]|by intros ? ? [=]]. }
  rewrite (gatherChannels_none env event newChannels w3 Hcat). cbn [fst snd].
  pose proof (gatherMessage_frames env event issueDetail w3) as [H4 _].
  destruct (gatherMessage env event issueDetail w3) as [[message|e] w4] eqn:E4;
    cbn [fst snd] in *.
  2: { split; [congruence|].
       intros ? ? ? ? _ [= <- <-] Hd. rewrite Hdescr in Hd. injection Hd as <- <-.
       rewrite E3. split; [by intros ? ? [=]|].
       intros ? ? [= <- <-]. rewrite E4. split; [by intros ? ? [= <- _]|by intros ? ? [=]]. }
  rewrite andb_false_r.
  change (negb (0 <? length (@nil JiraPreference))%nat) with true. cbv iota.
  split.
  - destruct (transitionOptions (issueTransitions d)); cbn [fst snd]; [|congruence].
    destruct (negb (0 <? length message)%nat); cbn; congruence.
  - intros issueDetail' w1' d' w2' Hhook [= <- <-] Hd.
    rewrite Hdescr in Hd. injection Hd as <- <-.
    rewrite E3. split; [by intros ? ? [=]|].
    intros ? ? [= <- <-]. rewrite E4. split; [by intros ? ? [=]|].
    intros ? ? [= <- <-].
    destruct (Ht w2 d Hhook eq_refl) as [t Hsome]. rewrite Hsome.
    assert (Hopt : ∃ options, transitionOptions (Some t) = Returned options).
    { destruct t as [i|[[ts|]]]; cbn; eauto. }
    destruct Hopt as [options ->].
    destruct (negb (0 <? length message)%nat); cbn; (split; [done|]); by eexists.
Qed.

Lemma uncategorized_event_dropped_witness :
  let env := sampleEnv false basicAuth (sampleTracker None) [allEnabled "jira-feed"] in
  categoriesOf movedEvent = [] ∧
  (routeEvent env movedEvent true emptyWorld).1 = Returned tt ∧
  sent (routeEvent env movedEvent true emptyWorld).2 = [].
Proof.
  intros env.
  destruct (uncategorized_event_dropped env movedEvent true emptyWorld
              eq_refl eq_refl ltac:(discriminate)) as (H1 & _ & H3 & H4).
  split; [exact H1|]. split; [|exact H3].
  pose (url := buildSelfUrl env (issue_id (issue movedEvent)) +:+ "?expand=changelog").
  pose (fetched := getJiraDetails env url true 30 emptyWorld).
  assert (Hget : fetched = (Returned (sampleDetail None), fetched.2))
    by (vm_compute; reflexivity).
  pose (described :=
          getJiraIssueDescription env (sampleDetail None) movedEvent true fetched.2).
  assert (Hd : ∃ d, described = (Returned d, described.2))
    by (eexists; vm_compute; reflexivity).
  destruct Hd as [d Hd].
  pose (candidates := await (jiraDetermineNotifyChannels env movedEvent) described.2).
  assert (Hc : candidates = (Returned [allEnabled "jira-feed"], candidates.2))
    by (vm_compute; reflexivity).
  pose (composed := gatherMessage env movedEvent (sampleDetail None) candidates.2).
  assert (Hm : composed = (Returned ["Login fails"], composed.2))
    by (vm_compute; reflexivity).
  destruct (H4 (sampleDetail None) fetched.2 d described.2
              ltac:(by apply (bool_decide_unpack _)) Hget Hd) as [_ H5].
  destruct (H5 _ _ Hc) as [_ H6].
  by destruct (H6 _ _ Hm) as [H7 _].
Defined.

(** ** Message identity *)

(** C6: for a [jira:issue_created] event, the message options returned by
    [getJiraIssueDescription] have the id [jira/issue_created/KEY/TIMESTAMP]
    and the post mode [always] for a new event and [update_only] for a
    replayed one; the function returns them whenever the lookup of the
    transitions resolves and the summary of the issue can be read. *)
Theorem created_event_message_identity
    (env : Env) (issueDetail : JiraBody) (event : JiraIssueEvent) (newEvent : bool)
    (w : World) :
  webhookEvent event = "jira:issue_created" →
  let identity :=
    {| msg_id := "jira/issue_created/" +:+ issue_key (issue event) +:+ "/" +:+ timestamp event;
       msg_post := if newEvent then always else update_only |} in
  (∀ d w', getJiraIssueDescription env issueDetail event newEvent w = (Returned d, w') →
           msgOptions d = Some identity) ∧
  (∀ found w1 summary,
      getJiraDetails env (buildSelfUrl env (issue_id (issue event)) +:+ "/transitions")
                     true 5 w = (Returned found, w1) →
      issueSummary issueDetail = Returned summary →
      ∃ d, getJiraIssueDescription env issueDetail event newEvent w = (Returned d, w1) ∧
           msgOptions d = Some identity ∧ issueTransitions d = Some found).
Proof.
  intros Hw identity. unfold getJiraIssueDescription. run. rewrite Hw.
  change (("jira:issue_created" =? "comment_created") ||
          ("jira:issue_created" =? "jira:issue_updated")) with false.
  change ("jira:issue_created" =? "jira:issue_created") with true. cbv iota.
  split.
  - intros d w'.
    destruct (getJiraDetails env _ true 5 w) as [[found|e] w1]; [|discriminate].
    destruct (issueSummary issueDetail); [|discriminate].
    intros [= <- _]. destruct newEvent; reflexivity.
  - intros found w1 summary -> ->. eexists. split; [reflexivity|].
    split; [destruct newEvent|]; reflexivity.
Qed.

Lemma created_event_message_identity_witness :
  let env := sampleEnv false basicAuth (sampleTracker None) [allEnabled "jira-feed"] in
  ∃ d,
    (getJiraIssueDescription env (sampleDetail None) createdEvent false emptyWorld).1
      = Returned d ∧
    msgOptions d =
      Some {| msg_id := "jira/issue_created/PROJ-1/1561000000000";
              msg_post := update_only |}.
Proof.
  intros env.
  pose (fetched :=
          getJiraDetails env
            (buildSelfUrl env (issue_id (issue createdEvent)) +:+ "/transitions")
            true 5 emptyWorld).
  assert (Hget : fetched = (Returned sampleTransitions, fetched.2))
    by (vm_compute; reflexivity).
  destruct (proj2 (created_event_message_identity
                     env (sampleDetail None) createdEvent false emptyWorld eq_refl)
                  sampleTransitions fetched.2 "Login fails" Hget eq_refl)
    as (d & Hd & Hm & _).
  exists d. rewrite Hd. split; [reflexivity|exact Hm].
Defined.

(** ** The detail fetcher *)

(** C8, as stated, fails: on a miss with an authenticator that rejects,
    no HTTP exchange is performed at all; the rejection is wrapped and
    thrown before the request is sent. *)
Lemma rejected_authenticator_sends_nothing :
  let env := sampleEnv true (Thrown (AuthenticatorError "token expired"))
                       (sampleTracker None) [] in
  let url := "https://jira.example.com/rest/api/2/issue/10001" in
  let r := getJiraDetails env url true 30 emptyWorld in
  cacheLookup url emptyWorld = None ∧
  r.1 = Thrown (WrappedError (AuthenticatorError "token expired")) ∧
  exchanges r.2 = exchanges emptyWorld ∧
  length (exchanges r.2) ≠ S (length (exchanges emptyWorld)).
Proof. vm_compute. repeat split. discriminate. Qed.

(** Every run of [getJiraDetails], by cases on the cache, the authenticator
    and the tracker.  An entry is written when the exchange has answered,
    and expires [ttl] after that. *)
Lemma getJiraDetails_cases
    (env : Env) (url : string) (cache : bool) (ttl : Z) (w : World) :
  let r := getJiraDetails env url cache ttl w in
  match (if jira_useCache env && cache then cacheLookup url w else None) with
  | Some cached =>
      r.1 = Returned cached ∧ exchanges r.2 = exchanges w ∧ jiraCache r.2 = jiraCache w
  | None =>
      match getJiraAuth env with
      | Thrown e =>
          r.1 = Thrown (WrappedError e) ∧
          exchanges r.2 = exchanges w ∧ jiraCache r.2 = jiraCache w
      | Returned _ =>
          exchanges r.2 = exchanges w ++ [url] ∧
          match httpGet env url with
          | HttpOk body =>
              r.1 = Returned body ∧
              jiraCache r.2 =
                if cache
                then <[url := {| entry_value := body;
                                 entry_expiry :=
                                   (now w + Z.of_N (httpElapsed env url) + ttl)%Z |}]>
                       (jiraCache w)
                else jiraCache w
          | HttpFailed status text =>
              r.1 = Thrown (WrappedError (TransportError status text)) ∧
              jiraCache r.2 = jiraCache w
          end
      end
  end.
Proof.
  unfold getJiraDetails, jiraCache_get, httpClient_exchange, jiraCache_set, log. run.
  destruct (jira_useCache env && cache), (cacheLookup url w); cbn; try done;
    destruct (getJiraAuth env); cbn; try done;
    destruct (httpGet env url); cbn; destruct cache; done.
Qed.

(** C8 (amended): a call returns the cached value without an HTTP exchange
    when caching is in effect (the configuration flag and the [cache]
    argument are both set) and an unexpired entry exists.  Otherwise, if the
    authenticator rejects, the rejection is wrapped and thrown with no
    exchange and no change to the cache; if it supplies a header, exactly
    one exchange is performed: on success the body is returned and, exactly
    when the [cache] argument is set, stored under the URL with the given
    time-to-live, which runs from the answer of the exchange; on failure
    the wrapped error is thrown and the cache is left as it was. *)
Theorem getJiraDetails_contract
    (env : Env) (url : string) (cache : bool) (ttl : Z) (w : World) :
  let r := getJiraDetails env url cache ttl w in
  let cachingInEffect := jira_useCache env && cache in
  (∀ cached,
      cachingInEffect = true ∧ cacheLookup url w = Some cached →
      r.1 = Returned cached ∧ exchanges r.2 = exchanges w ∧ jiraCache r.2 = jiraCache w) ∧
  (cachingInEffect = false ∨ cacheLookup url w = None →
   (∀ e, getJiraAuth env = Thrown e →
         r.1 = Thrown (WrappedError e) ∧
         exchanges r.2 = exchanges w ∧ jiraCache r.2 = jiraCache w) ∧
   (∀ header, getJiraAuth env = Returned header →
      exchanges r.2 = exchanges w ++ [url] ∧
      (∀ body, httpGet env url = HttpOk body →
         r.1 = Returned body ∧
         jiraCache r.2 =
           if cache
           then <[url := {| entry_value := body;
                            entry_expiry := (now w + Z.of_N (httpElapsed env url) + ttl)%Z |}]>
                  (jiraCache w)
           else jiraCache w) ∧
      (∀ status text, httpGet env url = HttpFailed status text →
         r.1 = Thrown (WrappedError (TransportError status text)) ∧
         jiraCache r.2 = jiraCache w))).
Proof.
  intros r cachingInEffect.
  pose proof (getJiraDetails_cases env url cache ttl w) as H.
  fold r cachingInEffect in H. cbv zeta in H. split.
  - intros cached [Heff Hhit]. by rewrite Heff, Hhit in H.
  - intros Hmiss.
    assert (Hnone : (if cachingInEffect then cacheLookup url w else None) = None).
    { destruct Hmiss as [->| ->]; [done|by destruct cachingInEffect]. }
    rewrite Hnone in H. split.
    + intros e He. by rewrite He in H.
    + intros header Hh. rewrite Hh in H. destruct H as [Hex H].
      split; [exact Hex|]. split.
      * intros body Hb. by rewrite Hb in H.
      * intros status text Hf. by rewrite Hf in H.
Qed.

(** C10: with [sdm.jira.useCache] false, a successful fetch by
    [getJiraDetails(url, true, ttl)] is still written to the cache under
    the URL with the given time-to-live, whether or not an entry was there;
    the flag only keeps cached values from being returned.  The
    time-to-live runs from the write, when the exchange has answered. *)
Theorem cache_populated_when_disabled
    (env : Env) (url : string) (ttl : Z) (w : World) (header : string) (body : JiraBody) :
  jira_useCache env = false →
  getJiraAuth env = Returned header →
  httpGet env url = HttpOk body →
  let r := getJiraDetails env url true ttl w in
  r.1 = Returned body ∧
  exchanges r.2 = exchanges w ++ [url] ∧
  now r.2 = (now w + Z.of_N (httpElapsed env url))%Z ∧
  jiraCache r.2 =
    <[url := {| entry_value := body; entry_expiry := (now r.2 + ttl)%Z |}]> (jiraCache w) ∧
  ((0 < ttl)%Z → cacheLookup url r.2 = Some body).
Proof.
  intros Hflag Hauth Hget r.
  pose proof (getJiraDetails_cases env url true ttl w) as H.
  fold r in H. cbv zeta in H. rewrite Hflag, Hauth, Hget in H. cbn in H.
  destruct H as (Hex & Hres & Hcache).
  assert (Hnow : now r.2 = (now w + Z.of_N (httpElapsed env url))%Z).
  { unfold r, getJiraDetails, jiraCache_get, httpClient_exchange, jiraCache_set, log. run.
    rewrite Hflag, Hauth, Hget. reflexivity. }
  split; [exact Hres|]. split; [exact Hex|]. split; [exact Hnow|].
  split; [by rewrite Hnow|].
  intros Httl. unfold cacheLookup. rewrite Hcache, lookup_insert_eq. cbn.
  rewrite Hnow. case_bool_decide; [done|lia].
Qed.

Lemma cache_populated_when_disabled_witness :
  let env := sampleEnv false basicAuth (sampleTracker None) [] in
  let url := "https://jira.example.com/rest/api/2/issue/10001/transitions" in
  cacheLookup url emptyWorld = None ∧
  cacheLookup url (getJiraDetails env url true 5 emptyWorld).2 = Some sampleTransitions.
Proof.
  intros env url. split; [reflexivity|].
  apply (cache_populated_when_disabled env url 5 emptyWorld "Basic c2RtOnNlY3JldA=="
           sampleTransitions eq_refl eq_refl eq_refl).
  reflexivity.
Defined.

(** ** Environment markers of the approval handler *)

Lemma stripPrefix_Some (p s rest : string) :
  stripPrefix p s = Some rest → s = p +:+ rest.
Proof.
  revert s. induction p as [|x p IH]; intros [|y s]; cbn; try discriminate.
  - by intros [= <-].
  - by intros [= <-].
  - destruct (Ascii.eqb_spec x y) as [->|]; [|discriminate].
    intros H. by rewrite (IH _ H).
Qed.

Lemma stripPrefix_app (p rest : string) : stripPrefix p (p +:+ rest) = Some rest.
Proof.
  induction p as [|x p IH]; [by destruct rest|].
  change (String x p +:+ rest) with (String x (p +:+ rest)).
  cbn [stripPrefix]. by rewrite Ascii.eqb_refl.
Qed.

Lemma contains_unfold (marker s : string) :
  contains marker s =
  match stripPrefix marker s with
  | Some _ => true
  | None => match s with EmptyString => false | String _ rest => contains marker rest end
  end.
Proof. destruct s; reflexivity. Qed.

(** [contains] is the substring test. *)
Lemma contains_true (marker s : string) :
  contains marker s = true ↔ ∃ pre post, s = pre +:+ marker +:+ post.
Proof.
  split.
  - induction s as [|c s IH]; rewrite contains_unfold.
    + destruct (stripPrefix marker "") as [rest|] eqn:Hp; [|discriminate].
      intros _. exists "", rest. exact (stripPrefix_Some _ _ _ Hp).
    + destruct (stripPrefix marker (String c s)) as [rest|] eqn:Hp.
      * intros _. exists "", rest. exact (stripPrefix_Some _ _ _ Hp).
      * intros H. destruct (IH H) as (pre & post & ->). by exists (String c pre), post.
  - intros (pre & post & ->). induction pre as [|c pre IH]; rewrite contains_unfold.
    + change ("" +:+ marker +:+ post) with (marker +:+ post).
      by rewrite stripPrefix_app.
    + change (String c pre +:+ marker +:+ post) with (String c (pre +:+ marker +:+ post)).
      destruct (stripPrefix marker _); [done|exact IH].
Qed.

(** [exec] fails on a string that does not contain the marker. *)
Lemma regexExec_absent (marker s : string) :
  contains marker s = false → regexExec marker s = None.
Proof.
  induction s as [|c s IH]; rewrite contains_unfold; intros H.
  - cbn. by destruct (stripPrefix marker "").
  - cbn [regexExec]. destruct (stripPrefix marker (String c s)); [done|]. by apply IH.
Qed.

(** C9 is violated by the code: when the description lacks one of the four
    markers, [exec] returns [null] and reading its element 1 throws a
    [TypeError]; the guard that logs and returns [Success] is never
    reached. *)
Theorem approval_handler_missing_marker_throws
    (env : Env) (goal : Goal) (event : JiraIssueEvent) (rest : list JiraIssueEvent)
    (w w1 : World) (i : Issue) (tag : string) :
  getJiraDetails env (issue_self (issue event)) false 3600 w = (Returned (IssueBody i), w1) →
  tag ∈ ["sha"; "owner"; "repo"; "branch"] →
  contains ("[atomist:" +:+ tag +:+ ":") (default "null" (fields_description i)) = false →
  onJiraIssueEventApprovalHandler env goal (event :: rest) w =
    (Thrown (TypeError "Cannot read property '1' of null"), w1).
Proof.
  intros Hget Htag Habs. apply regexExec_absent in Habs.
  unfold onJiraIssueEventApprovalHandler. run. rewrite Hget.
  unfold environmentTag.
  rewrite !elem_of_cons, elem_of_nil in Htag.
  destruct Htag as [->|[->|[->|[->|[]]]]]; rewrite Habs;
    repeat (match goal with
            | |- context [regexExec ?m ?s] => destruct (regexExec m s)
            end);
    reflexivity.
Qed.

Lemma approval_handler_missing_marker_throws_witness :
  let env := sampleEnv false basicAuth
               (sampleTracker (Some "Please approve the deployment to production.")) [] in
  let r := onJiraIssueEventApprovalHandler env deployGoal [approvedEvent] emptyWorld in
  r.1 = Thrown (TypeError "Cannot read property '1' of null") ∧
  logs r.2 =
    ["JIRA getJiraDetails => https://jira.example.com/rest/api/2/issue/10001: "
     +:+ "Cache disabled, querying..."] ∧
  goalUpdates r.2 = [].
Proof.
  intros env r.
  pose (fetched := getJiraDetails env (issue_self (issue approvedEvent)) false 3600 emptyWorld).
  assert (Hget : fetched =
                 (Returned (sampleDetail (Some "Please approve the deployment to production.")),
                  fetched.2))
    by (vm_compute; reflexivity).
  assert (Hrun : r = (Thrown (TypeError "Cannot read property '1' of null"), fetched.2)).
  { apply (approval_handler_missing_marker_throws env deployGoal approvedEvent []
             emptyWorld fetched.2 _ "sha" Hget).
    - by apply (bool_decide_unpack _).
    - reflexivity. }
  rewrite Hrun. repeat split; reflexivity.
Defined.

(** The guard of the handler is reached only when every marker is there:
    with an empty marker it logs and returns [Success]. *)
Example approval_handler_empty_marker_skips :
  let env := sampleEnv false basicAuth
               (sampleTracker
                  (Some "[atomist:sha:] [atomist:owner:] [atomist:repo:] [atomist:branch:]"))
               [] in
  let r := onJiraIssueEventApprovalHandler env deployGoal [approvedEvent] emptyWorld in
  r.1 = Returned Success ∧ goalUpdates r.2 = [] ∧
  "JIRA onJiraIssueEventApprovalHandler: No enviornment data found on issue, skipping event..."
    ∈ logs r.2.
Proof. vm_compute. repeat split. apply list_elem_of_In. right. left. reflexivity. Qed.

(** ** Hash keys *)

Lemma getProp_absent (o : JsObject) (name : string) :
  hasProp o name = false → getProp o name = JsUndefined.
Proof.
  induction o as [|[k v] o IH]; cbn; [done|].
  destruct (k =? name); [discriminate|exact IH].
Qed.

(** A property read does not depend on the insertion order. *)
Lemma getProp_Permutation (o1 o2 : JsObject) (name : string) :
  wellFormed o1 → o1 ≡ₚ o2 → getProp o1 name = getProp o2 name.
Proof.
  unfold wellFormed. intros Hnd Hp. induction Hp as [|[k v] o1 o2 Hp IH|[k1 v1] [k2 v2] o|o1 o2 o3 Hp1 IH1 Hp2 IH2].
  - reflexivity.
  - cbn in *. apply list.NoDup_cons in Hnd as [_ Hnd]. by rewrite IH.
  - cbn in *. destruct (String.eqb_spec k1 name) as [->|], (String.eqb_spec k2 name) as [->|];
      try reflexivity.
    apply list.NoDup_cons in Hnd as [Hnot _].
    destruct Hnot. left.
  - rewrite IH1 by done. apply IH2.
    unfold JsObject in *. by rewrite <- Hp1.
Qed.

Lemma canonicalHash_unordered (o1 o2 : JsObject) :
  wellFormed o1 → o1 ≡ₚ o2 → canonicalHash o1 = canonicalHash o2.
Proof.
  intros Hwf Hp. unfold canonicalHash. do 3 f_equal.
  by apply list_to_map_proper.
Qed.

Lemma canonicalHash_collision_free (o1 o2 : JsObject) :
  wellFormed o1 → wellFormed o2 → canonicalHash o1 = canonicalHash o2 → o1 ≡ₚ o2.
Proof.
  unfold canonicalHash. intros Hwf1 Hwf2 H.
  apply (inj pretty) in H. injection H as H. apply (inj encode) in H.
  by apply (list_to_map_inj (M := gmap string)) in H.
Qed.

Lemma hasProp_false (o : JsObject) (name : string) :
  hasProp o name = false → name ∉ o.*1.
Proof.
  induction o as [|[k v] o IH]; cbn; [intros _; apply not_elem_of_nil|].
  destruct (String.eqb_spec k name) as [->|Hne]; [discriminate|].
  intros H. apply not_elem_of_cons. split; [congruence|by apply IH].
Qed.

Lemma getProp_cons (o : JsObject) (name k : string) (v : JsValue) :
  getProp ((name, v) :: o) k = if name =? k then v else getProp o k.
Proof. reflexivity. Qed.

(** The key, with the dead [|| ""] alternatives removed: a hyphen always
    makes the left operand non-empty. *)
Lemma buildJiraHashKey_shape (objectHash : JsObject → string) (workspaceId : string)
    (payload : JsObject) :
  buildJiraHashKey objectHash workspaceId payload =
  workspaceId +:+
  String "-" (toStr (getProp payload "componentId") +:+
  String "-" (toStr (getProp payload "projectId") +:+
  String "-" (toStr (getProp payload "channel") +:+
  String "-" (objectHash payload)))).
Proof. reflexivity. Qed.

(** The text of the key tells an empty string from [undefined], whatever
    the hash. *)
Lemma buildJiraHashKey_separates (objectHash : JsObject → string) (workspaceId name : string)
    (p q : JsObject) :
  name ∈ ["componentId"; "projectId"; "channel"] →
  getProp p name = JsUndefined →
  getProp q name = JsString "" →
  (∀ k, k ≠ name → getProp p k = getProp q k) →
  buildJiraHashKey objectHash workspaceId p ≠ buildJiraHashKey objectHash workspaceId q.
Proof.
  intros Hname Hp Hq Hsame. rewrite !buildJiraHashKey_shape. intros H.
  apply (inj (String.append workspaceId)) in H. injection H as H.
  rewrite !elem_of_cons, elem_of_nil in Hname.
  destruct Hname as [->|[->|[->|[]]]].
  - rewrite Hp, Hq in H. discriminate H.
  - rewrite <- (Hsame "componentId") in H by discriminate.
    apply (inj (String.append _)) in H. injection H as H.
    rewrite Hp, Hq in H. discriminate H.
  - rewrite <- (Hsame "componentId"), <- (Hsame "projectId") in H by discriminate.
    apply (inj (String.append _)) in H. injection H as H.
    apply (inj (String.append _)) in H. injection H as H.
    rewrite Hp, Hq in H. discriminate H.
Qed.

Section HashKey.
(** [objectHash] with its default options, and what is assumed of it: it
    does not depend on the order of the properties, and it tells apart
    any two objects that differ in more than that order. *)
Variable objectHash : JsObject → string.
Hypothesis objectHash_unordered :
  ∀ o1 o2, wellFormed o1 → o1 ≡ₚ o2 → objectHash o1 = objectHash o2.
Hypothesis objectHash_collision_free :
  ∀ o1 o2, wellFormed o1 → wellFormed o2 → objectHash o1 = objectHash o2 → o1 ≡ₚ o2.

(** C5: [buildJiraHashKey] is a function of the workspace and the
    payload, gives the same key whatever the insertion order of the
    properties, and gives three different keys to a payload without the
    property [name], to the same payload with [name] undefined and to
    the same payload with [name] the empty string. *)
Theorem buildJiraHashKey_stable_and_separating
    (workspaceId name : string) (payload reordered : JsObject) :
  wellFormed payload →
  payload ≡ₚ reordered →
  name ∈ ["componentId"; "projectId"; "channel"] →
  hasProp payload name = false →
  let key := buildJiraHashKey objectHash workspaceId in
  key payload = key reordered ∧
  key payload ≠ key ((name, JsUndefined) :: payload) ∧
  key payload ≠ key ((name, JsString "") :: payload) ∧
  key ((name, JsUndefined) :: payload) ≠ key ((name, JsString "") :: payload).
Proof.
  intros Hwf Hperm Hname Habsent key. unfold key.
  assert (Hwf' : ∀ v, wellFormed ((name, v) :: payload)).
  { intros v. apply NoDup_cons_2; [by apply hasProp_false|exact Hwf]. }
  assert (Hother : ∀ v1 v2 k, k ≠ name →
            getProp ((name, v1) :: payload) k = getProp ((name, v2) :: payload) k).
  { intros v1 v2 k Hk. rewrite !getProp_cons.
    destruct (String.eqb_spec name k); [congruence|reflexivity]. }
  assert (Hat : ∀ v, getProp ((name, v) :: payload) name = v).
  { intros v. by rewrite getProp_cons, String.eqb_refl. }
  repeat split.
  - rewrite !buildJiraHashKey_shape.
    rewrite !(getProp_Permutation payload reordered) by done.
    by rewrite (objectHash_unordered payload reordered).
  - rewrite !buildJiraHashKey_shape. intros H.
    assert (Hsame : ∀ k, getProp ((name, JsUndefined) :: payload) k = getProp payload k).
    { intros k. rewrite getProp_cons.
      destruct (String.eqb_spec name k) as [<-|]; [|reflexivity].
      symmetry. by apply getProp_absent. }
    rewrite !Hsame in H.
    repeat (apply (inj (String.append _)) in H; injection H as H).
    apply objectHash_collision_free in H; [|done..].
    apply Permutation_length in H. cbn in H. lia.
  - apply (buildJiraHashKey_separates _ _ name); [done| |done|].
    + by apply getProp_absent.
    + intros k Hk. rewrite getProp_cons.
      destruct (String.eqb_spec name k); [congruence|reflexivity].
  - apply (buildJiraHashKey_separates _ _ name); auto.
Qed.
End HashKey.

Lemma buildJiraHashKey_stable_and_separating_witness :
  let key := buildJiraHashKey canonicalHash "T29E48P34" in
  key [("projectId", JsString "A"); ("channel", JsString "dev")] =
  key [("channel", JsString "dev"); ("projectId", JsString "A")] ∧
  key [("projectId", JsString "A"); ("channel", JsString "dev")] ≠
  key [("componentId", JsUndefined); ("projectId", JsString "A"); ("channel", JsString "dev")].
Proof.
  intros key.
  destruct (buildJiraHashKey_stable_and_separating canonicalHash
              canonicalHash_unordered canonicalHash_collision_free
              "T29E48P34" "componentId"
              [("projectId", JsString "A"); ("channel", JsString "dev")]
              [("channel", JsString "dev"); ("projectId", JsString "A")])
    as (Hsame & Hundef & _).
  - by apply (bool_decide_unpack _).
  - apply perm_swap.
  - by apply (bool_decide_unpack _).
  - reflexivity.
  - split; [exact Hsame|exact Hundef].
Defined.

(** ** Worked scenarios *)

(** Two rules nominating the same channel: it is addressed once. *)
Example same_channel_notified_once :
  let env := sampleEnv false basicAuth (sampleTracker None)
                       [allEnabled "jira-feed"; allEnabled "jira-feed"] in
  map delivered_channels (sent (routeEvent env createdEvent true emptyWorld).2) =
    [["jira-feed"]].
Proof. vm_compute. reflexivity. Qed.

(** A [webhookEvent] outside the four cases of [getJiraIssueDescription]
    leaves [issueTransitions] undefined, and building the menu throws. *)
Example unrecognized_webhook_throws :
  let env := sampleEnv false basicAuth (sampleTracker None) [allEnabled "jira-feed"] in
  let r := routeEvent env (sampleEvent "jira:worklog_updated" None None) true emptyWorld in
  r.1 = Thrown (TypeError "Cannot read property 'hasOwnProperty' of undefined") ∧
  sent r.2 = [].
Proof. vm_compute. split; reflexivity. Qed.

(** A second delivery of the same webhook, replayed with [newEvent] false,
    carries the same message id and only updates. *)
Example replayed_event_updates_only :
  let env := sampleEnv false basicAuth (sampleTracker None) [allEnabled "jira-feed"] in
  map delivered_options (sent (routeEvent env createdEvent true emptyWorld).2) =
    [Some {| msg_id := "jira/issue_created/PROJ-1/1561000000000"; msg_post := always |}] ∧
  map delivered_options (sent (routeEvent env createdEvent false emptyWorld).2) =
    [Some {| msg_id := "jira/issue_created/PROJ-1/1561000000000"; msg_post := update_only |}].
Proof. vm_compute. split; reflexivity. Qed.

(** With caching switched on, a second lookup within the time-to-live is
    answered from the cache: one exchange for two calls. *)
Example cached_value_reused :
  let env := sampleEnv true basicAuth (sampleTracker None) [] in
  let url := "https://jira.example.com/rest/api/2/issue/10001/transitions" in
  let first := getJiraDetails env url true 5 emptyWorld in
  let second := getJiraDetails env url true 5 first.2 in
  first.1 = Returned sampleTransitions ∧
  second.1 = Returned sampleTransitions ∧
  exchanges second.2 = [url].
Proof. vm_compute. repeat split. Qed.

(** A tracker that is down: one exchange, a wrapped error, an empty cache. *)
Example transport_failure_not_cached :
  let env := sampleEnv true basicAuth failingTracker [] in
  let url := "https://jira.example.com/rest/api/2/issue/10001" in
  let r := getJiraDetails env url true 30 emptyWorld in
  r.1 = Thrown (WrappedError (TransportError 503 "Service Unavailable")) ∧
  exchanges r.2 = [url] ∧
  cacheLookup url r.2 = None.
Proof. vm_compute. repeat split. Qed.

(** * Further properties of the pack *)

(** ** Preference records *)

(** X1: [mungeJiraPrefs] leaves a record unchanged exactly when all its
    ten flags are defined, and what it returns is such a record: applying it
    twice is the same as applying it once. *)
Theorem mungeJiraPrefs_fixpoint (prefs : JiraPreference) :
  (mungeJiraPrefs prefs = prefs ↔ ∀ k, is_Some (prefGet k prefs)) ∧
  mungeJiraPrefs (mungeJiraPrefs prefs) = mungeJiraPrefs prefs.
Proof.
  split; [split|reflexivity].
  - intros H k. rewrite <- H, mungeJiraPrefs_flag. by eexists.
  - intros H.
    pose proof (H (CategoryKey IssueCreated)) as [? H1].
    pose proof (H (CategoryKey IssueDeleted)) as [? H2].
    pose proof (H (CategoryKey IssueComment)) as [? H3].
    pose proof (H (CategoryKey IssueStatus)) as [? H4].
    pose proof (H (CategoryKey IssueState)) as [? H5].
    pose proof (H (TypeKey Bug)) as [? H6].
    pose proof (H (TypeKey Task)) as [? H7].
    pose proof (H (TypeKey Epic)) as [? H8].
    pose proof (H (TypeKey Story)) as [? H9].
    pose proof (H (TypeKey Subtask)) as [? H10].
    destruct prefs; cbn in *; subst. reflexivity.
Qed.

(** X2: the record that [setJiraChannelPrefs] puts in the store, under the
    key [WORKSPACE-preferences-CHANNEL] of the scope [JIRAPreferences], is
    read back unchanged by [queryJiraChannelPrefs] once the lookup returns
    it, flags that were set to false included; the cache entry of the same
    key is purged after the put. *)
Theorem setJiraChannelPrefs_read_back
    (workspaceId : string) (parameters : JiraChannelPrefs.t)
    (lookup : string → option JiraPreference) (scope key : string) (payload : JiraPreference) :
  PreferencePut scope key payload ∈ setJiraChannelPrefs workspaceId parameters →
  lookup (JiraChannelPrefs.slackChannelName parameters) = Some payload →
  queryJiraChannelPrefs lookup (JiraChannelPrefs.slackChannelName parameters) = payload ∧
  issueComment payload = Some (JiraChannelPrefs.issueCommented parameters) ∧
  scope = "JIRAPreferences" ∧
  key = workspaceId +:+ "-preferences-" +:+ JiraChannelPrefs.slackChannelName parameters ∧
  (∃ reply, setJiraChannelPrefs workspaceId parameters =
              [PreferencePut scope key payload; CachePurge key; reply]).
Proof.
  unfold setJiraChannelPrefs. rewrite !elem_of_cons, elem_of_nil.
  intros [Hput|[Hpurge|[Hreply|[]]]] Hlookup; [|discriminate Hpurge|discriminate Hreply].
  injection Hput as -> -> ->.
  unfold queryJiraChannelPrefs. rewrite Hlookup. repeat split. by eexists.
Qed.

Lemma setJiraChannelPrefs_read_back_witness :
  let stored :=
    {| channel := "ops"; issueComment := Some false; issueDeleted := Some false;
       issueCreated := Some true; issueState := Some false; issueStatus := Some true;
       bug := Some true; task := Some false; epic := Some false; story := Some true;
       subtask := Some false |} in
  queryJiraChannelPrefs (fun _ => Some stored) "ops" = stored.
Proof.
  intros stored.
  apply (setJiraChannelPrefs_read_back "T29E48P34" quietParameters (fun _ => Some stored)
           "JIRAPreferences" "T29E48P34-preferences-ops" stored).
  - apply list_elem_of_In. left. reflexivity.
  - reflexivity.
Defined.

Lemma prefsField_defined (title : string) (b : bool) :
  prefsField title (Some b) = Returned (title, if b then "true" else "false").
Proof. by destruct b. Qed.

Lemma queryJiraChannelPrefs_defined
    (lookup : string → option JiraPreference) (name : string) (k : PrefKey) :
  ∃ b, prefGet k (queryJiraChannelPrefs lookup name) = Some b.
Proof.
  unfold queryJiraChannelPrefs. destruct (lookup name).
  - rewrite mungeJiraPrefs_flag. by eexists.
  - destruct k as [[]|[]]; by eexists.
Qed.

(** X3: [getJiraChannelPrefs] never fails on a missing flag: whatever is
    stored for the channel, a full record, a partial one or nothing, it
    answers with the ten fields of the message in their fixed order, each
    with the value ["true"] or ["false"]. *)
Theorem getJiraChannelPrefs_total
    (lookup : string → option JiraPreference) (name : string) :
  ∃ fields,
    getJiraChannelPrefs lookup name = Returned fields ∧
    fields.*1 =
      ["Issue Created?"; "Issue Deleted?"; "New Comments?"; "Issue Status Change?";
       "Issue Transitions?"; "Bug Issue Type?"; "Task Issue Type?"; "Epic Issue Type?";
       "Story Issue Type?"; "Sub-task Issue Type?"] ∧
    Forall (fun f => f.2 = "true" ∨ f.2 = "false") fields.
Proof.
  unfold getJiraChannelPrefs.
  destruct (queryJiraChannelPrefs_defined lookup name (CategoryKey IssueCreated)) as [b1 H1].
  destruct (queryJiraChannelPrefs_defined lookup name (CategoryKey IssueDeleted)) as [b2 H2].
  destruct (queryJiraChannelPrefs_defined lookup name (CategoryKey IssueComment)) as [b3 H3].
  destruct (queryJiraChannelPrefs_defined lookup name (CategoryKey IssueStatus)) as [b4 H4].
  destruct (queryJiraChannelPrefs_defined lookup name (CategoryKey IssueState)) as [b5 H5].
  destruct (queryJiraChannelPrefs_defined lookup name (TypeKey Bug)) as [b6 H6].
  destruct (queryJiraChannelPrefs_defined lookup name (TypeKey Task)) as [b7 H7].
  destruct (queryJiraChannelPrefs_defined lookup name (TypeKey Epic)) as [b8 H8].
  destruct (queryJiraChannelPrefs_defined lookup name (TypeKey Story)) as [b9 H9].
  destruct (queryJiraChannelPrefs_defined lookup name (TypeKey Subtask)) as [b10 H10].
  cbn [prefGet] in *.
  rewrite H1, H2, H3, H4, H5, H6, H7, H8, H9, H10, !prefsField_defined.
  eexists. split; [reflexivity|]. split; [reflexivity|].
  repeat (apply List.Forall_cons;
          [cbn; match goal with |- context [if ?b then _ else _] => destruct b end; auto|]).
  apply List.Forall_nil.
Qed.

(** ** Routing *)

Lemma getJiraDetails_thrown (env : Env) (url : string) (cache : bool) (ttl : Z)
    (w : World) (e : JsError) :
  (getJiraDetails env url cache ttl w).1 = Thrown e → ∃ e', e = WrappedError e'.
Proof.
  pose proof (getJiraDetails_cases env url cache ttl w) as H. cbv zeta in H.
  destruct (if jira_useCache env && cache then cacheLookup url w else None).
  { destruct H as [-> _]. discriminate. }
  destruct (getJiraAuth env).
  - destruct H as [_ H]. destruct (httpGet env url); destruct H as [-> _].
    + discriminate.
    + intros [= <-]. by eexists.
  - destruct H as [-> _]. intros [= <-]. by eexists.
Qed.

Lemma getJiraDetails_exchanges (env : Env) (url : string) (cache : bool) (ttl : Z)
    (w : World) :
  exchanges (getJiraDetails env url cache ttl w).2 = exchanges w ∨
  exchanges (getJiraDetails env url cache ttl w).2 = exchanges w ++ [url].
Proof.
  pose proof (getJiraDetails_cases env url cache ttl w) as H. cbv zeta in H.
  destruct (if jira_useCache env && cache then cacheLookup url w else None).
  { left. apply H. }
  destruct (getJiraAuth env); [right|left]; apply H.
Qed.

Lemma fetchesTransitions_false (event : JiraIssueEvent) :
  webhookEvent event ∉ ["comment_created"; "jira:issue_updated"; "jira:issue_created"] →
  fetchesTransitions event = false.
Proof.
  intros H. unfold fetchesTransitions.
  rewrite !not_elem_of_cons in H. destruct H as (H1 & H2 & H3 & _).
  apply String.eqb_neq in H1, H2, H3. by rewrite H1, H2, H3.
Qed.

Lemma getJiraIssueDescription_no_lookup (env : Env) (issueDetail : JiraBody)
    (event : JiraIssueEvent) (newEvent : bool) (w : World) :
  fetchesTransitions event = false →
  ∃ d, getJiraIssueDescription env issueDetail event newEvent w = (Returned d, w) ∧
       issueTransitions d = None.
Proof.
  unfold fetchesTransitions, getJiraIssueDescription. run.
  intros H. apply orb_false_iff in H as [-> ->].
  destruct (webhookEvent event =? "jira:issue_deleted"); eexists; split; reflexivity.
Qed.

Lemma getJiraIssueDescription_returned (env : Env) (issueDetail : JiraBody)
    (event : JiraIssueEvent) (newEvent : bool) (w w' : World) (d : IssueDescription) :
  getJiraIssueDescription env issueDetail event newEvent w = (Returned d, w') →
  msgOptions d = messageOptionsOf event newEvent ∧
  (is_Some (issueTransitions d) → fetchesTransitions event = true).
Proof.
  unfold getJiraIssueDescription, messageOptionsOf, messageKind, fetchesTransitions. run.
  destruct ((webhookEvent event =? "comment_created") ||
            (webhookEvent event =? "jira:issue_updated")).
  - destruct (getJiraDetails env _ true 5 w) as [[t|e] w1]; [|discriminate].
    destruct (issueSummary issueDetail); [|discriminate].
    intros [= <- _]. split; [reflexivity|done].
  - destruct (webhookEvent event =? "jira:issue_created").
    + destruct (getJiraDetails env _ true 5 w) as [[t|e] w1]; [|discriminate].
      destruct (issueSummary issueDetail); [|discriminate].
      intros [= <- _]. split; [reflexivity|done].
    + destruct (webhookEvent event =? "jira:issue_deleted");
        intros [= <- _]; (split; [reflexivity|by intros [? [=]]]).
Qed.

Lemma getJiraIssueDescription_exchanges (env : Env) (issueDetail : JiraBody)
    (event : JiraIssueEvent) (newEvent : bool) (w : World) :
  let url := buildSelfUrl env (issue_id (issue event)) +:+ "/transitions" in
  exchanges (getJiraIssueDescription env issueDetail event newEvent w).2 = exchanges w ∨
  exchanges (getJiraIssueDescription env issueDetail event newEvent w).2 = exchanges w ++ [url].
Proof.
  intros url. unfold getJiraIssueDescription. run.
  pose proof (getJiraDetails_exchanges env url true 5 w) as H. fold url.
  destruct ((webhookEvent event =? "comment_created") ||
            (webhookEvent event =? "jira:issue_updated"));
    [|destruct (webhookEvent event =? "jira:issue_created");
      [|destruct (webhookEvent event =? "jira:issue_deleted"); by left]].
  all: destruct (getJiraDetails env url true 5 w) as [[t|e] w1]; cbn [fst snd] in *;
       try exact H; destruct (issueSummary issueDetail); exact H.
Qed.


(** X5: for an event whose [webhookEvent] is none of comment_created,
    jira:issue_updated and jira:issue_created (a deleted issue for one),
    [routeEvent] always fails and never dispatches.  It rejects with the
    wrapped failure of the lookup of the issue; or else with the error of
    the first of the awaited helpers that rejects; or else, all of them
    having resolved, with the [TypeError] of building the menu of
    transitions from an undefined [issueTransitions]. *)
Theorem routeEvent_without_transitions_throws
    (env : Env) (event : JiraIssueEvent) (newEvent : bool) (w : World) :
  webhookEvent event ∉ ["comment_created"; "jira:issue_updated"; "jira:issue_created"] →
  let r := routeEvent env event newEvent w in
  sent r.2 = sent w ∧
  match getJiraDetails env (buildSelfUrl env (issue_id (issue event)) +:+ "?expand=changelog")
                       true 30 w with
  | (Thrown e, _) => r.1 = Thrown e ∧ ∃ e', e = WrappedError e'
  | (Returned issueDetail, w1) =>
      match awaitHelpers env event issueDetail w1 with
      | (Thrown e, _) => r.1 = Thrown e
      | (Returned _, _) =>
          r.1 = Thrown (TypeError "Cannot read property 'hasOwnProperty' of undefined")
      end
  end.
Proof.
  intros Hw r. apply fetchesTransitions_false in Hw.
  split.
  { destruct (routeEvent_dispatch env event newEvent w)
      as [H|(d & issueDetail & w1 & descr & w2 & newChannels & w3 & channels & w4 & message
             & w5 & _ & E2 & _ & _ & _ & _ & _ & Hsome & _)]; [exact H|].
    apply getJiraIssueDescription_returned in E2 as [_ Hf]. specialize (Hf Hsome).
    congruence. }
  unfold r, routeEvent, awaitHelpers. run.
  pose proof (getJiraDetails_thrown env
    (buildSelfUrl env (issue_id (issue event)) +:+ "?expand=changelog") true 30 w) as Ht.
  destruct (getJiraDetails env _ true 30 w) as [[issueDetail|e] w1]; cbn [fst snd] in *;
    [|split; [done|by apply Ht]].
  destruct (getJiraIssueDescription_no_lookup env issueDetail event newEvent w1 Hw)
    as (d & -> & Hnone).
  destruct (await (jiraDetermineNotifyChannels env event) w1) as [[newChannels|e] w2];
    [|done].
  destruct (gatherChannels env event newChannels w2) as [[channels|e] w3]; [|done].
  destruct (gatherMessage env event issueDetail w3) as [[message|e] w4]; [|done].
  by rewrite Hnone.
Qed.

Lemma routeEvent_without_transitions_throws_witness :
  let env := sampleEnv false basicAuth (sampleTracker None) [allEnabled "jira-feed"] in
  let r := routeEvent env deletedEvent true emptyWorld in
  sent r.2 = [] ∧
  r.1 = Thrown (TypeError "Cannot read property 'hasOwnProperty' of undefined").
Proof.
  intros env r.
  destruct (routeEvent_without_transitions_throws env deletedEvent true emptyWorld
              ltac:(by apply (bool_decide_unpack _))) as [Hs Hr].
  split; [exact Hs|]. exact Hr.
Defined.

(** X6: whenever [routeEvent] dispatches, the message options it hands
    over are those of [getJiraIssueDescription] for the event: the id
    [jira/issue_updated/KEY/TIMESTAMP] when [webhookEvent] is
    comment_created or jira:issue_updated and
    [jira/issue_created/KEY/TIMESTAMP] when it is jira:issue_created, with
    the post mode [always] when [newEvent] is set and [update_only]
    otherwise.  No other event is dispatched. *)
Theorem routeEvent_delivery_options
    (env : Env) (event : JiraIssueEvent) (newEvent : bool) (w : World) (d : Delivery) :
  sent (routeEvent env event newEvent w).2 = sent w ++ [d] →
  ∃ kind,
    (webhookEvent event ∈ ["comment_created"; "jira:issue_updated"] ∧ kind = "issue_updated" ∨
     webhookEvent event = "jira:issue_created" ∧ kind = "issue_created") ∧
    delivered_options d =
      Some {| msg_id := "jira/" +:+ kind +:+ "/" +:+ issue_key (issue event) +:+ "/"
                        +:+ timestamp event;
              msg_post := if newEvent then always else update_only |}.
Proof.
  intros Hs.
  destruct (routeEvent_dispatch env event newEvent w)
    as [H|(d' & issueDetail & w1 & descr & w2 & newChannels & w3 & channels & w4 & message
           & w5 & _ & E2 & _ & _ & _ & Hs' & _ & Hsome & Ho & _)].
  - rewrite H in Hs. apply (f_equal length) in Hs. rewrite length_app in Hs. cbn in Hs. lia.
  - rewrite Hs' in Hs. apply app_inv_head in Hs. injection Hs as ->.
    apply getJiraIssueDescription_returned in E2 as [Hm Hf]. specialize (Hf Hsome).
    rewrite Ho, Hm. unfold messageOptionsOf, messageKind, fetchesTransitions in *.
    destruct (webhookEvent event =? "comment_created") eqn:Hcomment.
    { apply String.eqb_eq in Hcomment. exists "issue_updated".
      split; [left; split; [rewrite Hcomment; set_solver|done]|reflexivity]. }
    destruct (webhookEvent event =? "jira:issue_updated") eqn:Hupdated.
    { apply String.eqb_eq in Hupdated. exists "issue_updated".
      split; [left; split; [rewrite Hupdated; set_solver|done]|reflexivity]. }
    destruct (webhookEvent event =? "jira:issue_created") eqn:Hcreated; [|discriminate].
    apply String.eqb_eq in Hcreated. exists "issue_created".
    split; [by right|reflexivity].
Qed.

Lemma routeEvent_delivery_options_witness :
  let env := sampleEnv false basicAuth (sampleTracker None) [allEnabled "jira-feed"] in
  ∃ d,
    sent (routeEvent env commentedEvent false emptyWorld).2 = [d] ∧
    delivered_options d =
      Some {| msg_id := "jira/issue_updated/PROJ-1/1561000000000";
              msg_post := update_only |}.
Proof.
  intros env.
  pose (r := routeEvent env commentedEvent false emptyWorld).
  assert (Hs : ∃ d, sent r.2 = sent emptyWorld ++ [d])
    by (eexists; vm_compute; reflexivity).
  destruct Hs as [d Hs].
  destruct (routeEvent_delivery_options env commentedEvent false emptyWorld d Hs)
    as (kind & [[_ ->]|[Hcreated _]] & Ho).
  - exists d. split; [exact Hs|exact Ho].
  - discriminate Hcreated.
Defined.

(** *** Steps that send no request *)

Lemma silent_ret {A} (x : A) : silent (mret x).
Proof. by intros w. Qed.

Lemma silent_await {A} (r : World → Awaited A) : sendsNothing r → silent (await r).
Proof. intros H w. cbn. by rewrite H, app_nil_r. Qed.

Lemma silent_bind {A B} (m : M A) (k : A → M B) :
  silent m → (∀ x, silent (k x)) → silent (m ≫= k).
Proof.
  intros Hm Hk w. run. specialize (Hm w).
  destruct (m w) as [[x|e] w1]; cbn [fst snd] in *; [|done].
  by rewrite Hk.
Qed.

Lemma awaitHelpers_silent (env : Env) (event : JiraIssueEvent) (issueDetail : JiraBody) :
  quietHelpers env event → silent (awaitHelpers env event issueDetail).
Proof.
  intros (Hresolver & Hfilter & Hnew & Hdeleted & Hchanged & Hcommented).
  unfold awaitHelpers, gatherChannels, gatherMessage, pushParsed, jiraParseChannels_call.
  repeat first
    [ apply silent_bind; [|intros ?]
    | apply silent_ret
    | apply silent_await; auto
    | match goal with |- silent (match ?x with _ => _ end) => destruct x end ].
Qed.

(** The helpers are awaited as one step of [routeEvent]. *)
Lemma routeEvent_helpers (env : Env) (event : JiraIssueEvent) (newEvent : bool) (w : World) :
  routeEvent env event newEvent w =
  (issueDetail ←
     getJiraDetails env (buildSelfUrl env (issue_id (issue event)) +:+ "?expand=changelog")
                    true 30;
   d ← getJiraIssueDescription env issueDetail event newEvent;
   gathered ← awaitHelpers env event issueDetail;
   options ← lift (transitionOptions (issueTransitions d));
   if (0 <? length gathered.2)%nat && (0 <? length gathered.1)%nat then
     let notifyChannels := uniqBy channel gathered.1 in
     n ← lift (transitionsLength (issueTransitions d));
     let finalMessage :=
       {| pretext := description d;
          attachments := gathered.2;
          footer := buildJiraFooter env issueDetail;
          actions :=
            (if negb (webhookEvent event =? "jira:issue_deleted")
             then [CommentButton (issue_id (issue event))] else []) ++
            (if (0 <? n)%nat
             then [SetStatusMenu options (bodySelf issueDetail +:+ "/transitions")]
             else []) |} in
     if (0 <? length notifyChannels)%nat then
       addressChannels finalMessage (map channel notifyChannels) (msgOptions d)
     else mret tt
   else
     (if negb (0 <? length gathered.2)%nat
      then log "JIRA routeEvent: Message is empty, not sending message" else mret tt) ;;
     (if negb (0 <? length gathered.1)%nat
      then log "JIRA routeEvent: No channels found, not sending message" else mret tt)) w.
Proof.
  unfold routeEvent, awaitHelpers. run.
  destruct (getJiraDetails env _ true 30 w) as [[issueDetail|e] w1]; [|done].
  destruct (getJiraIssueDescription env issueDetail event newEvent w1) as [[d|e] w2]; [|done].
  destruct (await (jiraDetermineNotifyChannels env event) w2) as [[newChannels|e] w3]; [|done].
  destruct (gatherChannels env event newChannels w3) as [[channels|e] w4]; [|done].
  destruct (gatherMessage env event issueDetail w4) as [[message|e] w5]; done.
Qed.

Lemma appends_ret {A} (x : A) : appends (mret x).
Proof. intros w. exists []. by rewrite app_nil_r. Qed.

Lemma appends_await {A} (r : World → Awaited A) : appends (await r).
Proof. intros w. by eexists. Qed.

Lemma appends_bind {A B} (m : M A) (k : A → M B) :
  appends m → (∀ x, appends (k x)) → appends (m ≫= k).
Proof.
  intros Hm Hk w. run. destruct (Hm w) as [more1 H1].
  destruct (m w) as [[x|e] w1]; cbn [fst snd] in *; [|by eexists].
  destruct (Hk x w1) as [more2 H2]. exists (more1 ++ more2).
  by rewrite H2, H1, app_assoc.
Qed.

Lemma awaitHelpers_appends (env : Env) (event : JiraIssueEvent) (issueDetail : JiraBody) :
  appends (awaitHelpers env event issueDetail).
Proof.
  unfold awaitHelpers, gatherChannels, gatherMessage, pushParsed, jiraParseChannels_call.
  repeat first
    [ apply appends_bind; [|intros ?]
    | apply appends_ret
    | apply appends_await
    | match goal with |- appends (match ?x with _ => _ end) => destruct x end ].
Qed.

(** X7: one run of [routeEvent] asks the tracker at most for the issue and
    then for its transitions, once each; whatever else is requested during
    the run is requested by the awaited helpers, after these two.  When the
    helpers send no request of their own, the requests of the run are a
    part of these two, in this order. *)
Theorem routeEvent_at_most_two_exchanges
    (env : Env) (event : JiraIssueEvent) (newEvent : bool) (w : World) :
  let detailUrl := buildSelfUrl env (issue_id (issue event)) +:+ "?expand=changelog" in
  let transitionsUrl := buildSelfUrl env (issue_id (issue event)) +:+ "/transitions" in
  ∃ own others,
    exchanges (routeEvent env event newEvent w).2 = exchanges w ++ own ++ others ∧
    own ∈ [[]; [detailUrl]; [transitionsUrl]; [detailUrl; transitionsUrl]] ∧
    (others = [] ∨
     ∃ issueDetail w1 descr w2,
       getJiraDetails env detailUrl true 30 w = (Returned issueDetail, w1) ∧
       getJiraIssueDescription env issueDetail event newEvent w1 = (Returned descr, w2) ∧
       exchanges w2 = exchanges w ++ own ∧
       exchanges (awaitHelpers env event issueDetail w2).2 = exchanges w2 ++ others) ∧
    (quietHelpers env event → others = []).
Proof.
  intros detailUrl transitionsUrl. rewrite routeEvent_helpers. run. fold detailUrl.
  assert (Hown : ∀ made1 made2,
            made1 ∈ [[]; [detailUrl]] → made2 ∈ [[]; [transitionsUrl]] →
            made1 ++ made2 ∈ [[]; [detailUrl]; [transitionsUrl]; [detailUrl; transitionsUrl]]).
  { intros made1 made2. rewrite !elem_of_cons, !elem_of_nil.
    intros [->|[->|[]]] [->|[->|[]]]; cbn; auto. }
  assert (H1 : ∃ made1, exchanges (getJiraDetails env detailUrl true 30 w).2
                        = exchanges w ++ made1 ∧ made1 ∈ [[]; [detailUrl]]).
  { destruct (getJiraDetails_exchanges env detailUrl true 30 w) as [H1|H1]; rewrite H1.
    - exists []. rewrite app_nil_r, !elem_of_cons. auto.
    - exists [detailUrl]. rewrite !elem_of_cons. auto. }
  destruct H1 as (made1 & Hw1 & Hm1).
  destruct (getJiraDetails env detailUrl true 30 w) as [[issueDetail|e] w1] eqn:E1;
    cbn [fst snd] in *.
  2: { exists made1, []. rewrite app_nil_r. split; [exact Hw1|].
       split; [rewrite <- (app_nil_r made1); apply Hown; [done|apply list_elem_of_here]|].
       split; [by left|done]. }
  assert (H2 : ∃ made2,
            exchanges (getJiraIssueDescription env issueDetail event newEvent w1).2
            = exchanges w1 ++ made2 ∧ made2 ∈ [[]; [transitionsUrl]]).
  { pose proof (getJiraIssueDescription_exchanges env issueDetail event newEvent w1) as H2.
    cbv zeta in H2. fold transitionsUrl in H2. destruct H2 as [H2|H2]; rewrite H2.
    - exists []. rewrite app_nil_r, !elem_of_cons. auto.
    - exists [transitionsUrl]. rewrite !elem_of_cons. auto. }
  destruct H2 as (made2 & Hw2 & Hm2).
  destruct (getJiraIssueDescription env issueDetail event newEvent w1) as [[d|e] w2] eqn:E2;
    cbn [fst snd] in *.
  2: { exists (made1 ++ made2), []. rewrite app_nil_r, app_assoc, <- Hw1.
       split; [exact Hw2|]. split; [by apply Hown|]. split; [by left|done]. }
  assert (Hlookups : exchanges w2 = exchanges w ++ made1 ++ made2).
  { by rewrite Hw2, Hw1, app_assoc. }
  destruct (awaitHelpers_appends env event issueDetail w2) as [others Hothers].
  pose proof (awaitHelpers_silent env event issueDetail) as Hsilent.
  assert (Hend : ∀ w6,
            exchanges w6 = exchanges (awaitHelpers env event issueDetail w2).2 →
            ∃ own others0,
              exchanges w6 = exchanges w ++ own ++ others0 ∧
              own ∈ [[]; [detailUrl]; [transitionsUrl]; [detailUrl; transitionsUrl]] ∧
              (others0 = [] ∨
               ∃ issueDetail0 w10 descr w20,
                 (Returned issueDetail, w1) = (Returned issueDetail0, w10) ∧
                 getJiraIssueDescription env issueDetail0 event newEvent w10
                   = (Returned descr, w20) ∧
                 exchanges w20 = exchanges w ++ own ∧
                 exchanges (awaitHelpers env event issueDetail0 w20).2
                   = exchanges w20 ++ others0) ∧
              (quietHelpers env event → others0 = [])).
  { intros w6 Hw6. exists (made1 ++ made2), others.
    split; [by rewrite Hw6, Hothers, Hlookups, !app_assoc|].
    split; [by apply Hown|]. split.
    - right. by exists issueDetail, w1, d, w2.
    - intros Hquiet. specialize (Hsilent Hquiet w2). rewrite Hsilent in Hothers.
      rewrite <- (app_nil_r (exchanges w2)) in Hothers at 1.
      by apply app_inv_head in Hothers. }
  destruct (awaitHelpers env event issueDetail w2) as [[[channels message]|e] w5];
    cbn [fst snd] in *; [|by apply Hend].
  destruct (transitionOptions (issueTransitions d)) as [options|e]; cbn [fst snd];
    [|by apply Hend].
  destruct ((0 <? length message)%nat && (0 <? length channels)%nat).
  - destruct (transitionsLength (issueTransitions d)) as [n|e]; cbn [fst snd];
      [|by apply Hend].
    destruct (0 <? length (uniqBy channel channels))%nat; by apply Hend.
  - destruct (negb (0 <? length message)%nat), (negb (0 <? length channels)%nat);
      by apply Hend.
Qed.

(** ** Strings cut at a separator *)

Lemma append_cons (x : ascii) (a b : string) : String x a +:+ b = String x (a +:+ b).
Proof. reflexivity. Qed.

Lemma append_assoc (a b c : string) : (a +:+ b) +:+ c = a +:+ b +:+ c.
Proof. induction a as [|x a IH]; [reflexivity|]. by rewrite !append_cons, IH. Qed.

Lemma append_nil_r (a : string) : a +:+ "" = a.
Proof. induction a as [|x a IH]; [reflexivity|]. by rewrite append_cons, IH. Qed.

Lemma hasChar_app (c : ascii) (a b : string) :
  hasChar c (a +:+ b) = hasChar c a || hasChar c b.
Proof.
  induction a as [|x a IH]; [reflexivity|].
  rewrite append_cons. cbn [hasChar]. by rewrite IH, orb_assoc.
Qed.

Lemma hasChar_separator (c : ascii) (a b : string) : hasChar c (a +:+ String c b) = true.
Proof. rewrite hasChar_app. cbn [hasChar]. rewrite Ascii.eqb_refl. apply orb_true_r. Qed.

(** Two strings cut at their last separator. *)
Lemma split_at_last (c : ascii) (a1 t1 a2 t2 : string) :
  hasChar c t1 = false → hasChar c t2 = false →
  a1 +:+ String c t1 = a2 +:+ String c t2 → a1 = a2 ∧ t1 = t2.
Proof.
  intros H1 H2. revert a2.
  induction a1 as [|x a1 IH]; intros [|y a2]; rewrite ?append_cons.
  - by intros [= ->].
  - intros [= _ ->]. by rewrite hasChar_separator in H1.
  - intros [= _ <-]. by rewrite hasChar_separator in H2.
  - intros [= -> Heq]. destruct (IH _ Heq) as [-> ->]. done.
Qed.

(** Two strings cut at their first separator. *)
Lemma split_at_first (c : ascii) (a1 t1 a2 t2 : string) :
  hasChar c a1 = false → hasChar c a2 = false →
  a1 +:+ String c t1 = a2 +:+ String c t2 → a1 = a2 ∧ t1 = t2.
Proof.
  revert a2. induction a1 as [|x a1 IH]; intros [|y a2]; rewrite ?append_cons;
    cbn [hasChar]; intros H1 H2.
  - by intros [= ->].
  - intros [= <- _]. by rewrite Ascii.eqb_refl in H2.
  - intros [= -> _]. by rewrite Ascii.eqb_refl in H1.
  - apply orb_false_iff in H1 as [_ H1]. apply orb_false_iff in H2 as [_ H2].
    intros [= -> Heq]. destruct (IH _ H1 H2 Heq) as [-> ->]. done.
Qed.

(** ** Message identities *)

Lemma messageKind_cases (event : JiraIssueEvent) (kind : string) :
  messageKind event = Some kind →
  kind = "issue_updated" ∨ kind = "issue_created" ∨ kind = "issue_deleted".
Proof.
  unfold messageKind.
  destruct ((webhookEvent event =? "comment_created") ||
            (webhookEvent event =? "jira:issue_updated")); [intros [= <-]; auto|].
  destruct (webhookEvent event =? "jira:issue_created"); [intros [= <-]; auto|].
  destruct (webhookEvent event =? "jira:issue_deleted"); [intros [= <-]; auto|discriminate].
Qed.

(** X8: the message id identifies the event.  For two results of
    [getJiraIssueDescription] on events whose timestamps contain no slash,
    the ids are equal exactly when the events fall in the same case
    (comments and updates share one), have the same issue key and the same
    timestamp; [newEvent] plays no part, so a replayed event gets the id of
    the original. *)
Theorem message_id_identifies_event
    (env1 env2 : Env) (detail1 detail2 : JiraBody) (event1 event2 : JiraIssueEvent)
    (new1 new2 : bool) (w1 w2 w1' w2' : World) (d1 d2 : IssueDescription)
    (options1 options2 : MessageOptions) :
  getJiraIssueDescription env1 detail1 event1 new1 w1 = (Returned d1, w1') →
  getJiraIssueDescription env2 detail2 event2 new2 w2 = (Returned d2, w2') →
  msgOptions d1 = Some options1 →
  msgOptions d2 = Some options2 →
  hasChar "/" (timestamp event1) = false →
  hasChar "/" (timestamp event2) = false →
  msg_id options1 = msg_id options2 ↔
  messageKind event1 = messageKind event2 ∧
  issue_key (issue event1) = issue_key (issue event2) ∧
  timestamp event1 = timestamp event2.
Proof.
  intros Hr1 Hr2 Ho1 Ho2 Ht1 Ht2.
  apply getJiraIssueDescription_returned in Hr1 as [Hm1 _].
  apply getJiraIssueDescription_returned in Hr2 as [Hm2 _].
  rewrite Ho1 in Hm1. rewrite Ho2 in Hm2. unfold messageOptionsOf in *.
  destruct (messageKind event1) as [k1|] eqn:Hk1; [|discriminate].
  destruct (messageKind event2) as [k2|] eqn:Hk2; [|discriminate].
  injection Hm1 as ->. injection Hm2 as ->. cbn [msg_id]. unfold messageId.
  split.
  - intros Heq.
    assert (Hcut : ("jira/" +:+ k1 +:+ "/" +:+ issue_key (issue event1)) +:+
                     String "/" (timestamp event1) =
                   ("jira/" +:+ k2 +:+ "/" +:+ issue_key (issue event2)) +:+
                     String "/" (timestamp event2)).
    { rewrite !append_assoc. exact Heq. }
    apply split_at_last in Hcut as [Hhead ->]; [|done..].
    apply messageKind_cases in Hk1, Hk2.
    destruct Hk1 as [->|[->| ->]], Hk2 as [->|[->| ->]];
      try (cbv in Hhead; discriminate Hhead);
      (split; [reflexivity|]); (split; [|reflexivity]);
      repeat (apply (inj (String.append _)) in Hhead); exact Hhead.
  - intros ([= ->] & -> & ->). reflexivity.
Qed.

Lemma message_id_identifies_event_witness :
  let env := sampleEnv false basicAuth (sampleTracker None) [] in
  let original := getJiraIssueDescription env (sampleDetail None) createdEvent true emptyWorld in
  let replayed := getJiraIssueDescription env (sampleDetail None) createdEvent false emptyWorld in
  ∃ d1 d2 options1 options2,
    original.1 = Returned d1 ∧ replayed.1 = Returned d2 ∧
    msgOptions d1 = Some options1 ∧ msgOptions d2 = Some options2 ∧
    msg_id options1 = msg_id options2.
Proof.
  intros env original replayed.
  assert (H1 : ∃ d o, original = (Returned d, original.2) ∧ msgOptions d = Some o)
    by (do 2 eexists; split; vm_compute; reflexivity).
  assert (H2 : ∃ d o, replayed = (Returned d, replayed.2) ∧ msgOptions d = Some o)
    by (do 2 eexists; split; vm_compute; reflexivity).
  destruct H1 as (d1 & o1 & Hr1 & Ho1), H2 as (d2 & o2 & Hr2 & Ho2).
  exists d1, d2, o1, o2.
  split; [by rewrite Hr1|]. split; [by rewrite Hr2|]. split; [exact Ho1|]. split; [exact Ho2|].
  apply (message_id_identifies_event env env (sampleDetail None) (sampleDetail None)
           createdEvent createdEvent true false emptyWorld emptyWorld
           original.2 replayed.2 d1 d2 o1 o2 Hr1 Hr2 Ho1 Ho2 eq_refl eq_refl).
  repeat split.
Defined.

(** ** Lookups through the cache *)

(** The time at which a run of [getJiraDetails] ends: that of the call
    when the cache answers or the authenticator rejects, and later by the
    duration of the exchange otherwise. *)
Lemma getJiraDetails_now (env : Env) (url : string) (cache : bool) (ttl : Z) (w : World) :
  now (getJiraDetails env url cache ttl w).2 =
  match (if jira_useCache env && cache then cacheLookup url w else None), getJiraAuth env with
  | None, Returned _ => (now w + Z.of_N (httpElapsed env url))%Z
  | _, _ => now w
  end.
Proof.
  unfold getJiraDetails, jiraCache_get, httpClient_exchange, jiraCache_set, log. run.
  destruct (jira_useCache env && cache), (cacheLookup url w); cbn; try done;
    destruct (getJiraAuth env); cbn; try done;
    destruct (httpGet env url); cbn; destruct cache; done.
Qed.

(** X9: with [sdm.jira.useCache] set, a value that [getJiraDetails] has
    returned for a cacheable lookup is held by the cache under the URL, in
    an entry that has not expired when the lookup returns if the
    time-to-live is positive: on a miss it expires [ttl] after the return,
    on a hit it is the entry that answered.  Any cacheable lookup of the
    URL made later, in a world whose cache still holds that entry and whose
    time is before the expiry, returns the same value without a request to
    the tracker, without a change to the cache and without taking time. *)
Theorem getJiraDetails_read_through
    (env : Env) (url : string) (ttl ttl' : Z) (w w1 : World) (body : JiraBody) :
  jira_useCache env = true →
  getJiraDetails env url true ttl w = (Returned body, w1) →
  ∃ entry,
    jiraCache w1 !! url = Some entry ∧
    entry_value entry = body ∧
    (cacheLookup url w = None → entry_expiry entry = (now w1 + ttl)%Z) ∧
    (is_Some (cacheLookup url w) → (now w1 < entry_expiry entry)%Z) ∧
    ∀ w2,
      jiraCache w2 !! url = Some entry →
      (now w2 < entry_expiry entry)%Z →
      let r := getJiraDetails env url true ttl' w2 in
      r.1 = Returned body ∧ exchanges r.2 = exchanges w2 ∧
      jiraCache r.2 = jiraCache w2 ∧ now r.2 = now w2.
Proof.
  intros Hflag Hfirst.
  assert (Hlater : ∀ entry w2,
            entry_value entry = body →
            jiraCache w2 !! url = Some entry →
            (now w2 < entry_expiry entry)%Z →
            let r := getJiraDetails env url true ttl' w2 in
            r.1 = Returned body ∧ exchanges r.2 = exchanges w2 ∧
            jiraCache r.2 = jiraCache w2 ∧ now r.2 = now w2).
  { intros entry w2 Hvalue Hheld Hlive r.
    assert (Hhit : cacheLookup url w2 = Some body).
    { unfold cacheLookup. rewrite Hheld, bool_decide_eq_true_2 by done. by rewrite Hvalue. }
    pose proof (getJiraDetails_cases env url true ttl' w2) as H.
    pose proof (getJiraDetails_now env url true ttl' w2) as Hnow.
    cbv zeta in H. fold r in H, Hnow. rewrite Hflag, Hhit in H, Hnow. cbn in Hnow.
    destruct H as (? & ? & ?). done. }
  pose proof (getJiraDetails_cases env url true ttl w) as H.
  pose proof (getJiraDetails_now env url true ttl w) as Hnow.
  cbv zeta in H. rewrite Hfirst, Hflag in H, Hnow. cbn [andb fst snd] in H, Hnow.
  destruct (cacheLookup url w) as [cached|] eqn:Hlookup.
  - destruct H as ([= ->] & _ & Hcache).
    unfold cacheLookup in Hlookup. rewrite <- Hcache in Hlookup.
    destruct (jiraCache w1 !! url) as [entry|] eqn:Hentry; [|discriminate].
    destruct (bool_decide (now w < entry_expiry entry)%Z) eqn:Hlive; [|discriminate].
    apply bool_decide_eq_true_1 in Hlive. injection Hlookup as Hvalue.
    exists entry. split; [done|]. split; [done|]. split; [discriminate|].
    split; [intros _; by rewrite Hnow|].
    intros w2. by apply Hlater.
  - destruct (getJiraAuth env); [|by destruct H].
    destruct H as [_ H]. destruct (httpGet env url) as [fetched|]; [|by destruct H].
    destruct H as ([= <-] & Hcache).
    exists {| entry_value := body;
              entry_expiry := (now w + Z.of_N (httpElapsed env url) + ttl)%Z |}.
    split; [by rewrite Hcache, lookup_insert_eq|]. split; [done|].
    split; [intros _; cbn; by rewrite Hnow|].
    split; [by intros [? [=]]|].
    intros w2. by apply Hlater.
Qed.

Lemma getJiraDetails_read_through_witness :
  let env := sampleEnv true basicAuth (sampleTracker None) [] in
  let url := "https://jira.example.com/rest/api/2/issue/10001/transitions" in
  let first := getJiraDetails env url true 5 emptyWorld in
  let later :=
    {| now := (now first.2 + 4)%Z; jiraCache := jiraCache first.2;
       exchanges := exchanges first.2; logs := logs first.2; sent := sent first.2;
       goalUpdates := goalUpdates first.2 |} in
  (getJiraDetails env url true 5 later).1 = Returned sampleTransitions ∧
  exchanges (getJiraDetails env url true 5 later).2 = [url].
Proof.
  intros env url first later.
  assert (Hfirst : first = (Returned sampleTransitions, first.2)) by (vm_compute; reflexivity).
  destruct (getJiraDetails_read_through env url 5 5 emptyWorld first.2 sampleTransitions
              eq_refl Hfirst) as (entry & Hheld & _ & Hexpiry & _ & Hlater).
  specialize (Hexpiry eq_refl).
  destruct (Hlater later Hheld) as (Hr & He & _).
  - rewrite Hexpiry. cbn. lia.
  - split; [exact Hr|]. rewrite He. reflexivity.
Defined.

(** X10: [searchIssues] never uses the cache: whatever the configuration
    and whatever the cache holds, it sends one request to the search URL
    (once the authenticator has supplied its header), returns the answer or
    throws the wrapped failure, and leaves the cache as it was.  A
    pagination argument that is the empty string is left out of the URL
    like one that is absent. *)
Theorem searchIssues_uncached
    (env : Env) (jql : string) (startAt maxResults : option string) (w : World)
    (header : string) :
  getJiraAuth env = Returned header →
  let url := searchIssuesUrl env jql startAt maxResults in
  let r := searchIssues env jql startAt maxResults w in
  exchanges r.2 = exchanges w ++ [url] ∧
  jiraCache r.2 = jiraCache w ∧
  r.1 = match httpGet env url with
        | HttpOk body => Returned body
        | HttpFailed status text => Thrown (WrappedError (TransportError status text))
        end ∧
  searchIssuesUrl env jql (Some "") maxResults = searchIssuesUrl env jql None maxResults ∧
  searchIssuesUrl env jql startAt (Some "") = searchIssuesUrl env jql startAt None.
Proof.
  intros Hauth url r. unfold r, searchIssues. fold url.
  pose proof (getJiraDetails_cases env url false 3600 w) as H. cbv zeta in H.
  rewrite andb_false_r, Hauth in H. destruct H as [Hex H].
  split; [exact Hex|].
  destruct (httpGet env url); destruct H as [-> ->]; repeat split.
Qed.

Lemma searchIssues_uncached_witness :
  let env := sampleEnv true basicAuth (sampleTracker None) [] in
  exchanges (searchIssues env "project=PROJ" (Some "50") None emptyWorld).2 =
    ["https://jira.example.com/rest/api/2/search?jql=project=PROJ&startAt=50"] ∧
  jiraCache (searchIssues env "project=PROJ" (Some "50") None emptyWorld).2 = ∅.
Proof.
  intros env.
  destruct (searchIssues_uncached env "project=PROJ" (Some "50") None emptyWorld
              "Basic c2RtOnNlY3JldA==" eq_refl) as (He & Hc & _).
  split; [exact He|exact Hc].
Defined.

(** ** Order of the notified channels *)

Lemma uniqByFrom_distinct {A B} `{EqDecision B} (f : A → B) (xs : list A) :
  ∀ seen, NoDup (map f xs) → (∀ y, y ∈ map f xs → y ∉ seen) → uniqByFrom f seen xs = xs.
Proof.
  induction xs as [|x rest IH]; intros seen Hnd Hseen; [reflexivity|].
  cbn [uniqByFrom map] in *. apply list.NoDup_cons in Hnd as [Hx Hnd].
  rewrite bool_decide_eq_false_2 by (apply Hseen; left).
  f_equal. apply IH; [exact Hnd|].
  intros y Hy. rewrite not_elem_of_cons. split.
  - intros ->. contradiction.
  - apply Hseen. by right.
Qed.

(** X19: when no channel identifier is nominated twice for an event, the
    deduplication drops and reorders nothing: the channels handed to
    [addressChannels] are the channels selected from the candidates that
    [jiraDetermineNotifyChannels] resolved to, in the order of their
    selection. *)
Theorem routeEvent_keeps_selection_order
    (env : Env) (event : JiraIssueEvent) (newEvent : bool) (w : World) (d : Delivery) :
  sent (routeEvent env event newEvent w).2 = sent w ++ [d] →
  ∃ issueDetail w1 descr w2 newChannels,
    getJiraDetails env (buildSelfUrl env (issue_id (issue event)) +:+ "?expand=changelog")
                   true 30 w = (Returned issueDetail, w1) ∧
    getJiraIssueDescription env issueDetail event newEvent w1 = (Returned descr, w2) ∧
    settled (jiraDetermineNotifyChannels env event w2) = Returned newChannels ∧
    let selected := collectChannels env event newChannels in
    (NoDup (map channel selected) → delivered_channels d = map channel selected).
Proof.
  intros Hs.
  destruct (routeEvent_dispatch env event newEvent w)
    as [H|(d' & issueDetail & w1 & descr & w2 & newChannels & w3 & channels & w4 & message
           & w5 & E1 & E2 & E3 & E4 & _ & Hs' & _ & _ & _ & Hc)].
  - rewrite H in Hs. apply (f_equal length) in Hs. rewrite length_app in Hs. cbn in Hs. lia.
  - rewrite Hs' in Hs. apply app_inv_head in Hs. injection Hs as ->.
    apply gatherChannels_collect in E4 as ->.
    exists issueDetail, w1, descr, w2, newChannels.
    split; [exact E1|]. split; [exact E2|]. split; [by injection E3|].
    intros selected Hnd. rewrite Hc. fold selected. unfold uniqBy.
    rewrite uniqByFrom_distinct; [done|exact Hnd|]. intros y _. apply not_elem_of_nil.
Qed.

Lemma routeEvent_keeps_selection_order_witness :
  let env := sampleEnv false basicAuth (sampleTracker None)
                       [allEnabled "jira-feed"; noFlags "quiet"; allEnabled "ops"] in
  ∃ d, sent (routeEvent env createdEvent true emptyWorld).2 = [d] ∧
       delivered_channels d = ["jira-feed"; "ops"].
Proof.
  intros env.
  assert (Hs : ∃ d, sent (routeEvent env createdEvent true emptyWorld).2
                    = sent emptyWorld ++ [d])
    by (eexists; vm_compute; reflexivity).
  destruct Hs as [d Hs]. exists d. split; [exact Hs|].
  destruct (routeEvent_keeps_selection_order env createdEvent true emptyWorld d Hs)
    as (issueDetail & w1 & descr & w2 & newChannels & _ & _ & Hres & Hsel).
  injection Hres as <-. apply Hsel.
  by apply (bool_decide_unpack _).
Defined.

(** ** The approval handler *)

Lemma match_Approved {T} (o : option string) (yes no : T) :
  match o with Some "Approved" => yes | _ => no end =
  if match o with Some s => s =? "Approved" | None => false end then yes else no.
Proof.
  destruct o as [s|]; [|reflexivity].
  do 9 (destruct s as [|[[] [] [] [] [] [] [] []] s]; try reflexivity).
Qed.

Lemma environmentOf_Some (issue_ : JiraBody) (ref : RepoRef) :
  environmentOf issue_ = Some ref →
  environmentTag "sha" issue_ = Returned (ref_sha ref) ∧
  environmentTag "owner" issue_ = Returned (ref_owner ref) ∧
  environmentTag "repo" issue_ = Returned (ref_repo ref) ∧
  environmentTag "branch" issue_ = Returned (ref_branch ref) ∧
  isEmptyString (ref_sha ref) || isEmptyString (ref_owner ref) ||
    isEmptyString (ref_repo ref) || isEmptyString (ref_branch ref) = false.
Proof.
  unfold environmentOf.
  destruct (environmentTag "sha" issue_) as [sha|]; [|discriminate].
  destruct (environmentTag "owner" issue_) as [owner|]; [|discriminate].
  destruct (environmentTag "repo" issue_) as [repo|]; [|discriminate].
  destruct (environmentTag "branch" issue_) as [branch|]; [|discriminate].
  destruct (isEmptyString sha || isEmptyString owner || isEmptyString repo ||
            isEmptyString branch) eqn:He; [discriminate|].
  intros [= <-]. cbn. by rewrite He.
Qed.

Ltac handler_start Hget Henv :=
  unfold onJiraIssueEventApprovalHandler; run; rewrite Hget;
  apply environmentOf_Some in Henv as (-> & -> & -> & -> & ->).

(** X11: [onJiraIssueEventApprovalHandler] updates at most one goal, and
    only for a [jira:issue_updated] event whose [issue_event_type_name] is
    issue_generic, issue_updated or issue_assigned and whose first changelog
    item on the status has the new value Approved; the goal is then set to
    success with the success description of the goal, and the handler
    returns [Success]. *)
Theorem approval_handler_updates_only_when_approved
    (env : Env) (goal : Goal) (JiraIssue : list JiraIssueEvent) (w : World) :
  let r := onJiraIssueEventApprovalHandler env goal JiraIssue w in
  goalUpdates r.2 = goalUpdates w ∨
  ∃ event rest name log_ first others sdmGoal,
    JiraIssue = event :: rest ∧
    webhookEvent event = "jira:issue_updated" ∧
    issue_event_type_name event = Some name ∧
    matchesStateChange name = true ∧
    changelog event = Some log_ ∧
    statusItems log_ = first :: others ∧
    toString first = Some "Approved" ∧
    r.1 = Returned Success ∧
    goalUpdates r.2 =
      goalUpdates w ++ [{| updated_goal := sdmGoal;
                           updated_description := successDescription goal |}].
Proof.
  unfold onJiraIssueEventApprovalHandler. run.
  destruct JiraIssue as [|event rest]; [by left|].
  pose proof (getJiraDetails_frame env (issue_self (issue event)) false 3600 w) as [_ Hg].
  destruct (getJiraDetails env _ false 3600 w) as [[issue_|e] w1];
    cbn [fst snd] in *; [|by left].
  destruct (environmentTag "sha" issue_) as [sha|]; [|by left].
  destruct (environmentTag "owner" issue_) as [owner|]; [|by left].
  destruct (environmentTag "repo" issue_) as [repo|]; [|by left].
  destruct (environmentTag "branch" issue_) as [branch|]; [|by left].
  destruct (isEmptyString sha || isEmptyString owner || isEmptyString repo ||
            isEmptyString branch); [by left|].
  destruct (webhookEvent event =? "jira:issue_updated") eqn:Hhook; cbn [negb]; [|by left].
  apply String.eqb_eq in Hhook.
  destruct (issue_event_type_name event) as [name|] eqn:Hname; [|by left].
  destruct (matchesStateChange name) eqn:Hmatch; cbn [negb]; [|by left].
  destruct (changelog event) as [log_|] eqn:Hlog; [|by left].
  fold (statusItems log_).
  destruct (statusItems log_) as [|first others] eqn:Hstatus; [by left|].
  rewrite match_Approved.
  destruct (toString first) as [s|] eqn:Hto; [|by left].
  destruct (String.eqb_spec s "Approved") as [->|]; [|by left].
  cbn [log fst snd].
  destruct (GitHubRepoRef_from env _) as [repoRef|e]; [|by left].
  match goal with
  | |- context [await ?run ?w0] =>
      pose proof (frames_await run w0) as [_ Hg1];
      destruct (await run w0) as [[sdmGoalData|e] w2]
  end; cbn [fst snd goalUpdates] in *; [|left; congruence].
  destruct sdmGoalData as [|providerId providers]; [left; cbn; congruence|].
  match goal with
  | |- context [await ?run ?w0] =>
      pose proof (frames_await run w0) as [_ Hg2];
      destruct (await run w0) as [[sdmGoal|e] w3]
  end; cbn [fst snd] in *; [|left; congruence].
  unfold updateGoal, goalUpdated. run.
  match goal with
  | |- context [await ?run ?w0] =>
      pose proof (frames_await run w0) as [_ Hg3];
      destruct (await run w0) as [[[]|e] w4]
  end; cbn [fst snd] in *; [|left; congruence].
  right. exists event, rest, name, log_, first, others, sdmGoal.
  cbn. repeat split; auto. congruence.
Qed.

(** X12: the approval goes through: for a [jira:issue_updated] event of
    one of the three type names whose first status item says Approved and
    whose issue description carries the four markers, the handler sets the
    goal to success, once, and returns [Success], provided that
    [GitHubRepoRef.from] accepts the four values (it throws on a [sha] that
    is not a full commit hash), that the graph query answers with a goal
    for the issue, that this goal is found on the commit and that its
    update goes through. *)
Theorem approval_handler_approves
    (env : Env) (goal : Goal) (event : JiraIssueEvent) (rest : list JiraIssueEvent)
    (w w1 : World) (issue_ : JiraBody) (params ref : RepoRef) (name : string)
    (log_ : Changelog) (first : ChangelogItem) (others : list ChangelogItem)
    (providerId : string) (providers : list string) (sdmGoal : string) :
  getJiraDetails env (issue_self (issue event)) false 3600 w = (Returned issue_, w1) →
  environmentOf issue_ = Some params →
  webhookEvent event = "jira:issue_updated" →
  issue_event_type_name event = Some name →
  matchesStateChange name = true →
  changelog event = Some log_ →
  statusItems log_ = first :: others →
  toString first = Some "Approved" →
  GitHubRepoRef_from env params = Returned ref →
  (∀ w0, settled (goalByJiraIssueId env (issue_id (issue event)) w0) =
         Returned (providerId :: providers)) →
  (∀ w0, settled (findSdmGoalOnCommit env ref providerId goal w0) = Returned sdmGoal) →
  (∀ w0, settled (updateGoal_accepted env sdmGoal w0) = Returned tt) →
  let r := onJiraIssueEventApprovalHandler env goal (event :: rest) w in
  r.1 = Returned Success ∧
  goalUpdates r.2 =
    goalUpdates w ++ [{| updated_goal := sdmGoal;
                         updated_description := successDescription goal |}].
Proof.
  intros Hget Henv Hhook Hname Hmatch Hlog Hstatus Hto Hfrom Hgoals Hfind Hupdate r.
  unfold r.
  pose proof (getJiraDetails_frame env (issue_self (issue event)) false 3600 w) as [_ Hg].
  rewrite Hget in Hg. cbn [snd] in Hg.
  destruct params as [owner repo sha branch].
  handler_start Hget Henv. cbn [ref_sha ref_owner ref_repo ref_branch] in *.
  rewrite Hhook, Hname, Hmatch, Hlog. cbn [negb].
  change ("jira:issue_updated" =? "jira:issue_updated") with true. cbn [negb].
  fold (statusItems log_). rewrite Hstatus, match_Approved, Hto.
  change ("Approved" =? "Approved") with true. cbv iota.
  rewrite Hfrom. unfold updateGoal, goalUpdated, await. run.
  cbn [log fst snd]. rewrite Hgoals. cbv iota. rewrite Hfind. cbv iota.
  rewrite Hupdate. cbn. by rewrite Hg.
Qed.

Lemma approval_handler_approves_witness :
  let r := onJiraIssueEventApprovalHandler (approvalEnv (Some approvableDescription))
             deployGoal [approvedEvent] emptyWorld in
  r.1 = Returned Success ∧
  goalUpdates r.2 =
    [{| updated_goal := "deploy-approval"; updated_description := "Approved in JIRA" |}].
Proof.
  intros r.
  pose (env := approvalEnv (Some approvableDescription)).
  pose (fetched := getJiraDetails env (issue_self (issue approvedEvent)) false 3600 emptyWorld).
  assert (Hget : fetched = (Returned (sampleDetail (Some approvableDescription)), fetched.2))
    by (vm_compute; reflexivity).
  pose (commit := {| ref_owner := "atomist"; ref_repo := "sdm-pack-jira";
                     ref_sha := "0cacc69b1e6165222f22b1e2f3fb3da3c352979a";
                     ref_branch := "master" |}).
  apply (approval_handler_approves env deployGoal approvedEvent [] emptyWorld fetched.2
           (sampleDetail (Some approvableDescription)) commit commit
           "issue_generic" {| items := [{| field := "status"; toString := Some "Approved" |}] |}
           {| field := "status"; toString := Some "Approved" |} []
           "github-provider" [] "deploy-approval" Hget);
    try reflexivity; intros w0; reflexivity.
Defined.

(** The same approval on an issue whose marker carries an abbreviated
    hash: [GitHubRepoRef.from] throws, and no goal is updated. *)
Example approval_with_short_sha_throws :
  let r := onJiraIssueEventApprovalHandler (approvalEnv (Some taggedDescription))
             deployGoal [approvedEvent] emptyWorld in
  r.1 = Thrown (LibraryError "invalid SHA: 4f2a9c1") ∧ goalUpdates r.2 = [].
Proof. vm_compute. split; reflexivity. Qed.

(** X13: an update that does not touch the status makes the handler fail:
    for a [jira:issue_updated] event of one of the three type names whose
    changelog has no item on the status (an assignment, say) and whose issue
    carries the four markers, reading [status[0].toString] throws a
    [TypeError]; no goal is updated. *)
Theorem approval_handler_no_status_item_throws
    (env : Env) (goal : Goal) (event : JiraIssueEvent) (rest : list JiraIssueEvent)
    (w w1 : World) (issue_ : JiraBody) (ref : RepoRef) (name : string) (log_ : Changelog) :
  getJiraDetails env (issue_self (issue event)) false 3600 w = (Returned issue_, w1) →
  environmentOf issue_ = Some ref →
  webhookEvent event = "jira:issue_updated" →
  issue_event_type_name event = Some name →
  matchesStateChange name = true →
  changelog event = Some log_ →
  statusItems log_ = [] →
  let r := onJiraIssueEventApprovalHandler env goal (event :: rest) w in
  r.1 = Thrown (TypeError "Cannot read property 'toString' of undefined") ∧
  goalUpdates r.2 = goalUpdates w.
Proof.
  intros Hget Henv Hhook Hname Hmatch Hlog Hstatus r. unfold r.
  pose proof (getJiraDetails_frame env (issue_self (issue event)) false 3600 w) as [_ Hg].
  rewrite Hget in Hg. cbn [snd] in Hg.
  destruct ref as [owner repo sha branch].
  handler_start Hget Henv. cbn [ref_sha ref_owner ref_repo ref_branch] in *.
  rewrite Hhook, Hname, Hmatch, Hlog. cbn [negb].
  change ("jira:issue_updated" =? "jira:issue_updated") with true. cbn [negb].
  fold (statusItems log_). rewrite Hstatus. cbn. by rewrite Hg.
Qed.

Lemma approval_handler_no_status_item_throws_witness :
  let r := onJiraIssueEventApprovalHandler (approvalEnv (Some taggedDescription)) deployGoal
             [assignedEvent] emptyWorld in
  r.1 = Thrown (TypeError "Cannot read property 'toString' of undefined") ∧
  goalUpdates r.2 = [].
Proof.
  intros r.
  pose (env := approvalEnv (Some taggedDescription)).
  pose (fetched := getJiraDetails env (issue_self (issue assignedEvent)) false 3600 emptyWorld).
  assert (Hget : fetched = (Returned (sampleDetail (Some taggedDescription)), fetched.2))
    by (vm_compute; reflexivity).
  apply (approval_handler_no_status_item_throws env deployGoal assignedEvent [] emptyWorld
           fetched.2 (sampleDetail (Some taggedDescription))
           {| ref_owner := "atomist"; ref_repo := "sdm-pack-jira";
              ref_sha := "4f2a9c1"; ref_branch := "master" |}
           "issue_assigned" {| items := [{| field := "assignee"; toString := Some "Ada" |}] |}
           Hget);
    reflexivity.
Defined.

(** ** Reading a marker *)

Lemma groupThenBracket_None (s : string) :
  groupThenBracket s = None ↔ bracketOnLine s = false.
Proof.
  induction s as [|c s IH]; cbn [groupThenBracket bracketOnLine]; [done|].
  destruct (isLineTerminator c); [done|].
  destruct (groupThenBracket s) as [g|].
  - split; [discriminate|]. intros H. apply orb_false_iff in H as [_ H].
    apply IH in H. discriminate.
  - rewrite (proj1 IH eq_refl), orb_false_r. by destruct (c =? "]")%char.
Qed.

Lemma groupThenBracket_greedy (g rest : string) :
  hasLineTerminator g = false → bracketOnLine rest = false →
  groupThenBracket (g +:+ String "]" rest) = Some g.
Proof.
  intros Hg Hrest. induction g as [|c g IH].
  - change ("" +:+ String "]" rest) with (String "]" rest). cbn [groupThenBracket].
    change (isLineTerminator "]") with false. cbv iota.
    by rewrite (proj2 (groupThenBracket_None rest) Hrest).
  - rewrite append_cons. cbn [groupThenBracket hasLineTerminator] in *.
    apply orb_false_iff in Hg as [-> Hg]. by rewrite (IH Hg).
Qed.

Lemma groupThenBracket_Some (s g : string) :
  groupThenBracket s = Some g →
  ∃ post, s = g +:+ String "]" post ∧
          hasLineTerminator g = false ∧ bracketOnLine post = false.
Proof.
  revert g. induction s as [|c s IH]; intros g; cbn [groupThenBracket]; [discriminate|].
  destruct (isLineTerminator c) eqn:Hc; [discriminate|].
  destruct (groupThenBracket s) as [g'|] eqn:Hs.
  - intros [= <-]. destruct (IH g' eq_refl) as (post & -> & Hg & Hpost).
    exists post. rewrite append_cons. cbn [hasLineTerminator]. by rewrite Hc, Hg.
  - destruct (Ascii.eqb_spec c "]") as [->|]; [|discriminate].
    intros [= <-]. exists s. repeat split. by apply groupThenBracket_None.
Qed.

Lemma stripPrefix_across (c : ascii) (m pre tail : string) :
  hasChar c m = false → stripPrefix m pre = None →
  stripPrefix m (pre +:+ String c tail) = None.
Proof.
  revert pre. induction m as [|y m IH]; intros pre Hm Hp.
  - by destruct pre.
  - destruct pre as [|z pre].
    + change ("" +:+ String c tail) with (String c tail).
      cbn [stripPrefix hasChar] in *. apply orb_false_iff in Hm as [Hyc _]. by rewrite Hyc.
    + rewrite append_cons. cbn [stripPrefix hasChar] in *.
      apply orb_false_iff in Hm as [_ Hm]. destruct (y =? z)%char; [by apply IH|done].
Qed.

Lemma regexExec_found (m pre g rest : string) :
  hasChar "[" m = false →
  contains (String "[" m) pre = false →
  hasLineTerminator g = false →
  bracketOnLine rest = false →
  regexExec (String "[" m) (pre +:+ String "[" m +:+ g +:+ String "]" rest) = Some g.
Proof.
  intros Hm Hpre Hg Hrest. induction pre as [|x pre IH].
  - change ("" +:+ String "[" m +:+ g +:+ String "]" rest)
      with (String "[" m +:+ g +:+ String "]" rest).
    assert (Hhere : match stripPrefix (String "[" m) (String "[" m +:+ g +:+ String "]" rest) with
                    | Some tail => groupThenBracket tail
                    | None => None
                    end = Some g).
    { by rewrite stripPrefix_app, groupThenBracket_greedy. }
    rewrite append_cons in *. cbn [regexExec]. by rewrite Hhere.
  - rewrite contains_unfold in Hpre.
    destruct (stripPrefix (String "[" m) (String x pre)) eqn:Hstrip; [discriminate|].
    rewrite append_cons. cbn [regexExec].
    assert (Hno : stripPrefix (String "[" m)
                    (String x (pre +:+ String "[" m +:+ g +:+ String "]" rest)) = None).
    { cbn [stripPrefix] in *. destruct ("[" =? x)%char; [|done].
      rewrite (append_cons "[" m). by apply stripPrefix_across. }
    rewrite Hno. by apply IH.
Qed.

Lemma regexExec_Some (marker s g : string) :
  regexExec marker s = Some g →
  ∃ pre post, s = pre +:+ marker +:+ g +:+ String "]" post ∧
              hasLineTerminator g = false ∧ bracketOnLine post = false.
Proof.
  revert g.
  assert (Hhere : ∀ s g,
            match stripPrefix marker s with
            | Some tail => groupThenBracket tail
            | None => None
            end = Some g →
            ∃ post, s = marker +:+ g +:+ String "]" post ∧
                    hasLineTerminator g = false ∧ bracketOnLine post = false).
  { intros s' g H. destruct (stripPrefix marker s') as [tail|] eqn:Hp; [|discriminate].
    apply stripPrefix_Some in Hp as ->.
    apply groupThenBracket_Some in H as (post & -> & ? & ?). by exists post. }
  induction s as [|c s IH]; intros g.
  - cbn [regexExec].
    destruct (match stripPrefix marker "" with
              | Some tail => groupThenBracket tail
              | None => None
              end) as [g'|] eqn:H; [|discriminate].
    intros [= <-]. destruct (Hhere _ _ H) as (post & Heq & ? & ?). by exists "", post.
  - cbn [regexExec].
    destruct (match stripPrefix marker (String c s) with
              | Some tail => groupThenBracket tail
              | None => None
              end) as [g'|] eqn:H.
    + intros [= <-]. destruct (Hhere _ _ H) as (post & Heq & ? & ?). by exists "", post.
    + intros Hrec. destruct (IH g Hrec) as (pre & post & -> & ? & ?).
      by exists (String c pre), post.
Qed.

(** X14: a marker is read back: when the description is some text in
    which [[atomist:TAG:] does not occur, then [[atomist:TAG:], a value
    without a line break, a closing bracket, and a rest whose first line
    has no further closing bracket, the handler reads exactly that value for
    TAG (a TAG without an opening bracket, as the four of the handler).  The
    value may itself contain closing brackets: the capture runs to the last
    closing bracket of the line, so two markers on one line are read as
    one value. *)
Theorem environmentTag_reads_value
    (tag pre value rest : string) (i : Issue) :
  fields_description i =
    Some (pre +:+ "[atomist:" +:+ tag +:+ ":" +:+ value +:+ "]" +:+ rest) →
  hasChar "[" tag = false →
  contains ("[atomist:" +:+ tag +:+ ":") pre = false →
  hasLineTerminator value = false →
  bracketOnLine rest = false →
  environmentTag tag (IssueBody i) = Returned value.
Proof.
  intros Hdescr Htag Hpre Hvalue Hrest. unfold environmentTag. rewrite Hdescr.
  change (default "null" (Some ?x)) with x.
  assert (Hshape : pre +:+ "[atomist:" +:+ tag +:+ ":" +:+ value +:+ "]" +:+ rest =
                   pre +:+ String "[" ("atomist:" +:+ tag +:+ ":") +:+ value +:+ String "]" rest).
  { rewrite (append_cons "[" ("atomist:" +:+ tag +:+ ":")), !append_assoc. reflexivity. }
  rewrite Hshape.
  change ("[atomist:" +:+ tag +:+ ":") with (String "[" ("atomist:" +:+ tag +:+ ":")) in *.
  rewrite regexExec_found; [done| |done..].
  rewrite !hasChar_app, Htag. reflexivity.
Qed.

Lemma environmentTag_reads_value_witness :
  environmentTag "repo" (sampleDetail (Some taggedDescription)) = Returned "sdm-pack-jira" ∧
  environmentTag "sha"
    (sampleDetail (Some "[atomist:sha:4f2a9c1] [atomist:owner:atomist]"))
    = Returned "4f2a9c1] [atomist:owner:atomist".
Proof.
  split.
  - apply (environmentTag_reads_value "repo"
             ("Deploy to production" +:+ String "010"
              ("[atomist:sha:4f2a9c1]" +:+ String "010"
              ("[atomist:owner:atomist]" +:+ String "010" "")))
             "sdm-pack-jira" (String "010" "[atomist:branch:master]"));
      reflexivity.
  - apply (environmentTag_reads_value "sha" "" "4f2a9c1] [atomist:owner:atomist" "");
      reflexivity.
Defined.

(** X15: whatever the handler reads for a marker is delimited in the
    description: the value stands between [[atomist:TAG:] and a closing
    bracket, contains no line break, and no further closing bracket follows
    on that line. *)
Theorem environmentTag_value_delimited (tag value : string) (i : Issue) :
  environmentTag tag (IssueBody i) = Returned value →
  ∃ pre post,
    default "null" (fields_description i) =
      pre +:+ ("[atomist:" +:+ tag +:+ ":") +:+ value +:+ String "]" post ∧
    hasLineTerminator value = false ∧
    bracketOnLine post = false.
Proof.
  unfold environmentTag.
  destruct (regexExec ("[atomist:" +:+ tag +:+ ":") (default "null" (fields_description i)))
    as [g|] eqn:H; [|discriminate].
  intros [= <-]. by apply regexExec_Some.
Qed.

Lemma environmentTag_value_delimited_witness :
  ∃ pre post,
    taggedDescription = pre +:+ "[atomist:owner:" +:+ "atomist" +:+ String "]" post ∧
    bracketOnLine post = false.
Proof.
  destruct (environmentTag_value_delimited "owner" "atomist"
              {| issue_self_url := "https://jira.example.com/rest/api/2/issue/10001";
                 fields_summary := "Login fails";
                 fields_description := Some taggedDescription |} eq_refl)
    as (pre & post & Heq & _ & Hpost).
  exists pre, post. split; [exact Heq|exact Hpost].
Defined.

(** ** Creating resources *)

(** X16: how [createJiraResource] ends.  If the authenticator rejects, its
    error is thrown as it is and no request is sent; otherwise one request
    is sent, a POST unless [update] is set.  The created item is returned
    when the tracker accepts.  When it rejects with a response, a plain
    error is thrown whose message is the data of the response, the status
    being logged only; when the rejection carries no response, reading its
    status throws a [TypeError] in place of that error. *)
Theorem createJiraResource_outcomes {D : Type} (env : Env) (stringify : D → string)
    (send : HttpMethod → string → D → SendResult)
    (apiUrl : string) (data : D) (update : bool) (w : World) :
  let r := createJiraResource env stringify send apiUrl data update w in
  jiraCache r.2 = jiraCache w ∧
  match getJiraAuth env with
  | Thrown e => r.1 = CreateFailed (Unhandled e) ∧ exchanges r.2 = exchanges w
  | Returned _ =>
      exchanges r.2 = exchanges w ++ [apiUrl] ∧
      match send (if update then Put else Post) apiUrl data with
      | SendOk item => r.1 = Created item
      | SendRejected (Some response) =>
          r.1 = CreateFailed (PlainError (response_data response))
      | SendRejected None =>
          r.1 = CreateFailed
                  (Unhandled (TypeError "Cannot read property 'status' of undefined"))
      end
  end.
Proof.
  unfold createJiraResource.
  destruct (getJiraAuth env); cbn; [|done].
  destruct (send (if update then Put else Post) apiUrl data) as [item|[response|]]; cbn; auto.
Qed.

Lemma objectGet_set {V} (o : ObjectOf V) (name k : string) (v : V) :
  objectGet (objectSet o name v) k = if name =? k then Some v else objectGet o k.
Proof.
  induction o as [|[k' v'] o IH]; cbn [objectSet objectGet]; [done|].
  destruct (String.eqb_spec k' name) as [->|Hne]; cbn [objectGet].
  - by destruct (name =? k).
  - rewrite IH. destruct (String.eqb_spec k' k) as [->|]; [|done].
    by rewrite (proj2 (String.eqb_neq _ _)) by congruence.
Qed.

Lemma objectGet_absent {V} (o : ObjectOf V) (k : string) :
  k ∉ o.*1 → objectGet o k = None.
Proof.
  induction o as [|[k' v'] o IH]; cbn; [done|].
  rewrite not_elem_of_cons. intros [Hne Hk].
  rewrite (proj2 (String.eqb_neq _ _)) by congruence. by apply IH.
Qed.

Lemma objectSpread_get {V} (o : ObjectOf V) (extra : option (ObjectOf V)) (k : string) :
  (∀ properties, extra = Some properties → NoDup properties.*1) →
  objectGet (objectSpread o extra) k =
  match extra ≫= (fun properties => objectGet properties k) with
  | Some v => Some v
  | None => objectGet o k
  end.
Proof.
  destruct extra as [properties|]; cbn; [|done].
  intros Hnd. specialize (Hnd properties eq_refl).
  revert o. induction properties as [|[k1 v1] properties IH]; intros o; [done|].
  cbn [fold_left fst snd objectGet] in *. apply list.NoDup_cons in Hnd as [Hk1 Hnd].
  rewrite (IH Hnd), objectGet_set.
  destruct (String.eqb_spec k1 k) as [->|]; [|done].
  by rewrite objectGet_absent.
Qed.

(** X17: in the payloads of [createJiraProject] and [createJiraComponent]
    the properties of [extraData] come last in the literal, so they win
    over the named properties of the same name: a property of the payload
    is the one of [extraData] if it has one, and the named one otherwise.
    Without [extraData] the payload is the named properties. *)
Theorem extraData_overrides {V : Type} (str : string → V)
    (project : JiraProjectDefinition V) (component : JiraComponentDefinition V)
    (k : string) :
  (∀ properties, project_extraData project = Some properties → NoDup properties.*1) →
  (∀ properties, component_extraData component = Some properties → NoDup properties.*1) →
  objectGet (projectPayload str project) k =
    match project_extraData project ≫= (fun properties => objectGet properties k) with
    | Some v => Some v
    | None => objectGet (projectProperties str project) k
    end ∧
  objectGet (componentPayload str component) k =
    match component_extraData component ≫= (fun properties => objectGet properties k) with
    | Some v => Some v
    | None => objectGet (componentProperties str component) k
    end.
Proof.
  intros Hp Hc. unfold projectPayload, componentPayload.
  split; by apply objectSpread_get.
Qed.

Lemma extraData_overrides_witness :
  objectGet (projectPayload id sampleProject) "key" = Some "OTHER" ∧
  objectGet (componentPayload id sampleComponent) "key" = None.
Proof.
  apply (extraData_overrides id sampleProject sampleComponent).
  - intros properties [= <-]. by apply (bool_decide_unpack _).
  - intros properties [=].
Defined.

(** ** The default authenticator *)

Section DefaultAuthenticator.
Variable base64 : string → string.
Hypothesis base64_inj : ∀ s1 s2, base64 s1 = base64 s2 → s1 = s2.

(** X18: the header of [defaultJiraAuthenticator] identifies the
    credentials: two configurations whose user names contain no colon get
    the same Authorization header only if they have the same user and
    the same password. *)
Theorem defaultJiraAuthenticator_identifies_credentials
    (user1 password1 user2 password2 : string) :
  hasChar ":" user1 = false →
  hasChar ":" user2 = false →
  defaultJiraAuthenticator base64 user1 password1 =
  defaultJiraAuthenticator base64 user2 password2 →
  user1 = user2 ∧ password1 = password2.
Proof.
  intros H1 H2 Heq. unfold defaultJiraAuthenticator in Heq.
  apply (inj (String.append "Basic ")) in Heq. apply base64_inj in Heq.
  change (user1 +:+ String ":" password1 = user2 +:+ String ":" password2) in Heq.
  by apply (split_at_first ":") in Heq.
Qed.
End DefaultAuthenticator.

Lemma defaultJiraAuthenticator_identifies_credentials_witness :
  "sdm" = "sdm" ∧ "se:cret" = "se:cret".
Proof.
  apply (defaultJiraAuthenticator_identifies_credentials id (fun _ _ H => H)
           "sdm" "se:cret" "sdm" "se:cret"); reflexivity.
Defined.

(** A creation refused by a tracker that could not be reached. *)
Example createJiraProject_without_response :
  let env := sampleEnv false basicAuth (sampleTracker None) [] in
  (createJiraProject env id (fun _ => "{...}") (refusingTracker None) sampleProject
     emptyWorld).1 =
  CreateFailed (Unhandled (TypeError "Cannot read property 'status' of undefined")).
Proof. reflexivity. Qed.

(** ** Keys of different mappings *)

Lemma length_append (a b : string) :
  String.length (a +:+ b) = (String.length a + String.length b)%nat.
Proof. induction a as [|x a IH]; [done|]. rewrite append_cons. cbn. by rewrite IH. Qed.

Lemma append_inj_r (a b t : string) : a +:+ t = b +:+ t → a = b.
Proof.
  revert b. induction a as [|x a IH]; intros [|y b]; rewrite ?append_cons.
  - done.
  - intros H. apply (f_equal String.length) in H. cbn [String.length] in H.
    rewrite !length_append in H. cbn [String.length] in H. lia.
  - intros H. apply (f_equal String.length) in H. cbn [String.length] in H.
    rewrite !length_append in H. cbn [String.length] in H. lia.
  - intros [= -> H]. by rewrite (IH _ H).
Qed.

Lemma binaryDigits_inj (p q : positive) : binaryDigits p = binaryDigits q → p = q.
Proof.
  revert q. induction p as [p IH|p IH|]; intros [q|q|]; cbn; try discriminate.
  - intros [= H]. by rewrite (IH _ H).
  - destruct p; discriminate.
  - intros [= H]. by rewrite (IH _ H).
  - destruct q; discriminate.
  - done.
Qed.

Lemma binaryDigits_no_hyphen (p : positive) : hasChar "-" (binaryDigits p) = false.
Proof. induction p as [p IH|p IH|]; cbn; by rewrite ?IH. Qed.

Lemma binaryHash_collision_free (o1 o2 : JsObject) :
  wellFormed o1 → wellFormed o2 → binaryHash o1 = binaryHash o2 → o1 ≡ₚ o2.
Proof.
  unfold binaryHash. intros Hwf1 Hwf2 H.
  apply binaryDigits_inj in H. apply (inj encode) in H.
  by apply (list_to_map_inj (M := gmap string)) in H.
Qed.

Lemma buildJiraHashKey_cut (objectHash : JsObject → string) (workspaceId : string)
    (payload : JsObject) :
  buildJiraHashKey objectHash workspaceId payload =
  (workspaceId +:+
   String "-" (toStr (getProp payload "componentId") +:+
   String "-" (toStr (getProp payload "projectId") +:+
   String "-" (toStr (getProp payload "channel"))))) +:+
  String "-" (objectHash payload).
Proof.
  rewrite buildJiraHashKey_shape.
  repeat (rewrite ?append_assoc, ?append_cons). reflexivity.
Qed.

Section DistinctKeys.
(** [objectHash], with what is assumed of it here: it tells apart any two
    objects that differ in more than the order of their properties, and
    its digests contain no hyphen (they are hexadecimal by default). *)
Variable objectHash : JsObject → string.
Hypothesis objectHash_collision_free :
  ∀ o1 o2, wellFormed o1 → wellFormed o2 → objectHash o1 = objectHash o2 → o1 ≡ₚ o2.
Hypothesis objectHash_no_hyphen : ∀ o, hasChar "-" (objectHash o) = false.

(** X20: no two mappings share a key: if [buildJiraHashKey] gives the same
    key for two workspaces and payloads, then the workspaces are the same
    and the payloads have the same properties, up to their order. *)
Theorem buildJiraHashKey_injective
    (workspace1 workspace2 : string) (payload1 payload2 : JsObject) :
  wellFormed payload1 →
  wellFormed payload2 →
  buildJiraHashKey objectHash workspace1 payload1 =
  buildJiraHashKey objectHash workspace2 payload2 →
  workspace1 = workspace2 ∧ payload1 ≡ₚ payload2.
Proof.
  intros Hwf1 Hwf2 Heq. rewrite !buildJiraHashKey_cut in Heq.
  apply split_at_last in Heq as [Hhead Hhash]; [|apply objectHash_no_hyphen..].
  apply objectHash_collision_free in Hhash; [|done..].
  split; [|exact Hhash].
  rewrite !(getProp_Permutation payload1 payload2) in Hhead by done.
  by apply append_inj_r in Hhead.
Qed.
End DistinctKeys.

Lemma buildJiraHashKey_injective_witness :
  "T29E48P34" = "T29E48P34" ∧
  [("projectId", JsString "A"); ("channel", JsString "dev")] ≡ₚ
  [("channel", JsString "dev"); ("projectId", JsString "A")].
Proof.
  apply (buildJiraHashKey_injective binaryHash binaryHash_collision_free
           (fun o => binaryDigits_no_hyphen _)).
  - by apply (bool_decide_unpack _).
  - by apply (bool_decide_unpack _).
  - vm_compute. reflexivity.
Defined.

(** ** More on the approval handler *)

(** X21: the handler does not guard against a null
    [issue_event_type_name] as [routeEvent] does: for a
    [jira:issue_updated] event without a type name whose issue carries the
    four markers, calling [match] on it throws a [TypeError]; no goal is
    updated. *)
Theorem approval_handler_null_type_name_throws
    (env : Env) (goal : Goal) (event : JiraIssueEvent) (rest : list JiraIssueEvent)
    (w w1 : World) (issue_ : JiraBody) (ref : RepoRef) :
  getJiraDetails env (issue_self (issue event)) false 3600 w = (Returned issue_, w1) →
  environmentOf issue_ = Some ref →
  webhookEvent event = "jira:issue_updated" →
  issue_event_type_name event = None →
  let r := onJiraIssueEventApprovalHandler env goal (event :: rest) w in
  r.1 = Thrown (TypeError "Cannot read property 'match' of null") ∧
  goalUpdates r.2 = goalUpdates w.
Proof.
  intros Hget Henv Hhook Hname r. unfold r.
  pose proof (getJiraDetails_frame env (issue_self (issue event)) false 3600 w) as [_ Hg].
  rewrite Hget in Hg. cbn [snd] in Hg.
  destruct ref as [owner repo sha branch].
  handler_start Hget Henv. cbn [ref_sha ref_owner ref_repo ref_branch] in *.
  rewrite Hhook, Hname.
  change ("jira:issue_updated" =? "jira:issue_updated") with true. cbn. by rewrite Hg.
Qed.

Lemma approval_handler_null_type_name_throws_witness :
  let r := onJiraIssueEventApprovalHandler (approvalEnv (Some taggedDescription)) deployGoal
             [untypedUpdate] emptyWorld in
  r.1 = Thrown (TypeError "Cannot read property 'match' of null") ∧
  goalUpdates r.2 = [].
Proof.
  intros r.
  pose (env := approvalEnv (Some taggedDescription)).
  pose (fetched := getJiraDetails env (issue_self (issue untypedUpdate)) false 3600 emptyWorld).
  assert (Hget : fetched = (Returned (sampleDetail (Some taggedDescription)), fetched.2))
    by (vm_compute; reflexivity).
  apply (approval_handler_null_type_name_throws env deployGoal untypedUpdate [] emptyWorld
           fetched.2 (sampleDetail (Some taggedDescription))
           {| ref_owner := "atomist"; ref_repo := "sdm-pack-jira";
              ref_sha := "4f2a9c1"; ref_branch := "master" |}
           Hget);
    reflexivity.
Defined.

(** ** Helpers that fail or take their time *)

(** A resolver that rejects aborts the route: its error is the error of
    [routeEvent], nothing is dispatched, and its request is among those of
    the run. *)
Example resolver_rejection_aborts_route :
  let env := sampleEnvWith false basicAuth (sampleTracker None) failingResolver in
  let r := routeEvent env createdEvent true emptyWorld in
  r.1 = Thrown (TransportError 502 "Bad Gateway") ∧
  sent r.2 = [] ∧
  exchanges r.2 =
    ["https://jira.example.com/rest/api/2/issue/10001?expand=changelog";
     "https://jira.example.com/rest/api/2/issue/10001/transitions";
     "https://jira.example.com/rest/dev-status/latest/issue/detail?issueId=10001"].
Proof. vm_compute. repeat split. Qed.

(** A route whose resolver takes ten seconds: when it returns, the
    transitions, cached for five seconds, have expired, and the issue,
    cached for thirty, has not. *)
Example slow_resolver_outlives_transitions :
  let env := sampleEnvWith true basicAuth (sampleTracker None)
                           (slowResolver 10 [allEnabled "jira-feed"]) in
  let r := routeEvent env createdEvent true emptyWorld in
  r.1 = Returned tt ∧
  cacheLookup "https://jira.example.com/rest/api/2/issue/10001/transitions" r.2 = None ∧
  cacheLookup "https://jira.example.com/rest/api/2/issue/10001?expand=changelog" r.2
    = Some (sampleDetail None).
Proof. vm_compute. repeat split. Qed.
